(** * AWS automation handlers: a shallow embedding and its properties

    The repository is a set of AWS Lambda handlers written in Python.  Every
    handler parses a JSON event, calls managed services through boto3,
    branches on field values and returns a response dictionary.

    The embedding follows the sources function by function:
    - Python values (JSON events, boto3 responses, dictionaries built by the
      handlers) are values of [pyval]; a number is the rational it denotes.
      The means of the idle and oversized checks, the mean latency and the
      throughput of the load test, the score of the performance analysis
      and [float] of a number are rounded as binary64 arithmetic rounds
      them ([round64]); the remaining arithmetic is on the rationals.  A
      number that enters the program, in an event or in a reply, is finite:
      the JSON extensions [NaN] and [Infinity], and the strings that [float]
      turns into them, are outside the embedding;
    - a Python [str] is a [string] whose characters are code points 0..255;
    - exceptions are values of [exn], and a computation that may raise returns
      a [result];
    - calls to AWS, to the clock and to [uuid.uuid4] are effects: they are
      appended to a history, and the environment ([world]) answers each call
      from the history so far;
    - functions of the Python standard library whose algorithm is not part of
      the repository ([json.loads], [base64.b64decode], [float] of a string,
      [datetime.fromisoformat], ...) are fields of a [pylib] record. *)

From Stdlib Require Import String Ascii List ZArith QArith Lia Bool Permutation.
From Stdlib Require Import DecimalString Lqa.
Import ListNotations.

Local Open Scope list_scope.
Local Open Scope string_scope.

(** ** Python values, exceptions and primitive operations *)

Module Py.

#[warnings="-register-all"]
Inductive pyval : Type :=
| PNone
| PBool (b : bool)
| PNum (q : Q)
| PStr (s : string)
| PDatetime (epoch : Z)
| PList (l : list pyval)
| PDict (d : list (string * pyval)).

Inductive exn : Type :=
| NameError (name : string)
| KeyError (key : string)
| IndexError
| TypeError
| AttributeError
| ValueError (msg : string)
| JSONDecodeError
| ClientError (code : string)
| OverflowError (msg : string)
| ZeroDivisionError (msg : string)
| Exception_ (msg : string).

Inductive result (A : Type) : Type :=
| Ok (a : A)
| Raise (e : exn).

Arguments Ok {A} a.
Arguments Raise {A} e.

(** [str(e)] *)
Definition exn_str (e : exn) : string :=
  match e with
  | NameError n => "name '" ++ n ++ "' is not defined"
  | KeyError k => "'" ++ k ++ "'"
  | IndexError => "list index out of range"
  | TypeError => "unsupported operand type"
  | AttributeError => "object has no attribute"
  | ValueError m => m
  | JSONDecodeError => "Expecting value"
  | ClientError c => "An error occurred (" ++ c ++ ")"
  | OverflowError m => m
  | ZeroDivisionError m => m
  | Exception_ m => m
  end.

(** *** Strings *)

Definition is_upper_ascii (c : ascii) : bool :=
  let n := nat_of_ascii c in
  ((65 <=? n) && (n <=? 90))%nat.

(** Upper-case letters of Latin-1, U+00C0..U+00DE without the sign U+00D7. *)
Definition is_upper_latin1 (c : ascii) : bool :=
  let n := nat_of_ascii c in
  ((192 <=? n) && (n <=? 222) && negb (n =? 215))%nat.

Definition lower_char (c : ascii) : ascii :=
  if is_upper_ascii c || is_upper_latin1 c
  then ascii_of_nat (nat_of_ascii c + 32)
  else c.

(** [s.lower()] *)
Fixpoint lower (s : string) : string :=
  match s with
  | EmptyString => EmptyString
  | String c s' => String (lower_char c) (lower s')
  end.

(** [sub in s] for two strings *)
Fixpoint contains (sub s : string) : bool :=
  String.prefix sub s ||
  match s with
  | EmptyString => false
  | String _ s' => contains sub s'
  end.

Fixpoint drop (n : nat) (s : string) : string :=
  match n, s with
  | O, _ => s
  | S n', String _ s' => drop n' s'
  | S _, EmptyString => EmptyString
  end.

(** [s.replace(old, new)] for a non-empty [old]; [skip] counts the
    characters of a match that are still to be dropped. *)
Fixpoint replace_from (skip : nat) (old new s : string) : string :=
  match s with
  | EmptyString => EmptyString
  | String c s' =>
      match skip with
      | S k => replace_from k old new s'
      | O =>
          if String.prefix old s
          then new ++ replace_from (String.length old - 1) old new s'
          else String c (replace_from 0 old new s')
      end
  end.

Definition replace (old new s : string) : string := replace_from 0 old new s.

(** Characters for which [str.isdigit] holds among the code points 0..255:
    the ASCII digits and the superscripts U+00B2, U+00B3, U+00B9. *)
Definition isdigit_char (c : ascii) : bool :=
  let n := nat_of_ascii c in
  (((48 <=? n) && (n <=? 57)) || (n =? 178) || (n =? 179) || (n =? 185))%nat.

Fixpoint all_chars (p : ascii -> bool) (s : string) : bool :=
  match s with
  | EmptyString => true
  | String c s' => p c && all_chars p s'
  end.

(** [s.isdigit()]: false on the empty string *)
Definition isdigit (s : string) : bool :=
  match s with
  | EmptyString => false
  | _ => all_chars isdigit_char s
  end.

(** [sep.join(l)] *)
Fixpoint join (sep : string) (l : list string) : string :=
  match l with
  | [] => ""
  | [x] => x
  | x :: rest => x ++ sep ++ join sep rest
  end.

(** *** Dictionaries as association lists (first binding wins) *)

Fixpoint lookup (k : string) (d : list (string * pyval)) : option pyval :=
  match d with
  | [] => None
  | (k', v) :: d' => if String.eqb k k' then Some v else lookup k d'
  end.

(** [d[k] = v] keeps the position of an existing key. *)
Fixpoint set_item {V} (k : string) (v : V) (d : list (string * V))
  : list (string * V) :=
  match d with
  | [] => [(k, v)]
  | (k', v') :: d' =>
      if String.eqb k k' then (k, v) :: d' else (k', v') :: set_item k v d'
  end.

(** *** Operations on values *)

Definition Qzero (q : Q) : bool := Qeq_bool q 0.

(** truth value of an object *)
Definition truthy (v : pyval) : bool :=
  match v with
  | PNone => false
  | PBool b => b
  | PNum q => negb (Qzero q)
  | PStr s => negb (String.eqb s "")
  | PDatetime _ => true
  | PList l => match l with [] => false | _ => true end
  | PDict d => match d with [] => false | _ => true end
  end.

(** [v == 'literal'] *)
Definition str_is (v : pyval) (s : string) : bool :=
  match v with
  | PStr s' => String.eqb s' s
  | _ => false
  end.

(** [v[k]] with a string key *)
Definition getitem (v : pyval) (k : string) : result pyval :=
  match v with
  | PDict d => match lookup k d with Some x => Ok x | None => Raise (KeyError k) end
  | _ => Raise TypeError
  end.

(** [v[i]] with an integer index [i >= 0] *)
Definition index (v : pyval) (i : nat) : result pyval :=
  match v with
  | PList l => match nth_error l i with Some x => Ok x | None => Raise IndexError end
  | PStr s => match String.get i s with
              | Some c => Ok (PStr (String c EmptyString))
              | None => Raise IndexError
              end
  | PDict _ => Raise (KeyError "0")
  | _ => Raise TypeError
  end.

(** [v.get(k, default)] *)
Definition get (v : pyval) (k : string) (default : pyval) : result pyval :=
  match v with
  | PDict d => Ok (match lookup k d with Some x => x | None => default end)
  | _ => Raise AttributeError
  end.

(** ['literal' in v] *)
Definition has (k : string) (v : pyval) : result bool :=
  match v with
  | PDict d => Ok (match lookup k d with Some _ => true | None => false end)
  | PList l => Ok (existsb (fun x => str_is x k) l)
  | PStr s => Ok (contains k s)
  | _ => Raise TypeError
  end.

(** [len(v)] *)
Definition len (v : pyval) : result nat :=
  match v with
  | PStr s => Ok (String.length s)
  | PList l => Ok (List.length l)
  | PDict d => Ok (List.length d)
  | _ => Raise TypeError
  end.

(** [v.lower()] *)
Definition lower_of (v : pyval) : result string :=
  match v with
  | PStr s => Ok (lower s)
  | _ => Raise AttributeError
  end.

(** the elements a [for] loop visits *)
Definition iter (v : pyval) : result (list pyval) :=
  match v with
  | PList l => Ok l
  | PDict d => Ok (map (fun kv => PStr (fst kv)) d)
  | PStr s => Ok (map (fun c => PStr (String c EmptyString)) (list_ascii_of_string s))
  | _ => Raise TypeError
  end.

(** a number as Python arithmetic sees it ([bool] is a subclass of [int]) *)
Definition as_number (v : pyval) : result Q :=
  match v with
  | PNum q => Ok q
  | PBool true => Ok 1%Q
  | PBool false => Ok 0%Q
  | _ => Raise TypeError
  end.

Definition of_nat (n : nat) : pyval := PNum (inject_Z (Z.of_nat n)).

(** [l.append(x)] *)
Definition append {A} (l : list A) (x : A) : list A := (l ++ [x])%list.

Definition Qlt_bool (x y : Q) : bool := negb (Qle_bool y x).

(** *** Floating-point numbers

    A Python [float] is a binary64 value: a finite one is the rational it
    denotes, an infinity, or not a number.  Arithmetic on floats rounds the
    exact result to the nearest binary64 value, ties to even, and overflows
    to an infinity.  In a [PNum q], a [q] that is a binary64 value stands
    for that float; any other [q] is an integer too wide to be one. *)

Inductive float64 : Type :=
| Finite (q : Q)
| Infinite (negative : bool)
| NaN.

(** the integer nearest to [n / d] for [d > 0], ties to even *)
Definition round_half_even (n d : Z) : Z :=
  let q := (n / d)%Z in
  let r := (n mod d)%Z in
  match (2 * r ?= d)%Z with
  | Lt => q
  | Gt => (q + 1)%Z
  | Eq => if Z.even q then q else (q + 1)%Z
  end.

(** [floor (log2 (n / d))] for positive [n] and [d] *)
Definition floor_log2 (n d : Z) : Z :=
  let k := (Z.log2 n - Z.log2 d)%Z in
  let below :=
    if (0 <=? k)%Z then (n <? d * 2 ^ k)%Z else (n * 2 ^ (- k) <? d)%Z in
  if below then (k - 1)%Z else k.

(** the exponent of the binary64 grid at [n / d]: 53 significant bits, and
    no finer than [2 ^ -1074] *)
Definition grid_exponent (n d : Z) : Z := Z.max (floor_log2 n d - 52) (-1074).

(** [n / d], positive, rounded to the grid *)
Definition round_magnitude (n d : Z) : Q :=
  let e := grid_exponent n d in
  if (0 <=? e)%Z
  then inject_Z (round_half_even n (d * 2 ^ e) * 2 ^ e)
  else Qred (Qmake (round_half_even (n * 2 ^ (- e)) d) (Z.to_pos (2 ^ (- e)))).

(** the first magnitude that no longer is a finite float *)
Definition overflow_threshold : Q := inject_Z (2 ^ 1024).

(** the binary64 value nearest to [q] *)
Definition round64 (q : Q) : float64 :=
  let n := Qnum (Qred q) in
  let d := Zpos (Qden (Qred q)) in
  match n with
  | Z0 => Finite 0
  | Zpos _ =>
      let r := round_magnitude n d in
      if Qle_bool overflow_threshold r then Infinite false else Finite r
  | Zneg _ =>
      let r := round_magnitude (- n) d in
      if Qle_bool overflow_threshold r then Infinite true else Finite (- r)
  end.

Definition is_binary64 (q : Q) : bool :=
  match round64 q with
  | Finite r => Qeq_bool r q
  | _ => false
  end.

Definition float_add (x y : float64) : float64 :=
  match x, y with
  | NaN, _ | _, NaN => NaN
  | Infinite a, Infinite b => if Bool.eqb a b then Infinite a else NaN
  | Infinite a, Finite _ | Finite _, Infinite a => Infinite a
  | Finite p, Finite q => round64 (p + q)
  end.

Definition float_div (x y : float64) : result float64 :=
  match x, y with
  | NaN, _ | _, NaN => Ok NaN
  | Infinite _, Infinite _ => Ok NaN
  | Finite _, Infinite _ => Ok (Finite 0)
  | Infinite a, Finite q =>
      if Qzero q then Raise (ZeroDivisionError "float division by zero")
      else Ok (Infinite (if Qlt_bool q 0 then negb a else a))
  | Finite p, Finite q =>
      if Qzero q then Raise (ZeroDivisionError "float division by zero")
      else Ok (round64 (p / q))
  end.

(** [x < y] *)
Definition float_lt (x y : float64) : bool :=
  match x, y with
  | NaN, _ | _, NaN => false
  | Infinite a, Infinite b => a && negb b
  | Infinite a, Finite _ => a
  | Finite _, Infinite b => negb b
  | Finite p, Finite q => Qlt_bool p q
  end.

(** a number in an arithmetic expression: an [int], which is exact, or a
    [float] *)
Inductive number : Type :=
| Exact (q : Q)
| Approx (f : float64).

Definition number_of (q : Q) : number :=
  if is_binary64 q then Approx (Finite q) else Exact q.

(** [float(n)] of an [int] *)
Definition float_of_int (q : Q) : result float64 :=
  match round64 q with
  | Finite r => Ok (Finite r)
  | _ => Raise (OverflowError "int too large to convert to float")
  end.

(** [x + y] *)
Definition number_add (x y : number) : result number :=
  match x, y with
  | Exact p, Exact q => Ok (Exact (p + q))
  | Exact p, Approx g =>
      match float_of_int p with
      | Ok f => Ok (Approx (float_add f g))
      | Raise e => Raise e
      end
  | Approx f, Exact q =>
      match float_of_int q with
      | Ok g => Ok (Approx (float_add f g))
      | Raise e => Raise e
      end
  | Approx f, Approx g => Ok (Approx (float_add f g))
  end.

(** [x / y]: the quotient of two integers is rounded once; otherwise the
    integer is converted to a float first *)
Definition number_div (x y : number) : result float64 :=
  match x, y with
  | Exact p, Exact q =>
      if Qzero q then Raise (ZeroDivisionError "division by zero")
      else match round64 (p / q) with
           | Finite r => Ok (Finite r)
           | _ => Raise (OverflowError "integer division result too large for a float")
           end
  | Exact p, Approx g =>
      match float_of_int p with
      | Ok f => float_div f g
      | Raise e => Raise e
      end
  | Approx f, Exact q =>
      match float_of_int q with
      | Ok g => float_div f g
      | Raise e => Raise e
      end
  | Approx f, Approx g => float_div f g
  end.

(** [x / n] for the integer [n >= 0] *)
Definition number_div_nat (x : number) (n : nat) : result float64 :=
  number_div x (Exact (inject_Z (Z.of_nat n))).

(** an integer value *)
Definition is_integer (q : Q) : bool := (Z.pos (Qden (Qred q)) =? 1)%Z.

(** [sep.join(vs)]: every element has to be a string *)
Fixpoint strings_of (vs : list pyval) : result (list string) :=
  match vs with
  | [] => Ok []
  | PStr s :: rest =>
      match strings_of rest with
      | Ok l => Ok (s :: l)
      | Raise e => Raise e
      end
  | _ :: _ => Raise TypeError
  end.

Definition join_vals (sep : string) (vs : list pyval) : result string :=
  match strings_of vs with
  | Ok l => Ok (join sep l)
  | Raise e => Raise e
  end.

(** a natural number in decimal, as an f-string prints it *)
Definition nat_str (n : nat) : string := NilZero.string_of_uint (Nat.to_uint n).

Definition dquote : string := String (ascii_of_nat 34) EmptyString.
Definition newline : string := String (ascii_of_nat 10) EmptyString.

(** *** Standard-library functions taken as given *)

Record datetime := {
  dt_year : nat; dt_month : nat; dt_day : nat; dt_hour : nat;
  dt_iso : string
}.

Record pylib := {
  json_loads : string -> option pyval;
  json_dumps : pyval -> string;
  b64decode_utf8 : string -> option string;
  float_of_str : string -> option Q;
  repr : pyval -> string;
  fromisoformat : string -> option datetime;
  isoformat : Z -> string;
  strftime_ymd : Z -> string;
  month_start : Z -> Z;
  format_2f : Q -> string
}.

(** [float(v)]: a float is returned as it is, an integer is rounded to the
    nearest float or is too large for one *)
Definition to_float (L : pylib) (v : pyval) : result Q :=
  match v with
  | PNum q =>
      if is_binary64 q then Ok q
      else match round64 q with
           | Finite r => Ok r
           | _ => Raise (OverflowError "int too large to convert to float")
           end
  | PBool true => Ok 1%Q
  | PBool false => Ok 0%Q
  | PStr s => match float_of_str L s with
              | Some q => Ok q
              | None => Raise (ValueError "could not convert string to float")
              end
  | _ => Raise TypeError
  end.

(** the text of a dictionary key; lists and dictionaries are unhashable *)
Definition key_of (L : pylib) (v : pyval) : result string :=
  match v with
  | PList _ | PDict _ => Raise TypeError
  | PStr s => Ok s
  | _ => Ok (repr L v)
  end.

(** [str(v)], as an f-string formats a value *)
Definition str_of (L : pylib) (v : pyval) : string :=
  match v with
  | PStr s => s
  | _ => repr L v
  end.

(** *** Effects *)

Inductive call : Type :=
| Sdk (client operation : string) (kwargs : list (string * pyval))
| Utcnow
| Uuid4.

Definition history := list call.

Record world := {
  aws : history -> string -> string -> list (string * pyval) -> result pyval;
  clock : history -> Z;
  uuid : history -> string
}.

Definition M (A : Type) : Type := world -> history -> result A * history.

Definition ret {A} (a : A) : M A := fun _ h => (Ok a, h).

Definition raise {A} (e : exn) : M A := fun _ h => (Raise e, h).

Definition bind {A B} (m : M A) (f : A -> M B) : M B :=
  fun w h =>
    match m w h with
    | (Ok a, h') => f a w h'
    | (Raise e, h') => (Raise e, h')
    end.

(** [try: m  except Exception as e: handler e] *)
Definition try_except {A} (m : M A) (handler : exn -> M A) : M A :=
  fun w h =>
    match m w h with
    | (Ok a, h') => (Ok a, h')
    | (Raise e, h') => handler e w h'
    end.

Definition lift {A} (r : result A) : M A := fun _ h => (r, h).

Definition sdk (client operation : string) (kwargs : list (string * pyval)) : M pyval :=
  fun w h => (aws w h client operation kwargs, (h ++ [Sdk client operation kwargs])%list).

Definition utcnow : M Z := fun w h => (Ok (clock w h), (h ++ [Utcnow])%list).

Definition uuid4 : M string := fun w h => (Ok (uuid w h), (h ++ [Uuid4])%list).

Fixpoint for_each {A} (l : list A) (body : A -> M unit) : M unit :=
  match l with
  | [] => ret tt
  | x :: rest => bind (body x) (fun _ => for_each rest body)
  end.

(** a loop that threads the variables it assigns *)
Fixpoint fold_each {A S} (l : list A) (body : S -> A -> M S) (s : S) : M S :=
  match l with
  | [] => ret s
  | x :: rest => bind (body s x) (fun s' => fold_each rest body s')
  end.

(** Loops inside a [try] whose variables outlive an exception: the loop
    returns the variables as they were when the exception was raised. *)
Definition guarded {A S} (s : S) (m : M A) (k : A -> M (S * option exn))
  : M (S * option exn) :=
  fun w h =>
    match m w h with
    | (Ok a, h') => k a w h'
    | (Raise e, h') => (Ok (s, Some e), h')
    end.

Fixpoint pfold {A S} (l : list A) (body : S -> A -> M (S * option exn)) (s : S)
  : M (S * option exn) :=
  match l with
  | [] => ret (s, None)
  | x :: rest =>
      bind (body s x) (fun r =>
        match snd r with
        | None => pfold rest body (fst r)
        | Some e => ret (fst r, Some e)
        end)
  end.

(** the calls a computation adds to an empty history, and its outcome *)
Definition run {A} (m : M A) (w : world) : result A * history := m w [].

Definition outcome {A} (m : M A) (w : world) (h : history) : result A := fst (m w h).
Definition trace_after {A} (m : M A) (w : world) (h : history) : history := snd (m w h).

End Py.

Import Py.

Declare Scope py_scope.
Delimit Scope py_scope with py.
Notation "x <- m ;; k" := (bind m (fun x => k))
  (at level 61, m at next level, right associativity) : py_scope.
Notation "m ;;; k" := (bind m (fun _ => k))
  (at level 61, right associativity) : py_scope.
Local Open Scope py_scope.

(** A Lambda response: the status code and the object passed to
    [json.dumps] for the body. *)
Record response := {
  statusCode : Z;
  body : list (string * pyval)
}.

(** Name resolution in a module: [os] is bound only if the module imports it. *)
Definition resolve_global (globals : list string) (name : string) : M unit :=
  if existsb (String.eqb name) globals then ret tt else raise (NameError name).

(** [os.environ.get(key)] evaluated in a module with the given globals *)
Definition os_environ_get (globals : list string) (environ : string -> option string)
  (key : string) : M (option string) :=
  resolve_global globals "os" ;;; ret (environ key).

(** truth value of a [str] or [None] *)
Definition truthy_opt (o : option string) : bool :=
  match o with
  | Some s => negb (String.eqb s "")
  | None => false
  end.

Definition opt_val (o : option string) : pyval :=
  match o with
  | Some s => PStr s
  | None => PNone
  end.

(** ** project3-monitoring-security/lambda_functions/auto_remediation *)

Module AutoRemediation.

(** the names bound at module level: imports, clients and functions *)
Definition module_globals : list string :=
  ["json"; "boto3"; "logging"; "datetime"; "logger";
   "ec2_client"; "cloudwatch_client"; "sns_client"; "ssm_client";
   "handler"; "handle_high_cpu_alarm"; "handle_high_memory_alarm";
   "handle_disk_space_alarm"; "handle_instance_status_alarm";
   "handle_generic_alarm"; "extract_instance_id"; "send_notification"].

Definition is_hex_lower (c : ascii) : bool :=
  let n := nat_of_ascii c in
  (((97 <=? n) && (n <=? 102)) || ((48 <=? n) && (n <=? 57)))%nat.

Fixpoint take_while (p : ascii -> bool) (s : string) : string :=
  match s with
  | EmptyString => EmptyString
  | String c s' => if p c then String c (take_while p s') else EmptyString
  end.

(** the match of [i-[a-f0-9]+] that starts at the head of [s], if any *)
Definition match_instance_id_here (s : string) : option string :=
  match s with
  | String "i" (String "-" rest) =>
      match take_while is_hex_lower rest with
      | EmptyString => None
      | digits => Some ("i-" ++ digits)
      end
  | _ => None
  end.

(** [re.search(r'i-[a-f0-9]+', s)]: the leftmost match, taken greedily *)
Fixpoint search_instance_id (s : string) : option string :=
  match match_instance_id_here s with
  | Some m => Some m
  | None =>
      match s with
      | EmptyString => None
      | String _ s' => search_instance_id s'
      end
  end.

Definition re_search_instance_id (v : pyval) : result (option string) :=
  match v with
  | PStr s => Ok (search_instance_id s)
  | _ => Raise TypeError
  end.

Section Model.

Variable L : pylib.
Variable environ : string -> option string.

Definition extract_instance_id (alarm_name alarm_reason : pyval) : M (option string) :=
  m <- lift (re_search_instance_id alarm_name) ;;
  match m with
  | Some id => ret (Some id)
  | None =>
      m' <- lift (re_search_instance_id alarm_reason) ;;
      match m' with
      | Some id => ret (Some id)
      | None => ret None
      end
  end.

Definition instance_ids (id : string) : list (string * pyval) :=
  [("InstanceIds", PList [PStr id])].

Definition run_shell (id : string) (commands : list string) : list (string * pyval) :=
  [("InstanceIds", PList [PStr id]);
   ("DocumentName", PStr "AWS-RunShellScript");
   ("Parameters", PDict [("commands", PList (map PStr commands))])].

Definition handle_high_cpu_alarm (alarm_name alarm_reason : pyval) : M string :=
  instance_id <- extract_instance_id alarm_name alarm_reason ;;
  let fallthrough := ret "High CPU alarm processed - manual intervention may be required" in
  match instance_id with
  | Some id =>
      response <- sdk "ec2" "describe_instances" (instance_ids id) ;;
      reservations <- lift (getitem response "Reservations") ;;
      reservation <- lift (index reservations 0) ;;
      instances <- lift (getitem reservation "Instances") ;;
      instance <- lift (index instances 0) ;;
      state <- lift (getitem instance "State") ;;
      state_name <- lift (getitem state "Name") ;;
      if str_is state_name "running" then
        try_except
          (sdk "ssm" "send_command"
             (run_shell id ["sudo systemctl restart httpd"; "sudo systemctl status httpd"]) ;;;
           ret ("Restarted Apache service on instance " ++ id))
          (fun e => ret ("Failed to restart service on instance " ++ id ++ ": " ++ exn_str e))
      else fallthrough
  | None => fallthrough
  end.

Definition handle_high_memory_alarm (alarm_name alarm_reason : pyval) : M string :=
  instance_id <- extract_instance_id alarm_name alarm_reason ;;
  match instance_id with
  | Some id =>
      try_except
        (sdk "ssm" "send_command"
           (run_shell id ["sudo sync"; "sudo echo 3 > /proc/sys/vm/drop_caches"; "free -h"]) ;;;
         ret ("Cleared system cache on instance " ++ id))
        (fun e => ret ("Failed to clear cache on instance " ++ id ++ ": " ++ exn_str e))
  | None => ret "High memory alarm processed - manual intervention may be required"
  end.

Definition handle_disk_space_alarm (alarm_name alarm_reason : pyval) : M string :=
  instance_id <- extract_instance_id alarm_name alarm_reason ;;
  match instance_id with
  | Some id =>
      try_except
        (sdk "ssm" "send_command"
           (run_shell id
              ["sudo find /var/log -name " ++ dquote ++ "*.log" ++ dquote ++
                 " -type f -mtime +7 -delete";
               "sudo find /tmp -type f -mtime +1 -delete";
               "sudo yum clean all";
               "df -h"]) ;;;
         ret ("Cleaned up disk space on instance " ++ id))
        (fun e => ret ("Failed to clean disk on instance " ++ id ++ ": " ++ exn_str e))
  | None => ret "Disk space alarm processed - manual intervention may be required"
  end.

Definition handle_instance_status_alarm (alarm_name alarm_reason : pyval) : M string :=
  instance_id <- extract_instance_id alarm_name alarm_reason ;;
  match instance_id with
  | Some id =>
      try_except
        (sdk "ec2" "reboot_instances" (instance_ids id) ;;;
         ret ("Rebooted instance " ++ id))
        (fun e => ret ("Failed to reboot instance " ++ id ++ ": " ++ exn_str e))
  | None => ret "Instance status alarm processed - manual intervention may be required"
  end.

Definition handle_generic_alarm (alarm_name alarm_reason : pyval) : M string :=
  ret ("Generic alarm processed: " ++ str_of L alarm_name).

Definition send_notification (sns_topic_arn : string)
  (alarm_name alarm_state : pyval) (action_taken : string) : M unit :=
  try_except
    (now <- utcnow ;;
     let message :=
       newline ++ "Auto-Remediation Alert" ++ newline ++ newline ++
       "Alarm: " ++ str_of L alarm_name ++ newline ++
       "State: " ++ str_of L alarm_state ++ newline ++
       "Action Taken: " ++ action_taken ++ newline ++
       "Timestamp: " ++ isoformat L now ++ newline ++ newline ++
       "This is an automated response to a CloudWatch alarm." ++ newline ++ "        " in
     sdk "sns" "publish"
       [("TopicArn", PStr sns_topic_arn);
        ("Subject", PStr ("Auto-Remediation: " ++ str_of L alarm_name));
        ("Message", PStr message)] ;;;
     ret tt)
    (fun _ => ret tt).

(** [handler], resolved against a module namespace [globals] *)
Definition handler_in (globals : list string) (event : pyval) : M response :=
  try_except
    (detail <- lift (getitem event "detail") ;;
     alarm_name <- lift (getitem detail "alarmName") ;;
     state <- lift (getitem detail "state") ;;
     alarm_state <- lift (getitem state "value") ;;
     alarm_reason <- lift (getitem state "reason") ;;
     sns_topic_arn <- os_environ_get globals environ "SNS_TOPIC_ARN" ;;
     name <- lift (lower_of alarm_name) ;;
     result <-
       (if contains "high-cpu" name then handle_high_cpu_alarm alarm_name alarm_reason
        else if contains "high-memory" name then handle_high_memory_alarm alarm_name alarm_reason
        else if contains "disk-space" name then handle_disk_space_alarm alarm_name alarm_reason
        else if contains "instance-status" name then handle_instance_status_alarm alarm_name alarm_reason
        else handle_generic_alarm alarm_name alarm_reason) ;;
     (if truthy_opt sns_topic_arn
      then send_notification (match sns_topic_arn with Some a => a | None => "" end)
             alarm_name alarm_state result
      else ret tt) ;;;
     ret {| statusCode := 200;
            body := [("message", PStr "Auto-remediation completed");
                     ("alarm", alarm_name);
                     ("action", PStr result)] |})
    (fun e =>
       ret {| statusCode := 500; body := [("error", PStr (exn_str e))] |}).

(** the handler as deployed *)
Definition handler (event : pyval) : M response := handler_in module_globals event.

End Model.

End AutoRemediation.

(** ** project3-monitoring-security/lambda_functions/cost_optimizer *)

Module CostOptimizer.

Definition module_globals : list string :=
  ["json"; "boto3"; "logging"; "datetime"; "timedelta"; "logger";
   "ec2_client"; "cloudwatch_client"; "sns_client"; "ce_client";
   "handler"; "check_idle_instances"; "is_instance_idle";
   "check_oversized_instances"; "is_instance_oversized";
   "check_unused_volumes"; "is_volume_unused"; "check_unused_elastic_ips";
   "get_cost_analysis"; "send_cost_optimization_notification"].

Definition seconds_per_day : Z := 86400.

Definition running_filter : list (string * pyval) :=
  [("Filters", PList [PDict [("Name", PStr "instance-state-name");
                             ("Values", PList [PStr "running"])]])].

Definition metric_query (namespace metric : string) (instance_id : pyval)
  (start_time end_time : Z) : list (string * pyval) :=
  [("Namespace", PStr namespace);
   ("MetricName", PStr metric);
   ("Dimensions", PList [PDict [("Name", PStr "InstanceId"); ("Value", instance_id)]]);
   ("StartTime", PDatetime start_time);
   ("EndTime", PDatetime end_time);
   ("Period", PNum 3600);
   ("Statistics", PList [PStr "Average"])].

(** [sum(point['Average'] for point in points)], from the accumulator on:
    the values are added from left to right, and a sum of floats is rounded
    after every addition *)
Fixpoint sum_averages (points : list pyval) (acc : number) : result number :=
  match points with
  | [] => Ok acc
  | p :: rest =>
      match getitem p "Average" with
      | Raise e => Raise e
      | Ok a =>
          match as_number a with
          | Raise e => Raise e
          | Ok q =>
              match number_add acc (number_of q) with
              | Raise e => Raise e
              | Ok acc' => sum_averages rest acc'
              end
          end
      end
  end.

(** [sum(point['Average'] for point in datapoints) / len(datapoints)] *)
Definition average_of (datapoints : pyval) : result float64 :=
  match iter datapoints with
  | Raise e => Raise e
  | Ok points =>
      match sum_averages points (Exact 0) with
      | Raise e => Raise e
      | Ok total =>
          match len datapoints with
          | Raise e => Raise e
          | Ok n => number_div_nat total n
          end
      end
  end.

Section Model.

Variable L : pylib.
Variable environ : string -> option string.

Definition is_instance_idle (instance_id : pyval) : M bool :=
  try_except
    (end_time <- utcnow ;;
     let start_time := (end_time - 7 * seconds_per_day)%Z in
     response <- sdk "cloudwatch" "get_metric_statistics"
                   (metric_query "AWS/EC2" "CPUUtilization" instance_id start_time end_time) ;;
     datapoints <- lift (getitem response "Datapoints") ;;
     if negb (truthy datapoints) then ret false
     else
       avg_cpu <- lift (average_of datapoints) ;;
       ret (float_lt avg_cpu (Finite 5)))
    (fun _ => ret false).

(** the body of the loop over the instances of a reservation *)
Definition note_idle_instance (idle_instances : list pyval) (instance : pyval)
  : M (list pyval * option exn) :=
  guarded idle_instances (lift (getitem instance "InstanceId")) (fun instance_id =>
  guarded idle_instances (lift (getitem instance "InstanceType")) (fun _ =>
  guarded idle_instances (is_instance_idle instance_id) (fun is_idle =>
  ret (if is_idle then append idle_instances instance_id else idle_instances, None)))).

(** the body of the loop over the reservations *)
Definition scan_reservation (idle_instances : list pyval) (reservation : pyval)
  : M (list pyval * option exn) :=
  guarded idle_instances (lift (getitem reservation "Instances")) (fun instances =>
  guarded idle_instances (lift (iter instances)) (fun insts =>
  pfold insts note_idle_instance idle_instances)).

Definition check_idle_instances : M (list pyval) :=
  r <- guarded [] (sdk "ec2" "describe_instances" running_filter) (fun response =>
       guarded [] (lift (getitem response "Reservations")) (fun reservations =>
       guarded [] (lift (iter reservations)) (fun rs =>
       pfold rs scan_reservation []))) ;;
  ret (fst r).

Definition is_instance_oversized (instance_id instance_type : pyval) : M bool :=
  try_except
    (end_time <- utcnow ;;
     let start_time := (end_time - 7 * seconds_per_day)%Z in
     cpu_response <- sdk "cloudwatch" "get_metric_statistics"
                       (metric_query "AWS/EC2" "CPUUtilization" instance_id start_time end_time) ;;
     cpu_points <- lift (getitem cpu_response "Datapoints") ;;
     if negb (truthy cpu_points) then ret false
     else
       avg_cpu <- lift (average_of cpu_points) ;;
       avg_memory <-
         try_except
           (memory_response <- sdk "cloudwatch" "get_metric_statistics"
                                 (metric_query "System/Linux" "MemoryUtilization"
                                    instance_id start_time end_time) ;;
            memory_points <- lift (getitem memory_response "Datapoints") ;;
            if truthy memory_points then lift (average_of memory_points)
            else ret (Finite 0))
           (fun _ => ret (Finite 0)) ;;
       ret (float_lt avg_cpu (Finite 20) && float_lt avg_memory (Finite 30)))
    (fun _ => ret false).

Definition check_oversized_instances : M (list pyval) :=
  r <- guarded [] (sdk "ec2" "describe_instances" running_filter) (fun response =>
       guarded [] (lift (getitem response "Reservations")) (fun reservations =>
       guarded [] (lift (iter reservations)) (fun rs =>
       pfold rs (fun oversized reservation =>
         guarded oversized (lift (getitem reservation "Instances")) (fun instances =>
         guarded oversized (lift (iter instances)) (fun insts =>
         pfold insts (fun oversized instance =>
           guarded oversized (lift (getitem instance "InstanceId")) (fun instance_id =>
           guarded oversized (lift (getitem instance "InstanceType")) (fun instance_type =>
           guarded oversized (is_instance_oversized instance_id instance_type) (fun is_big =>
           ret (if is_big then append oversized instance_id else oversized, None)))))
         oversized)))
       []))) ;;
  ret (fst r).

(** [(datetime.now(tz) - create_time).days] *)
Definition days_between (now create_time : Z) : Z :=
  ((now - create_time) / seconds_per_day)%Z.

Definition is_volume_unused (volume_id : pyval) : M bool :=
  try_except
    (response <- sdk "ec2" "describe_volumes" [("VolumeIds", PList [volume_id])] ;;
     volumes <- lift (getitem response "Volumes") ;;
     volume <- lift (index volumes 0) ;;
     state <- lift (getitem volume "State") ;;
     if str_is state "available" then
       create_time <- lift (getitem volume "CreateTime") ;;
       match create_time with
       | PDatetime created =>
           now <- utcnow ;;
           ret (7 <? days_between now created)%Z
       | _ => raise AttributeError
       end
     else ret false)
    (fun _ => ret false).

Definition check_unused_volumes : M (list pyval) :=
  r <- guarded []
         (sdk "ec2" "describe_volumes"
            [("Filters", PList [PDict [("Name", PStr "status");
                                       ("Values", PList [PStr "available"])]])])
         (fun response =>
       guarded [] (lift (getitem response "Volumes")) (fun volumes =>
       guarded [] (lift (iter volumes)) (fun vs =>
       pfold vs (fun unused volume =>
         guarded unused (lift (getitem volume "VolumeId")) (fun volume_id =>
         guarded unused (lift (getitem volume "Size")) (fun _ =>
         guarded unused (lift (getitem volume "VolumeType")) (fun _ =>
         guarded unused (is_volume_unused volume_id) (fun is_unused =>
         ret (if is_unused then append unused volume_id else unused, None))))))
       []))) ;;
  ret (fst r).

Definition check_unused_elastic_ips : M (list pyval) :=
  r <- guarded [] (sdk "ec2" "describe_addresses" []) (fun response =>
       guarded [] (lift (getitem response "Addresses")) (fun addresses =>
       guarded [] (lift (iter addresses)) (fun addrs =>
       pfold addrs (fun unused address =>
         guarded unused (lift (getitem address "AllocationId")) (fun allocation_id =>
         guarded unused (lift (getitem address "PublicIp")) (fun _ =>
         guarded unused (lift (has "InstanceId" address)) (fun associated =>
         ret (if negb associated then append unused allocation_id else unused, None)))))
       []))) ;;
  ret (fst r).

(** the body of the two nested loops of [get_cost_analysis] *)
Definition add_group (cost_analysis : list (string * pyval)) (group : pyval)
  : result (list (string * pyval)) :=
  match getitem group "Keys" with
  | Raise e => Raise e
  | Ok keys =>
  match index keys 0 with
  | Raise e => Raise e
  | Ok service =>
  match getitem group "Metrics" with
  | Raise e => Raise e
  | Ok metrics =>
  match getitem metrics "BlendedCost" with
  | Raise e => Raise e
  | Ok blended =>
  match getitem blended "Amount" with
  | Raise e => Raise e
  | Ok amount =>
  match to_float L amount with
  | Raise e => Raise e
  | Ok cost =>
  match key_of L service with
  | Raise e => Raise e
  | Ok k => Ok (set_item k (PNum cost) cost_analysis)
  end end end end end end end.

Definition get_cost_analysis : M (list (string * pyval)) :=
  try_except
    (now <- utcnow ;;
     let end_date := now in
     let start_date := month_start L end_date in
     response <- sdk "ce" "get_cost_and_usage"
                   [("TimePeriod", PDict [("Start", PStr (strftime_ymd L start_date));
                                          ("End", PStr (strftime_ymd L end_date))]);
                    ("Granularity", PStr "MONTHLY");
                    ("Metrics", PList [PStr "BlendedCost"]);
                    ("GroupBy", PList [PDict [("Type", PStr "DIMENSION");
                                              ("Key", PStr "SERVICE")]])] ;;
     results_by_time <- lift (getitem response "ResultsByTime") ;;
     results <- lift (iter results_by_time) ;;
     fold_each results (fun cost_analysis result =>
       groups <- lift (getitem result "Groups") ;;
       gs <- lift (iter groups) ;;
       fold_each gs (fun cost_analysis group => lift (add_group cost_analysis group))
         cost_analysis) [])
    (fun _ => ret []).

Definition cost_line (kv : string * pyval) : string :=
  "- " ++ fst kv ++ ": $" ++
  match snd kv with PNum q => format_2f L q | v => repr L v end.

Definition send_cost_optimization_notification (sns_topic_arn : string)
  (optimizations : list string) (cost_analysis : list (string * pyval)) : M unit :=
  try_except
    (now <- utcnow ;;
     let message :=
       newline ++ "Cost Optimization Report" ++ newline ++ newline ++
       "Optimization Opportunities:" ++ newline ++
       (match optimizations with
        | [] => "No optimization opportunities found"
        | _ => join newline (map (fun opt => "- " ++ opt) optimizations)
        end) ++ newline ++ newline ++
       "Cost Analysis (Current Month):" ++ newline ++
       (match cost_analysis with
        | [] => "Cost analysis not available"
        | _ => join newline (map cost_line cost_analysis)
        end) ++ newline ++ newline ++
       "Timestamp: " ++ isoformat L now ++ newline ++ newline ++
       "This is an automated cost optimization report." ++ newline ++ "        " in
     sdk "sns" "publish"
       [("TopicArn", PStr sns_topic_arn);
        ("Subject", PStr "Cost Optimization Report");
        ("Message", PStr message)] ;;;
     ret tt)
    (fun _ => ret tt).

(** [if found: results.append(f"Found {len(found)} <what>: {', '.join(found)}")] *)
Definition report_found (what : string) (found : list pyval)
  (optimization_results : list string) : M (list string) :=
  match found with
  | [] => ret optimization_results
  | _ =>
      joined <- lift (join_vals ", " found) ;;
      let line := "Found " ++ nat_str (List.length found) ++ " " ++ what ++ ": " ++ joined in
      ret (append optimization_results line)
  end.

Definition handler_in (globals : list string) (event : pyval) : M response :=
  try_except
    (sns_topic_arn <- os_environ_get globals environ "SNS_TOPIC_ARN" ;;
     let optimization_results := [] in
     idle_instances <- check_idle_instances ;;
     optimization_results <- report_found "idle instances" idle_instances optimization_results ;;
     oversized_instances <- check_oversized_instances ;;
     optimization_results <-
       report_found "oversized instances" oversized_instances optimization_results ;;
     unused_volumes <- check_unused_volumes ;;
     optimization_results <- report_found "unused EBS volumes" unused_volumes optimization_results ;;
     unused_eips <- check_unused_elastic_ips ;;
     optimization_results <- report_found "unused Elastic IPs" unused_eips optimization_results ;;
     cost_analysis <- get_cost_analysis ;;
     (if (match optimization_results with [] => false | _ => true end)
         || truthy (PDict cost_analysis)
      then
        if truthy_opt sns_topic_arn
        then send_cost_optimization_notification
               (match sns_topic_arn with Some a => a | None => "" end)
               optimization_results cost_analysis
        else ret tt
      else ret tt) ;;;
     ret {| statusCode := 200;
            body := [("message", PStr "Cost optimization analysis completed");
                     ("optimizations", PList (map PStr optimization_results));
                     ("cost_analysis", PDict cost_analysis)] |})
    (fun e =>
       ret {| statusCode := 500; body := [("error", PStr (exn_str e))] |}).

Definition handler (event : pyval) : M response := handler_in module_globals event.

End Model.

End CostOptimizer.

(** ** monitoringSecurity/lambda_functions/security_response *)

Module SecurityResponse.

Definition module_globals : list string :=
  ["json"; "boto3"; "logging"; "datetime"; "logger";
   "ec2_client"; "guardduty_client"; "securityhub_client"; "sns_client";
   "handler"; "handle_guardduty_finding"; "handle_securityhub_finding";
   "handle_reconnaissance_activity"; "handle_backdoor_activity";
   "handle_trojan_activity"; "handle_unauthorized_api_call";
   "handle_config_finding"; "handle_generic_guardduty_finding";
   "handle_generic_securityhub_finding"; "handle_generic_security_event";
   "block_suspicious_ip"; "isolate_instance"; "create_isolation_security_group";
   "get_guardduty_detector_id"; "send_security_notification"].

Section Model.

Variable L : pylib.
Variable environ : string -> option string.

Definition block_suspicious_ip (ip_address : pyval) (reason : string) : M string :=
  ret ("Blocked suspicious IP " ++ str_of L ip_address ++ ": " ++ reason).

Definition create_isolation_security_group (vpc_id : pyval) : M pyval :=
  try_except
    (response <- sdk "ec2" "create_security_group"
                   [("GroupName", PStr "isolation-sg");
                    ("Description", PStr "Isolation security group for compromised instances");
                    ("VpcId", vpc_id)] ;;
     lift (getitem response "GroupId"))
    (fun _ => ret PNone).

Definition isolate_instance (instance_id : pyval) (reason : string) : M string :=
  try_except
    (response <- sdk "ec2" "describe_instances" [("InstanceIds", PList [instance_id])] ;;
     reservations <- lift (getitem response "Reservations") ;;
     reservation <- lift (index reservations 0) ;;
     instances <- lift (getitem reservation "Instances") ;;
     instance <- lift (index instances 0) ;;
     security_groups <- lift (getitem instance "SecurityGroups") ;;
     sgs <- lift (iter security_groups) ;;
     fold_each sgs (fun current_sgs sg =>
       group_id <- lift (getitem sg "GroupId") ;;
       ret (append current_sgs group_id)) [] ;;;
     vpc_id <- lift (getitem instance "VpcId") ;;
     isolation_sg <- create_isolation_security_group vpc_id ;;
     sdk "ec2" "modify_instance_attribute"
       [("InstanceId", instance_id); ("Groups", PList [isolation_sg])] ;;;
     ret ("Isolated instance " ++ str_of L instance_id ++ ": " ++ reason))
    (fun e =>
       ret ("Failed to isolate instance " ++ str_of L instance_id ++ ": " ++ exn_str e)).

Definition get_guardduty_detector_id : M pyval :=
  try_except
    (response <- sdk "guardduty" "list_detectors" [] ;;
     detector_ids <- lift (getitem response "DetectorIds") ;;
     if truthy detector_ids then lift (index detector_ids 0) else ret PNone)
    (fun _ => ret PNone).

Definition handle_reconnaissance_activity (finding : pyval) : M string :=
  lift (get finding "service" (PDict [])) ;;;
  action <- lift (get finding "action" (PDict [])) ;;
  present <- lift (has "networkConnectionAction" action) ;;
  let fallthrough := ret "Reconnaissance activity detected and analyzed" in
  if present then
    connection <- lift (getitem action "networkConnectionAction") ;;
    details <- lift (get connection "remoteIpDetails" (PDict [])) ;;
    remote_ip <- lift (get details "ipAddressV4" PNone) ;;
    if truthy remote_ip
    then block_suspicious_ip remote_ip "Reconnaissance activity detected"
    else fallthrough
  else fallthrough.

Definition handle_backdoor_activity (finding : pyval) : M string :=
  resources <- lift (get finding "resource" (PDict [])) ;;
  details <- lift (get resources "instanceDetails" (PDict [])) ;;
  instance_id <- lift (get details "instanceId" PNone) ;;
  if truthy instance_id
  then isolate_instance instance_id "Backdoor activity detected"
  else ret "Backdoor activity detected and analyzed".

Definition handle_trojan_activity (finding : pyval) : M string :=
  resources <- lift (get finding "resource" (PDict [])) ;;
  details <- lift (get resources "instanceDetails" (PDict [])) ;;
  instance_id <- lift (get details "instanceId" PNone) ;;
  if truthy instance_id
  then isolate_instance instance_id "Trojan activity detected"
  else ret "Trojan activity detected and analyzed".

Definition handle_unauthorized_api_call (finding : pyval) : M string :=
  lift (get finding "service" (PDict [])) ;;;
  action <- lift (get finding "action" (PDict [])) ;;
  present <- lift (has "awsApiCallAction" action) ;;
  if present then
    api_call <- lift (getitem action "awsApiCallAction") ;;
    service_name <- lift (get api_call "serviceName" PNone) ;;
    api_name <- lift (get api_call "api" PNone) ;;
    ret ("Unauthorized API call detected: " ++ str_of L service_name ++ "." ++ str_of L api_name)
  else ret "Unauthorized API call detected and analyzed".

Definition handle_config_finding (finding : pyval) : M string :=
  compliance <- lift (get finding "Compliance" (PDict [])) ;;
  compliance_status <- lift (get compliance "Status" PNone) ;;
  fields <- lift (get finding "ProductFields" (PDict [])) ;;
  rule_name <- lift (get fields "aws/config/ConfigRuleName" PNone) ;;
  if str_is compliance_status "FAILED"
  then ret ("Compliance violation detected: " ++ str_of L rule_name)
  else ret ("Config finding processed: " ++ str_of L rule_name).

Definition handle_generic_guardduty_finding (finding : pyval) : M string :=
  ret "Generic GuardDuty finding processed".

Definition handle_generic_securityhub_finding (finding : pyval) : M string :=
  ret "Generic Security Hub finding processed".

Definition handle_generic_security_event (event : pyval) : M string :=
  ret "Generic security event processed".

(** [severity >= 7.0] *)
Definition at_least_7 (severity : pyval) : result bool :=
  match as_number severity with
  | Ok q => Ok (Qle_bool 7 q)
  | Raise e => Raise e
  end.

Definition handle_guardduty_finding (event : pyval) : M string :=
  finding <- lift (get event "detail" (PDict [])) ;;
  finding_id <- lift (get finding "id" PNone) ;;
  severity <- lift (get finding "severity" (PNum 0)) ;;
  finding_type <- lift (get finding "type" (PStr "")) ;;
  is_recon <- lift (has "Recon" finding_type) ;;
  action <-
    (if is_recon then handle_reconnaissance_activity finding
     else
       is_backdoor <- lift (has "Backdoor" finding_type) ;;
       if is_backdoor then handle_backdoor_activity finding
       else
         is_trojan <- lift (has "Trojan" finding_type) ;;
         if is_trojan then handle_trojan_activity finding
         else
           is_api <- lift (has "UnauthorizedAPICall" finding_type) ;;
           if is_api then handle_unauthorized_api_call finding
           else handle_generic_guardduty_finding finding) ;;
  let actions_taken := [action] in
  high <- lift (at_least_7 severity) ;;
  actions_taken <-
    (if high then
       try_except
         (detector_id <- get_guardduty_detector_id ;;
          sdk "guardduty" "archive_findings"
            [("DetectorId", detector_id); ("FindingIds", PList [finding_id])] ;;;
          let archived := "Archived high-severity finding: " ++ str_of L finding_id in
          ret (append actions_taken archived))
         (fun _ => ret actions_taken)
     else ret actions_taken) ;;
  ret (join "; " actions_taken).

(** [handle_guardduty_securityhub_finding] is called here but defined
    nowhere in the module: evaluating the call raises [NameError]. *)
Definition handle_securityhub_finding (event : pyval) : M string :=
  detail <- lift (get event "detail" (PDict [])) ;;
  findings <- lift (get detail "findings" (PList [])) ;;
  fs <- lift (iter findings) ;;
  actions_taken <-
    fold_each fs (fun actions_taken finding =>
      lift (get finding "Id" PNone) ;;;
      severity <- lift (get finding "Severity" (PDict [])) ;;
      lift (get severity "Label" (PStr "")) ;;;
      fields <- lift (get finding "ProductFields" (PDict [])) ;;
      finding_type <- lift (get fields "aws/securityhub/ProductName" (PStr "")) ;;
      is_guardduty <- lift (has "GuardDuty" finding_type) ;;
      action <-
        (if is_guardduty then
           raise (NameError "handle_guardduty_securityhub_finding")
         else
           is_config <- lift (has "Config" finding_type) ;;
           if is_config then handle_config_finding finding
           else handle_generic_securityhub_finding finding) ;;
      ret (append actions_taken action)) [] ;;
  ret (join "; " actions_taken).

Definition send_security_notification (sns_topic_arn : string) (event : pyval)
  (action_taken : string) : M unit :=
  try_except
    (source <- lift (get event "source" (PStr "Unknown")) ;;
     detail_type <- lift (get event "detail-type" (PStr "Unknown")) ;;
     now <- utcnow ;;
     let message :=
       newline ++ "Security Alert" ++ newline ++ newline ++
       "Source: " ++ str_of L source ++ newline ++
       "Detail Type: " ++ str_of L detail_type ++ newline ++
       "Action Taken: " ++ action_taken ++ newline ++
       "Timestamp: " ++ isoformat L now ++ newline ++ newline ++
       "This is an automated response to a security event." ++ newline ++ "        " in
     sdk "sns" "publish"
       [("TopicArn", PStr sns_topic_arn);
        ("Subject", PStr ("Security Alert: " ++ str_of L source));
        ("Message", PStr message)] ;;;
     ret tt)
    (fun _ => ret tt).

Definition handler_in (globals : list string) (event : pyval) : M response :=
  try_except
    (security_sns_topic_arn <- os_environ_get globals environ "SECURITY_SNS_TOPIC_ARN" ;;
     source <- lift (get event "source" (PStr "")) ;;
     source_lower <- lift (lower_of source) ;;
     result <-
       (if contains "guardduty" source_lower then handle_guardduty_finding event
        else if contains "securityhub" source_lower
             then handle_securityhub_finding event
             else handle_generic_security_event event) ;;
     (if truthy_opt security_sns_topic_arn
      then send_security_notification
             (match security_sns_topic_arn with Some a => a | None => "" end) event result
      else ret tt) ;;;
     ret {| statusCode := 200;
            body := [("message", PStr "Security response completed");
                     ("action", PStr result)] |})
    (fun e =>
       ret {| statusCode := 500; body := [("error", PStr (exn_str e))] |}).

Definition handler (event : pyval) : M response := handler_in module_globals event.

End Model.

End SecurityResponse.

(** ** monitoringSecurity/lambda_functions/compliance_monitor *)

Module ComplianceMonitor.

Definition module_globals : list string :=
  ["json"; "boto3"; "logging"; "datetime"; "logger";
   "config_client"; "sns_client"; "ec2_client";
   "handler"; "handle_compliance_violation"; "handle_security_group_violation";
   "handle_ebs_violation"; "handle_s3_violation"; "handle_iam_violation";
   "handle_iam_user_violation"; "handle_iam_role_violation";
   "handle_iam_policy_violation"; "handle_generic_compliance_violation";
   "send_compliance_notification"].

Definition open_cidr : string := "0.0.0.0/0".

Definition revoke_args (resource_id rule : pyval) : list (string * pyval) :=
  [("GroupId", resource_id); ("IpPermissions", PList [rule])].

(** a loop that returns from the function at the first element for which
    the test holds *)
Fixpoint any_of (l : list pyval) (test : pyval -> result bool) : result bool :=
  match l with
  | [] => Ok false
  | x :: rest =>
      match test x with
      | Raise e => Raise e
      | Ok true => Ok true
      | Ok false => any_of rest test
      end
  end.

Section Model.

Variable L : pylib.
Variable environ : string -> option string.

Definition handle_security_group_violation (resource_id evaluation_result : pyval)
  : M string :=
  try_except
    (response <- sdk "ec2" "describe_security_groups" [("GroupIds", PList [resource_id])] ;;
     groups <- lift (getitem response "SecurityGroups") ;;
     security_group <- lift (index groups 0) ;;
     permissions <- lift (getitem security_group "IpPermissions") ;;
     rules <- lift (iter permissions) ;;
     actions_taken <-
       fold_each rules (fun actions_taken rule =>
         ip_ranges <- lift (get rule "IpRanges" (PList [])) ;;
         ranges <- lift (iter ip_ranges) ;;
         fold_each ranges (fun actions_taken ip_range =>
           cidr <- lift (get ip_range "CidrIp" PNone) ;;
           if str_is cidr open_cidr then
             try_except
               (sdk "ec2" "revoke_security_group_ingress" (revoke_args resource_id rule) ;;;
                let removed := "Removed overly permissive rule: " ++ str_of L cidr in
                ret (append actions_taken removed))
               (fun _ => ret actions_taken)
           else ret actions_taken) actions_taken) [] ;;
     match actions_taken with
     | [] => ret ("Security group " ++ str_of L resource_id ++
                  " violation analyzed - manual review required")
     | _ => ret ("Security group " ++ str_of L resource_id ++ " remediated: " ++
                 join "; " actions_taken)
     end)
    (fun e => ret ("Failed to remediate security group " ++ str_of L resource_id ++
                   ": " ++ exn_str e)).

Definition handle_ebs_violation (resource_id evaluation_result : pyval) : M string :=
  try_except
    (response <- sdk "ec2" "describe_volumes" [("VolumeIds", PList [resource_id])] ;;
     volumes <- lift (getitem response "Volumes") ;;
     volume <- lift (index volumes 0) ;;
     encrypted <- lift (get volume "Encrypted" PNone) ;;
     if negb (truthy encrypted)
     then ret ("EBS volume " ++ str_of L resource_id ++
               " is not encrypted - manual remediation required")
     else ret ("EBS volume " ++ str_of L resource_id ++ " is already encrypted"))
    (fun e => ret ("Failed to check EBS volume " ++ str_of L resource_id ++ ": " ++ exn_str e)).

Definition handle_s3_violation (resource_id evaluation_result : pyval) : M string :=
  try_except
    (try_except
       (sdk "s3" "get_bucket_encryption" [("Bucket", resource_id)] ;;;
        ret ("S3 bucket " ++ str_of L resource_id ++ " is encrypted"))
       (fun e =>
          match e with
          | ClientError code =>
              if String.eqb code "ServerSideEncryptionConfigurationNotFoundError" then
                sdk "s3" "put_bucket_encryption"
                  [("Bucket", resource_id);
                   ("ServerSideEncryptionConfiguration",
                    PDict [("Rules",
                            PList [PDict [("ApplyServerSideEncryptionByDefault",
                                           PDict [("SSEAlgorithm", PStr "AES256")])]])])] ;;;
                ret ("Enabled encryption for S3 bucket " ++ str_of L resource_id)
              else raise e
          | _ => raise e
          end))
    (fun e => ret ("Failed to remediate S3 bucket " ++ str_of L resource_id ++ ": " ++ exn_str e)).

Definition handle_iam_user_violation (resource_id : string) : M string :=
  let user_name := replace "user/" "" resource_id in
  try_except
    (response <- sdk "iam" "list_mfa_devices" [("UserName", PStr user_name)] ;;
     devices <- lift (getitem response "MFADevices") ;;
     if negb (truthy devices)
     then ret ("IAM user " ++ user_name ++ " does not have MFA enabled - manual remediation required")
     else ret ("IAM user " ++ user_name ++ " has MFA enabled"))
    (fun e => ret ("Failed to check IAM user " ++ user_name ++ ": " ++ exn_str e)).

Definition permissive_trust (statement : pyval) : result bool :=
  match get statement "Effect" PNone with
  | Raise e => Raise e
  | Ok effect =>
      if str_is effect "Allow" then
        match get statement "Principal" (PDict []) with
        | Raise e => Raise e
        | Ok principal =>
            match get principal "AWS" PNone with
            | Raise e => Raise e
            | Ok aws_principal => Ok (str_is aws_principal "*")
            end
        end
      else Ok false
  end.

Definition handle_iam_role_violation (resource_id : string) : M string :=
  let role_name := replace "role/" "" resource_id in
  try_except
    (response <- sdk "iam" "get_role" [("RoleName", PStr role_name)] ;;
     role <- lift (getitem response "Role") ;;
     trust_policy <- lift (getitem role "AssumeRolePolicyDocument") ;;
     statements <- lift (get trust_policy "Statement" (PList [])) ;;
     sts <- lift (iter statements) ;;
     permissive <- lift (any_of sts permissive_trust) ;;
     if permissive
     then ret ("IAM role " ++ role_name ++
               " has overly permissive trust policy - manual remediation required")
     else ret ("IAM role " ++ role_name ++ " trust policy is compliant"))
    (fun e => ret ("Failed to check IAM role " ++ role_name ++ ": " ++ exn_str e)).

Definition permissive_statement (statement : pyval) : result bool :=
  match get statement "Effect" PNone with
  | Raise e => Raise e
  | Ok effect =>
      if str_is effect "Allow" then
        match get statement "Action" PNone with
        | Raise e => Raise e
        | Ok action =>
            if str_is action "*" then
              match get statement "Resource" PNone with
              | Raise e => Raise e
              | Ok resource => Ok (str_is resource "*")
              end
            else Ok false
        end
      else Ok false
  end.

Definition handle_iam_policy_violation (resource_id : string) : M string :=
  let policy_arn := replace "policy/" "arn:aws:iam::" resource_id in
  try_except
    (response <- sdk "iam" "get_policy" [("PolicyArn", PStr policy_arn)] ;;
     policy <- lift (getitem response "Policy") ;;
     policy_version <- lift (getitem policy "DefaultVersionId") ;;
     policy_response <- sdk "iam" "get_policy_version"
                          [("PolicyArn", PStr policy_arn); ("VersionId", policy_version)] ;;
     version <- lift (getitem policy_response "PolicyVersion") ;;
     policy_document <- lift (getitem version "Document") ;;
     statements <- lift (get policy_document "Statement" (PList [])) ;;
     sts <- lift (iter statements) ;;
     permissive <- lift (any_of sts permissive_statement) ;;
     if permissive
     then ret ("IAM policy " ++ policy_arn ++ " is overly permissive - manual remediation required")
     else ret ("IAM policy " ++ policy_arn ++ " is compliant"))
    (fun e => ret ("Failed to check IAM policy " ++ policy_arn ++ ": " ++ exn_str e)).

Definition handle_iam_violation (resource_id evaluation_result : pyval) : M string :=
  try_except
    (match resource_id with
     | PStr id =>
         if String.prefix "user/" id then handle_iam_user_violation id
         else if String.prefix "role/" id then handle_iam_role_violation id
         else if String.prefix "policy/" id then handle_iam_policy_violation id
         else ret ("IAM resource " ++ id ++ " violation analyzed - manual review required")
     | _ => raise AttributeError
     end)
    (fun e => ret ("Failed to remediate IAM resource " ++ str_of L resource_id ++
                   ": " ++ exn_str e)).

Definition handle_generic_compliance_violation (rule_name : string)
  (resource_id evaluation_result : pyval) : M string :=
  lift (get evaluation_result "complianceType" PNone) ;;;
  lift (get evaluation_result "annotation" (PStr "No annotation provided")) ;;;
  ret ("Generic compliance violation for " ++ rule_name ++ " - " ++
       str_of L resource_id ++ " logged for manual review").

Definition handle_compliance_violation (rule_name detail : pyval) : M string :=
  evaluation_result <- lift (get detail "newEvaluationResult" (PDict [])) ;;
  identifier <- lift (get evaluation_result "evaluationResultIdentifier" (PDict [])) ;;
  qualifier <- lift (get identifier "evaluationResultQualifier" (PDict [])) ;;
  lift (get qualifier "resourceType" PNone) ;;;
  identifier' <- lift (get evaluation_result "evaluationResultIdentifier" (PDict [])) ;;
  qualifier' <- lift (get identifier' "evaluationResultQualifier" (PDict [])) ;;
  resource_id <- lift (get qualifier' "resourceId" PNone) ;;
  name <- lift (lower_of rule_name) ;;
  if contains "security-group" name then
    handle_security_group_violation resource_id evaluation_result
  else if contains "ebs" name then handle_ebs_violation resource_id evaluation_result
  else if contains "s3" name then handle_s3_violation resource_id evaluation_result
  else if contains "iam" name then handle_iam_violation resource_id evaluation_result
  else handle_generic_compliance_violation
         (match rule_name with PStr s => s | _ => "" end) resource_id evaluation_result.

Definition send_compliance_notification (sns_topic_arn : string)
  (rule_name compliance_type : pyval) (action_taken : string) : M unit :=
  try_except
    (now <- utcnow ;;
     let message :=
       newline ++ "Compliance Alert" ++ newline ++ newline ++
       "Rule: " ++ str_of L rule_name ++ newline ++
       "Compliance Status: " ++ str_of L compliance_type ++ newline ++
       "Action Taken: " ++ action_taken ++ newline ++
       "Timestamp: " ++ isoformat L now ++ newline ++ newline ++
       "This is an automated response to a compliance violation." ++ newline ++ "        " in
     sdk "sns" "publish"
       [("TopicArn", PStr sns_topic_arn);
        ("Subject", PStr ("Compliance Alert: " ++ str_of L rule_name));
        ("Message", PStr message)] ;;;
     ret tt)
    (fun _ => ret tt).

Definition handler_in (globals : list string) (event : pyval) : M response :=
  try_except
    (compliance_sns_topic_arn <- os_environ_get globals environ "COMPLIANCE_SNS_TOPIC_ARN" ;;
     detail <- lift (get event "detail" (PDict [])) ;;
     config_rule_name <- lift (get detail "configRuleName" PNone) ;;
     evaluation <- lift (get detail "newEvaluationResult" (PDict [])) ;;
     compliance_type <- lift (get evaluation "complianceType" PNone) ;;
     result <-
       (if str_is compliance_type "NON_COMPLIANT"
        then handle_compliance_violation config_rule_name detail
        else ret ("Compliance check passed for rule: " ++ str_of L config_rule_name)) ;;
     (if truthy_opt compliance_sns_topic_arn
      then send_compliance_notification
             (match compliance_sns_topic_arn with Some a => a | None => "" end)
             config_rule_name compliance_type result
      else ret tt) ;;;
     ret {| statusCode := 200;
            body := [("message", PStr "Compliance monitoring completed");
                     ("rule", config_rule_name);
                     ("compliance", compliance_type);
                     ("action", PStr result)] |})
    (fun e =>
       ret {| statusCode := 500; body := [("error", PStr (exn_str e))] |}).

Definition handler (event : pyval) : M response := handler_in module_globals event.

End Model.

End ComplianceMonitor.

(** ** project4-serverless-contact/lambda/contact_handler *)

Module ContactHandler.

Definition CONTACT_TABLE : string := "contact-submissions".
Definition SNS_TOPIC_ARN : string :=
  "arn:aws:sns:us-east-1:123456789012:contact-notifications".

Record http_response := {
  statusCode : Z;
  headers : list (string * string);
  body : list (string * pyval)
}.

Definition create_response (status_code : Z) (body : list (string * pyval))
  : http_response :=
  {| statusCode := status_code;
     headers :=
       [("Content-Type", "application/json");
        ("Access-Control-Allow-Origin", "*");
        ("Access-Control-Allow-Methods", "POST, OPTIONS");
        ("Access-Control-Allow-Headers",
         "Content-Type, X-Amz-Date, Authorization, X-Api-Key, X-Amz-Security-Token")];
     body := body |}.

Record validation := {
  valid : bool;
  errors : list string
}.

Definition required_fields : list string := ["name"; "email"; "subject"; "message"].

(** the loop over [required_fields] *)
Fixpoint check_required (data : pyval) (fields : list string) (errors : list string)
  : result (list string) :=
  match fields with
  | [] => Ok errors
  | field :: rest =>
      match get data field PNone with
      | Raise e => Raise e
      | Ok v =>
          check_required data rest
            (if negb (truthy v) then append errors (field ++ " is required") else errors)
      end
  end.

(** [phone.replace('-', '').replace('(', '').replace(')', '').replace(' ', '')] *)
Definition strip_phone (phone : string) : string :=
  replace " " "" (replace ")" "" (replace "(" "" (replace "-" "" phone))).

Definition validate_form_data (data : pyval) : result validation :=
  match check_required data required_fields [] with
  | Raise e => Raise e
  | Ok errors =>
  match get data "email" (PStr "") with
  | Raise e => Raise e
  | Ok email =>
  match (if truthy email
         then match has "@" email with
              | Raise e => Raise e
              | Ok found =>
                  Ok (if negb found then append errors "Invalid email format" else errors)
              end
         else Ok errors) with
  | Raise e => Raise e
  | Ok errors =>
  match get data "message" (PStr "") with
  | Raise e => Raise e
  | Ok message =>
  match (if truthy message
         then match len message with
              | Raise e => Raise e
              | Ok n =>
                  Ok (if (n <? 10)%nat
                      then append errors "Message must be at least 10 characters long"
                      else errors)
              end
         else Ok errors) with
  | Raise e => Raise e
  | Ok errors =>
  match get data "phone" (PStr "") with
  | Raise e => Raise e
  | Ok phone =>
  match (if truthy phone
         then match phone with
              | PStr p =>
                  Ok (if negb (isdigit (strip_phone p))
                      then append errors "Invalid phone number format"
                      else errors)
              | _ => Raise AttributeError
              end
         else Ok errors) with
  | Raise e => Raise e
  | Ok errors =>
      Ok {| valid := match errors with [] => true | _ => false end;
            errors := errors |}
  end end end end end end end.

Section Model.

Variable L : pylib.

Definition put_item_args (item : list (string * pyval)) : list (string * pyval) :=
  [("TableName", PStr CONTACT_TABLE); ("Item", PDict item)].

Definition process_contact_submission (data : pyval) : M string :=
  try_except
    (submission_id <- uuid4 ;;
     name <- lift (getitem data "name") ;;
     email <- lift (getitem data "email") ;;
     phone <- lift (get data "phone" (PStr "")) ;;
     subject <- lift (getitem data "subject") ;;
     message <- lift (getitem data "message") ;;
     priority <- lift (get data "priority" (PStr "medium")) ;;
     created_at <- utcnow ;;
     updated_at <- utcnow ;;
     let item :=
       [("submission_id", PStr submission_id);
        ("name", name);
        ("email", email);
        ("phone", phone);
        ("subject", subject);
        ("message", message);
        ("priority", priority);
        ("status", PStr "new");
        ("created_at", PStr (isoformat L created_at));
        ("updated_at", PStr (isoformat L updated_at))] in
     sdk "dynamodb" "put_item" (put_item_args item) ;;;
     ret submission_id)
    (fun e =>
       match e with
       | ClientError _ =>
           raise (Exception_ ("Failed to store contact submission: " ++ exn_str e))
       | _ => raise e
       end).

Definition publish_args (subject : pyval) (message : string) : list (string * pyval) :=
  [("TopicArn", PStr SNS_TOPIC_ARN);
   ("Subject", PStr ("New Contact Form Submission - " ++ str_of L subject));
   ("Message", PStr message)].

Definition send_notification_email (data : pyval) (submission_id : string) : M unit :=
  try_except
    (name <- lift (getitem data "name") ;;
     email <- lift (getitem data "email") ;;
     phone <- lift (get data "phone" (PStr "N/A")) ;;
     subject <- lift (getitem data "subject") ;;
     priority <- lift (get data "priority" (PStr "medium")) ;;
     text <- lift (getitem data "message") ;;
     now <- utcnow ;;
     let message :=
       newline ++ "New Contact Form Submission" ++ newline ++ newline ++
       "Submission ID: " ++ submission_id ++ newline ++
       "Name: " ++ str_of L name ++ newline ++
       "Email: " ++ str_of L email ++ newline ++
       "Phone: " ++ str_of L phone ++ newline ++
       "Subject: " ++ str_of L subject ++ newline ++
       "Priority: " ++ str_of L priority ++ newline ++ newline ++
       "Message:" ++ newline ++ str_of L text ++ newline ++ newline ++
       "Submitted at: " ++ isoformat L now ++ newline ++ "        " in
     subject' <- lift (getitem data "subject") ;;
     response <- sdk "sns" "publish" (publish_args subject' message) ;;
     lift (getitem response "MessageId") ;;;
     ret tt)
    (fun _ => ret tt).

(** the request body as the handler parses it *)
Definition parse_body (event : pyval) : result pyval :=
  match get event "body" PNone with
  | Raise e => Raise e
  | Ok (PStr _) =>
      match getitem event "body" with
      | Raise e => Raise e
      | Ok (PStr text) =>
          match json_loads L text with
          | Some v => Ok v
          | None => Raise JSONDecodeError
          end
      | Ok _ => Raise TypeError
      end
  | Ok _ => get event "body" (PDict [])
  end.

Definition lambda_handler (event : pyval) : M http_response :=
  try_except
    (body <- lift (parse_body event) ;;
     validation_result <- lift (validate_form_data body) ;;
     if negb (valid validation_result) then
       ret (create_response 400
              [("error", PStr "Validation failed");
               ("details", PList (map PStr (errors validation_result)))])
     else
       submission_id <- process_contact_submission body ;;
       send_notification_email body submission_id ;;;
       now <- utcnow ;;
       ret (create_response 200
              [("message", PStr "Contact form submitted successfully");
               ("submission_id", PStr submission_id);
               ("timestamp", PStr (isoformat L now))]))
    (fun _ =>
       ret (create_response 500
              [("error", PStr "Internal server error");
               ("message", PStr "An error occurred while processing your request")])).

End Model.

End ContactHandler.

(** ** project6-data-analytics-ml/lambda_functions/data_processor *)

Module DataProcessor.

Definition required_fields : list string := ["timestamp"; "user_id"; "event_type"].

Definition valid_event_types : list string :=
  ["view"; "click"; "purchase"; "signup"; "login"; "logout"].

Definition ml_event_types : list string := ["purchase"; "view"; "click"].

(** [v in ['a', 'b', ...]] *)
Definition str_in (v : pyval) (l : list string) : bool :=
  existsb (fun s => str_is v s) l.

(** the loop over [required_fields] *)
Fixpoint check_fields (data : pyval) (fields : list string) : result unit :=
  match fields with
  | [] => Ok tt
  | field :: rest =>
      match has field data with
      | Raise e => Raise e
      | Ok true => check_fields data rest
      | Ok false => Raise (ValueError ("Missing required field: " ++ field))
      end
  end.

(** two digits, as the format [:02d] prints a number below 100 *)
Definition pad2 (n : nat) : string :=
  if (n <? 10)%nat then "0" ++ nat_str n else nat_str n.

Section Model.

Variable L : pylib.
Variable environ : string -> option string.

Definition REDSHIFT_CLUSTER_ID : pyval := opt_val (environ "REDSHIFT_CLUSTER_ID").
Definition REDSHIFT_DATABASE : pyval := opt_val (environ "REDSHIFT_DATABASE").
Definition S3_BUCKET : pyval := opt_val (environ "S3_BUCKET").
Definition SAGEMAKER_ENDPOINT : pyval := opt_val (environ "SAGEMAKER_ENDPOINT").

(** [datetime.fromisoformat(v.replace('Z', '+00:00'))] *)
Definition parse_timestamp (v : pyval) : result datetime :=
  match v with
  | PStr s =>
      match fromisoformat L (replace "Z" "+00:00" s) with
      | Some t => Ok t
      | None => Raise (ValueError "Invalid isoformat string")
      end
  | _ => Raise AttributeError
  end.

Definition validate_data (data : pyval) : result unit :=
  match check_fields data required_fields with
  | Raise e => Raise e
  | Ok _ =>
  match getitem data "timestamp" with
  | Raise e => Raise e
  | Ok timestamp =>
  match parse_timestamp timestamp with
  | Raise (ValueError _) => Raise (ValueError "Invalid timestamp format")
  | Raise e => Raise e
  | Ok _ =>
  match getitem data "event_type" with
  | Raise e => Raise e
  | Ok event_type =>
      if negb (str_in event_type valid_event_types)
      then Raise (ValueError ("Invalid event_type: " ++ str_of L event_type))
      else Ok tt
  end end end end.

Definition calculate_session_duration (data : pyval) : result pyval :=
  match get data "event_type" PNone with
  | Raise e => Raise e
  | Ok event_type =>
      if str_is event_type "login" then Ok (PNum 0)
      else
        match get data "event_type" PNone with
        | Raise e => Raise e
        | Ok event_type' =>
            if str_is event_type' "logout" then get data "session_duration" (PNum 0)
            else get data "session_duration" (PNum 0)
        end
  end.

Definition determine_user_segment (data : pyval) : result string :=
  match get data "event_type" PNone with
  | Raise e => Raise e
  | Ok event_type =>
      if str_is event_type "purchase" then Ok "high_value"
      else
        match get data "value" (PNum 0) with
        | Raise e => Raise e
        | Ok value =>
            match as_number value with
            | Raise e => Raise e
            | Ok q => if Qlt_bool 100 q then Ok "medium_value" else Ok "low_value"
            end
        end
  end.

Definition extract_ml_features (data : pyval) : result (list Q) :=
  match get data "value" (PNum 0) with
  | Raise e => Raise e
  | Ok value =>
  match to_float L value with
  | Raise e => Raise e
  | Ok f0 =>
  match get data "session_duration" (PNum 0) with
  | Raise e => Raise e
  | Ok duration =>
  match to_float L duration with
  | Raise e => Raise e
  | Ok f1 =>
  match get data "event_type" PNone with
  | Raise e => Raise e
  | Ok event_type =>
  match get data "user_segment" PNone with
  | Raise e => Raise e
  | Ok segment =>
      Ok [f0; f1;
          if str_is event_type "purchase" then 1%Q else 0%Q;
          if str_is segment "high_value" then 1%Q else 0%Q]
  end end end end end end.

Definition default_prediction : pyval :=
  PDict [("prediction", PNum 0); ("confidence", PNum 0)].

Definition invoke_args (features : list Q) : list (string * pyval) :=
  [("EndpointName", SAGEMAKER_ENDPOINT);
   ("ContentType", PStr "application/json");
   ("Body", PStr (json_dumps L (PDict [("instances", PList [PList (map PNum features)])])))].

Definition get_ml_prediction (features : list Q) : M pyval :=
  try_except
    (response <- sdk "sagemaker-runtime" "invoke_endpoint" (invoke_args features) ;;
     streamed <- lift (getitem response "Body") ;;
     match streamed with
     | PStr text =>
         match json_loads L text with
         | Some result => ret result
         | None => raise JSONDecodeError
         end
     | _ => raise AttributeError
     end)
    (fun _ => ret default_prediction).

(** [data[k] = v] *)
Definition setitem (data : pyval) (k : string) (v : pyval) : result pyval :=
  match data with
  | PDict d => Ok (PDict (set_item k v d))
  | _ => Raise TypeError
  end.

Definition process_record (data : pyval) : M pyval :=
  try_except
    (now <- utcnow ;;
     data <- lift (setitem data "processed_at" (PStr (isoformat L now))) ;;
     lift (validate_data data) ;;;
     duration <- lift (calculate_session_duration data) ;;
     data <- lift (setitem data "session_duration" duration) ;;
     segment <- lift (determine_user_segment data) ;;
     data <- lift (setitem data "user_segment" (PStr segment)) ;;
     event_type <- lift (get data "event_type" PNone) ;;
     if str_in event_type ml_event_types then
       ml_features <- lift (extract_ml_features data) ;;
       prediction <- get_ml_prediction ml_features ;;
       lift (setitem data "ml_prediction" prediction)
     else ret data)
    (fun e => raise e).

Definition indent : string := "        ".
Definition indent3 : string := "            ".

Definition insert_statement (data : pyval) : result string :=
  match getitem data "timestamp" with
  | Raise e => Raise e
  | Ok timestamp =>
  match getitem data "user_id" with
  | Raise e => Raise e
  | Ok user_id =>
  match getitem data "event_type" with
  | Raise e => Raise e
  | Ok event_type =>
  match get data "value" (PNum 0) with
  | Raise e => Raise e
  | Ok value =>
  match get data "session_duration" (PNum 0) with
  | Raise e => Raise e
  | Ok duration =>
  match get data "user_segment" (PStr "unknown") with
  | Raise e => Raise e
  | Ok segment =>
  match get data "ml_prediction" (PDict []) with
  | Raise e => Raise e
  | Ok prediction =>
  match getitem data "processed_at" with
  | Raise e => Raise e
  | Ok processed_at =>
      Ok (newline ++ indent ++ "INSERT INTO events (" ++ newline ++
          indent3 ++ "timestamp, user_id, event_type, value, " ++ newline ++
          indent3 ++ "session_duration, user_segment, ml_prediction, processed_at" ++ newline ++
          indent ++ ") VALUES (" ++ newline ++
          indent3 ++ "'" ++ str_of L timestamp ++ "', " ++ newline ++
          indent3 ++ "'" ++ str_of L user_id ++ "', " ++ newline ++
          indent3 ++ "'" ++ str_of L event_type ++ "', " ++ newline ++
          indent3 ++ str_of L value ++ "," ++ newline ++
          indent3 ++ str_of L duration ++ "," ++ newline ++
          indent3 ++ "'" ++ str_of L segment ++ "'," ++ newline ++
          indent3 ++ "'" ++ json_dumps L prediction ++ "'," ++ newline ++
          indent3 ++ "'" ++ str_of L processed_at ++ "'" ++ newline ++
          indent ++ ");" ++ newline ++ indent)
  end end end end end end end end.

Definition execute_args (sql : string) : list (string * pyval) :=
  [("ClusterIdentifier", REDSHIFT_CLUSTER_ID);
   ("Database", REDSHIFT_DATABASE);
   ("Sql", PStr sql)].

Definition store_in_redshift (data : pyval) : M unit :=
  try_except
    (sql <- lift (insert_statement data) ;;
     response <- sdk "redshift-data" "execute_statement" (execute_args sql) ;;
     lift (getitem response "Id") ;;;
     ret tt)
    (fun e => raise e).

Definition s3_key (timestamp : datetime) (user_id : pyval) : string :=
  "events/year=" ++ nat_str (dt_year timestamp) ++
  "/month=" ++ pad2 (dt_month timestamp) ++
  "/day=" ++ pad2 (dt_day timestamp) ++
  "/hour=" ++ pad2 (dt_hour timestamp) ++
  "/" ++ str_of L user_id ++ "_" ++ dt_iso timestamp ++ ".json".

Definition put_object_args (key : string) (data : pyval) : list (string * pyval) :=
  [("Bucket", S3_BUCKET);
   ("Key", PStr key);
   ("Body", PStr (json_dumps L data));
   ("ContentType", PStr "application/json")].

Definition store_in_s3 (data : pyval) : M unit :=
  try_except
    (raw <- lift (getitem data "timestamp") ;;
     timestamp <- lift (parse_timestamp raw) ;;
     user_id <- lift (getitem data "user_id") ;;
     sdk "s3" "put_object" (put_object_args (s3_key timestamp user_id) data) ;;;
     ret tt)
    (fun e => raise e).

(** [base64.b64decode(record['kinesis']['data']).decode('utf-8')] followed by
    [json.loads] *)
Definition decode (record : pyval) : result pyval :=
  match getitem record "kinesis" with
  | Raise e => Raise e
  | Ok kinesis =>
  match getitem kinesis "data" with
  | Raise e => Raise e
  | Ok (PStr encoded) =>
      match b64decode_utf8 L encoded with
      | None => Raise (ValueError "Invalid base64 or UTF-8 data")
      | Some payload =>
          match json_loads L payload with
          | Some data => Ok data
          | None => Raise JSONDecodeError
          end
      end
  | Ok _ => Raise TypeError
  end end.

(** [record['kinesis']['sequenceNumber']] *)
Definition sequence_number (record : pyval) : result pyval :=
  match getitem record "kinesis" with
  | Raise e => Raise e
  | Ok kinesis => getitem kinesis "sequenceNumber"
  end.

(** the [try] block of the loop over the records *)
Definition process_one (record : pyval) : M pyval :=
  data <- lift (decode record) ;;
  processed_data <- process_record data ;;
  store_in_redshift processed_data ;;;
  store_in_s3 processed_data ;;;
  lift (sequence_number record).

(** one iteration of the loop: the two lists before and after *)
Definition loop_body (lists : list pyval * list pyval) (record : pyval)
  : M (list pyval * list pyval) :=
  try_except
    (seq <- process_one record ;;
     ret (append (fst lists) seq, snd lists))
    (fun _ =>
       seq <- lift (sequence_number record) ;;
       ret (fst lists, append (snd lists) seq)).

Definition lambda_handler (event : pyval) : M response :=
  try_except
    (records <- lift (getitem event "Records") ;;
     lift (len records) ;;;
     records' <- lift (getitem event "Records") ;;
     rs <- lift (iter records') ;;
     lists <- fold_each rs loop_body ([], []) ;;
     let processed_records := fst lists in
     let failed_records := snd lists in
     ret {| statusCode := 200;
            body := [("processed", of_nat (List.length processed_records));
                     ("failed", of_nat (List.length failed_records));
                     ("processed_records", PList processed_records);
                     ("failed_records", PList failed_records)] |})
    (fun e => raise e).

End Model.

End DataProcessor.

(** ** project6-data-analytics-ml/lambda_functions/performance_tester *)

Module PerformanceTester.

(** [statistics.mean] of the data: their exact mean, returned as it is when
    the data are integers and so is the mean, and rounded to the nearest
    float otherwise *)
Definition mean (l : list Q) : result Q :=
  match l with
  | [] => Raise (ValueError "mean requires at least one data point")
  | _ =>
      let exact := (fold_left Qplus l 0 / inject_Z (Z.of_nat (List.length l)))%Q in
      if forallb (fun q => negb (is_binary64 q)) l && is_integer exact then Ok exact
      else match round64 exact with
           | Finite r => Ok r
           | _ => Raise (OverflowError "integer division result too large for a float")
           end
  end.

Definition Qmax (x y : Q) : Q := if Qle_bool x y then y else x.
Definition Qmin (x y : Q) : Q := if Qle_bool x y then x else y.

(** [max(l)] and [min(l)] of a non-empty list *)
Definition maximum (l : list Q) : Q :=
  match l with
  | [] => 0
  | x :: rest => fold_left Qmax rest x
  end.

Definition minimum (l : list Q) : Q :=
  match l with
  | [] => 0
  | x :: rest => fold_left Qmin rest x
  end.

Definition concurrent_requests : nat := 50.

(** [[future.result() for future in as_completed(futures)]]: the results in
    the order of completion, up to the first future that raises *)
Fixpoint results_of (completed : list (result Q)) : result (list Q) :=
  match completed with
  | [] => Ok []
  | Ok latency :: rest =>
      match results_of rest with
      | Ok l => Ok (latency :: l)
      | Raise e => Raise e
      end
  | Raise e :: _ => Raise e
  end.

(** the dictionary [run_load_tests] returns when no request raised *)
Record load_report := {
  requests : Q;
  total_time_ms : Q;
  average_latency_ms : Q;
  max_latency_ms : Q;
  min_latency_ms : Q;
  throughput_rps : float64;
  load_status : string
}.

(** the result of [run_load_tests]: the report, or
    [{'error': str(e), 'status': 'ERROR'}] *)
Inductive load_result : Type :=
| Report (r : load_report)
| Failure (message : string).

(** the ['status'] of the result *)
Definition status_of_load (r : load_result) : string :=
  match r with
  | Report r => load_status r
  | Failure _ => "ERROR"
  end.

(** [run_load_tests]: [future_result k] is what the [k]-th future to
    complete yields (the latency its request measured, in milliseconds, or
    the exception of its [put_record]); [total_time] is the elapsed time the
    function measures around the executor. *)
Definition run_load_tests (future_result : nat -> result Q) (total_time : Q)
  : load_result :=
  let futures := seq 0 concurrent_requests in
  match results_of (map future_result futures) with
  | Raise e => Failure (exn_str e)
  | Ok latencies =>
      match mean latencies with
      | Raise e => Failure (exn_str e)
      | Ok average =>
          match (if Qlt_bool 0 total_time
                 then number_div (Exact 50000) (number_of total_time)
                 else Ok (Finite 0)) with
          | Raise e => Failure (exn_str e)
          | Ok throughput =>
              Report {| requests := 50;
                        total_time_ms := total_time;
                        average_latency_ms := average;
                        max_latency_ms := maximum latencies;
                        min_latency_ms := minimum latencies;
                        throughput_rps := throughput;
                        load_status := if Qlt_bool average 500 then "PASS" else "FAIL" |}
          end
      end
  end.

(** the body of the loop over [test_results.items()] *)
Definition score_component (scores : list Z) (results : pyval) : list Z :=
  match results with
  | PDict d =>
      match lookup "status" d with
      | Some status =>
          if str_is status "PASS" then append scores 100%Z
          else if str_is status "FAIL" then append scores 50%Z
          else append scores 0%Z
      | None => scores
      end
  | _ => scores
  end.

(** [statistics.mean(scores) if scores else 0] *)
Definition mean_scores (scores : list Z) : result Q :=
  match scores with
  | [] => Ok 0
  | _ => mean (map inject_Z scores)
  end.

Definition grade_of (overall_score : Q) : string :=
  if Qle_bool 90 overall_score then "A"
  else if Qle_bool 80 overall_score then "B"
  else if Qle_bool 70 overall_score then "C"
  else if Qle_bool 60 overall_score then "D"
  else "F".

(** [test_results.get(component, {}).get('status') == 'FAIL'] *)
Definition component_failed (test_results : pyval) (component : string) : result bool :=
  match get test_results component (PDict []) with
  | Raise e => Raise e
  | Ok results =>
      match get results "status" PNone with
      | Raise e => Raise e
      | Ok status => Ok (str_is status "FAIL")
      end
  end.

Definition generate_recommendations (test_results : pyval) (overall_score : Q)
  : result (list string) :=
  let recommendations :=
    if Qlt_bool overall_score 80 then
      ["Consider optimizing Lambda function memory and timeout settings";
       "Review Kinesis shard count and scaling policies";
       "Optimize SageMaker endpoint instance type and configuration";
       "Review Redshift cluster configuration and query optimization"]
    else [] in
  match component_failed test_results "kinesis_performance" with
  | Raise e => Raise e
  | Ok kinesis_failed =>
  let recommendations :=
    if kinesis_failed
    then append recommendations "Increase Kinesis shard count for better throughput"
    else recommendations in
  match component_failed test_results "sagemaker_performance" with
  | Raise e => Raise e
  | Ok sagemaker_failed =>
  let recommendations :=
    if sagemaker_failed
    then append recommendations "Consider upgrading SageMaker endpoint instance type"
    else recommendations in
  match component_failed test_results "redshift_performance" with
  | Raise e => Raise e
  | Ok redshift_failed =>
      Ok (if redshift_failed
          then append recommendations "Optimize Redshift queries and consider adding more nodes"
          else recommendations)
  end end end.

Record analysis := {
  overall_score : Q;
  grade : string;
  component_scores : option (list Z);
  recommendations : option (list string);
  error : option string
}.

(** [test_results.items()] *)
Definition items (v : pyval) : result (list (string * pyval)) :=
  match v with
  | PDict d => Ok d
  | _ => Raise AttributeError
  end.

Definition failed_analysis (e : exn) : analysis :=
  {| overall_score := 0; grade := "F"; component_scores := None;
     recommendations := None; error := Some (exn_str e) |}.

Definition analyze_performance_results (test_results : pyval) : analysis :=
  match items test_results with
  | Raise e => failed_analysis e
  | Ok pairs =>
      let scores := fold_left (fun scores kv => score_component scores (snd kv)) pairs [] in
      match mean_scores scores with
      | Raise e => failed_analysis e
      | Ok overall_score =>
          let grade := grade_of overall_score in
          match generate_recommendations test_results overall_score with
          | Raise e => failed_analysis e
          | Ok recs =>
              {| overall_score := overall_score; grade := grade;
                 component_scores := Some scores;
                 recommendations := Some recs; error := None |}
          end
      end
  end.

End PerformanceTester.

(** ** project6-data-analytics-ml/lambda_functions/cost_optimizer *)

Module AnalyticsCostOptimizer.

Definition data_processor_function : string := "data-analytics-ml-analytics-data-processor".

Definition seconds_per_day : Z := 86400.

(** [json.dumps] refuses [datetime] objects *)
Fixpoint serializable (v : pyval) : bool :=
  match v with
  | PDatetime _ => false
  | PList l => forallb serializable l
  | PDict d => forallb (fun kv => serializable (snd kv)) d
  | _ => true
  end.

(** [[point[stat] for point in datapoints]] as numbers *)
Fixpoint statistic (stat : string) (points : list pyval) : result (list Q) :=
  match points with
  | [] => Ok []
  | p :: rest =>
      match getitem p stat with
      | Raise e => Raise e
      | Ok v =>
          match as_number v with
          | Raise e => Raise e
          | Ok q =>
              match statistic stat rest with
              | Raise e => Raise e
              | Ok l => Ok (q :: l)
              end
          end
      end
  end.

Definition total (l : list Q) : Q := fold_left Qplus l 0.

Definition scale_by (value low high : Q) : string :=
  if Qlt_bool value low then "scale_down"
  else if Qlt_bool high value then "scale_up"
  else "maintain".

Definition recommendation (service action : string)
  (fields : list (string * pyval)) (savings : Q) (risk : string) : pyval :=
  PDict ([("service", PStr service); ("action", PStr action)] ++ fields ++
         [("potential_savings", PNum savings); ("risk_level", PStr risk)])%list.

(** [max(1, n - 1)] *)
Definition one_less (n : pyval) : result pyval :=
  match as_number n with
  | Raise e => Raise e
  | Ok q => Ok (PNum (if Qlt_bool 1 (q - 1) then q - 1 else 1))
  end.

Definition one_more (n : pyval) : result pyval :=
  match as_number n with
  | Raise e => Raise e
  | Ok q => Ok (PNum (q + 1))
  end.

(** ['service' in utilization and 'recommendation' in utilization['service']],
    then [utilization['service']['recommendation']] *)
Definition recommendation_for (utilization : pyval) (service : string)
  : result (option (pyval * pyval)) :=
  match has service utilization with
  | Raise e => Raise e
  | Ok false => Ok None
  | Ok true =>
      match getitem utilization service with
      | Raise e => Raise e
      | Ok info =>
          match has "recommendation" info with
          | Raise e => Raise e
          | Ok false => Ok None
          | Ok true =>
              match getitem info "recommendation" with
              | Raise e => Raise e
              | Ok rec => Ok (Some (info, rec))
              end
          end
      end
  end.

Definition kinesis_recommendations (utilization : pyval) (recs : list pyval)
  : result (list pyval) :=
  match recommendation_for utilization "kinesis" with
  | Raise e => Raise e
  | Ok None => Ok recs
  | Ok (Some (info, rec)) =>
      if str_is rec "scale_down" then
        match getitem info "shard_count" with
        | Raise e => Raise e
        | Ok shards =>
            match one_less shards with
            | Raise e => Raise e
            | Ok fewer =>
                Ok (append recs
                      (recommendation "kinesis" "scale_down_shards"
                         [("current_shards", shards); ("recommended_shards", fewer)]
                         25 "low"))
            end
        end
      else if str_is rec "scale_up" then
        match getitem info "shard_count" with
        | Raise e => Raise e
        | Ok shards =>
            match one_more shards with
            | Raise e => Raise e
            | Ok more =>
                Ok (append recs
                      (recommendation "kinesis" "scale_up_shards"
                         [("current_shards", shards); ("recommended_shards", more)]
                         (-25) "low"))
            end
        end
      else Ok recs
  end.

Definition scale_down_recommendation (utilization : pyval)
  (service action count_key current_key recommended_key : string) (savings : Q)
  (recs : list pyval) : result (list pyval) :=
  match recommendation_for utilization service with
  | Raise e => Raise e
  | Ok None => Ok recs
  | Ok (Some (info, rec)) =>
      if str_is rec "scale_down" then
        match getitem info count_key with
        | Raise e => Raise e
        | Ok count =>
            match one_less count with
            | Raise e => Raise e
            | Ok fewer =>
                Ok (append recs
                      (recommendation service action
                         [(current_key, count); (recommended_key, fewer)]
                         savings "medium"))
            end
        end
      else Ok recs
  end.

Definition lambda_recommendations (utilization : pyval) (recs : list pyval)
  : result (list pyval) :=
  match recommendation_for utilization "lambda" with
  | Raise e => Raise e
  | Ok None => Ok recs
  | Ok (Some (info, rec)) =>
      if str_is rec "optimize_memory" then
        match getitem info "memory_size" with
        | Raise e => Raise e
        | Ok memory =>
            Ok (append recs
                  (recommendation "lambda" "optimize_memory"
                     [("current_memory", memory); ("recommended_memory", PNum 256)]
                     10 "low"))
        end
      else Ok recs
  end.

Definition s3_recommendations (utilization : pyval) (recs : list pyval)
  : result (list pyval) :=
  match recommendation_for utilization "s3" with
  | Raise e => Raise e
  | Ok None => Ok recs
  | Ok (Some (info, rec)) =>
      if str_is rec "enable_lifecycle" then
        match getitem info "bucket_size_gb" with
        | Raise e => Raise e
        | Ok size =>
            match getitem info "bucket_size_gb" with
            | Raise e => Raise e
            | Ok size' =>
                match as_number size' with
                | Raise e => Raise e
                | Ok gb =>
                    Ok (append recs
                          (PDict [("service", PStr "s3");
                                  ("action", PStr "enable_lifecycle_policies");
                                  ("current_size_gb", size);
                                  ("potential_savings", PNum (gb * (2 # 100)));
                                  ("risk_level", PStr "low")]))
                end
            end
        end
      else Ok recs
  end.

Definition generate_optimization_recommendations (current_costs utilization : pyval)
  : result (list pyval) :=
  match kinesis_recommendations utilization [] with
  | Raise e => Raise e
  | Ok recs =>
  match scale_down_recommendation utilization "redshift" "scale_down_nodes"
          "node_count" "current_nodes" "recommended_nodes" 150 recs with
  | Raise e => Raise e
  | Ok recs =>
  match scale_down_recommendation utilization "sagemaker" "scale_down_instances"
          "instance_count" "current_instances" "recommended_instances" 50 recs with
  | Raise e => Raise e
  | Ok recs =>
  match lambda_recommendations utilization recs with
  | Raise e => Raise e
  | Ok recs => s3_recommendations utilization recs
  end end end end.

(** the loop of [calculate_potential_savings] *)
Fixpoint add_savings (recs : list pyval) (acc : Q * Q * Q) : result (Q * Q * Q) :=
  match recs with
  | [] => Ok acc
  | rec :: rest =>
      match get rec "potential_savings" (PNum 0) with
      | Raise e => Raise e
      | Ok v =>
          match as_number v with
          | Raise e => Raise e
          | Ok savings =>
              let '(total_savings, monthly_savings, annual_savings) := acc in
              if Qlt_bool 0 savings
              then add_savings rest (total_savings + savings, monthly_savings + savings,
                                     annual_savings + savings * 12)%Q
              else add_savings rest acc
          end
      end
  end.

Definition calculate_potential_savings (recs : list pyval) : result pyval :=
  match add_savings recs (0, 0, 0)%Q with
  | Raise e => Raise e
  | Ok (total_savings, monthly_savings, annual_savings) =>
      Ok (PDict [("total_savings", PNum total_savings);
                 ("monthly_savings", PNum monthly_savings);
                 ("annual_savings", PNum annual_savings);
                 ("savings_percentage",
                  PNum (if Qlt_bool 0 total_savings
                        then (total_savings / 1000) * 100 else 0))])
  end.

(** [len([x for x in l if test(x)])] *)
Fixpoint count_where (test : pyval -> result bool) (l : list pyval) : result nat :=
  match l with
  | [] => Ok O
  | x :: rest =>
      match test x with
      | Raise e => Raise e
      | Ok b =>
          match count_where test rest with
          | Raise e => Raise e
          | Ok n => Ok (if b then S n else n)
          end
      end
  end.

Definition field_is (key value : string) (x : pyval) : result bool :=
  match getitem x key with
  | Raise e => Raise e
  | Ok v => Ok (str_is v value)
  end.

Definition field_is_not (key value : string) (x : pyval) : result bool :=
  match getitem x key with
  | Raise e => Raise e
  | Ok v => Ok (negb (str_is v value))
  end.

Section Model.

Variable L : pylib.
Variable environ : string -> option string.

Definition KINESIS_STREAM : pyval := opt_val (environ "KINESIS_STREAM").
Definition REDSHIFT_CLUSTER : pyval := opt_val (environ "REDSHIFT_CLUSTER").
Definition SAGEMAKER_ENDPOINT : pyval := opt_val (environ "SAGEMAKER_ENDPOINT").
Definition S3_BUCKET : pyval := opt_val (environ "S3_BUCKET").

Definition add_cost (costs : list (string * Q)) (group : pyval)
  : result (list (string * Q)) :=
  match getitem group "Keys" with
  | Raise e => Raise e
  | Ok keys =>
  match index keys 0 with
  | Raise e => Raise e
  | Ok service =>
  match getitem group "Metrics" with
  | Raise e => Raise e
  | Ok metrics =>
  match getitem metrics "BlendedCost" with
  | Raise e => Raise e
  | Ok blended =>
  match getitem blended "Amount" with
  | Raise e => Raise e
  | Ok amount =>
  match to_float L amount with
  | Raise e => Raise e
  | Ok cost =>
  match key_of L service with
  | Raise e => Raise e
  | Ok k => Ok (set_item k cost costs)
  end end end end end end end.

Definition cost_dict (costs : list (string * Q)) : pyval :=
  PDict (map (fun kv => (fst kv, PNum (snd kv))) costs).

Definition get_current_costs : M pyval :=
  try_except
    (today <- utcnow ;;
     let end_date := today in
     let start_date := (end_date - 30 * seconds_per_day)%Z in
     response <- sdk "ce" "get_cost_and_usage"
                   [("TimePeriod", PDict [("Start", PStr (strftime_ymd L start_date));
                                          ("End", PStr (strftime_ymd L end_date))]);
                    ("Granularity", PStr "MONTHLY");
                    ("Metrics", PList [PStr "BlendedCost"]);
                    ("GroupBy", PList [PDict [("Type", PStr "DIMENSION");
                                              ("Key", PStr "SERVICE")]])] ;;
     results_by_time <- lift (getitem response "ResultsByTime") ;;
     results <- lift (iter results_by_time) ;;
     costs <- fold_each results (fun costs result =>
                groups <- lift (getitem result "Groups") ;;
                gs <- lift (iter groups) ;;
                fold_each gs (fun costs group => lift (add_cost costs group)) costs) [] ;;
     ret (PDict [("total_cost", PNum (total (map snd costs)));
                 ("service_costs", cost_dict costs);
                 ("period", PStr (strftime_ymd L start_date ++ " to " ++
                                  strftime_ymd L end_date))]))
    (fun e =>
       ret (PDict [("total_cost", PNum 0);
                   ("service_costs", PDict []);
                   ("error", PStr (exn_str e))])).

Definition metric_query (namespace metric : string)
  (dimensions : list (string * pyval)) (start_time end_time : Z) (period : Q)
  (statistics : list string) : list (string * pyval) :=
  [("Namespace", PStr namespace);
   ("MetricName", PStr metric);
   ("Dimensions",
    PList (map (fun d => PDict [("Name", PStr (fst d)); ("Value", snd d)]) dimensions));
   ("StartTime", PDatetime start_time);
   ("EndTime", PDatetime end_time);
   ("Period", PNum period);
   ("Statistics", PList (map PStr statistics))].

Definition failed (e : exn) : M pyval := ret (PDict [("error", PStr (exn_str e))]).

(** the average and the maximum of a metric over its datapoints, 0 when
    there are none *)
Definition average_and_maximum (metrics : pyval) : result (Q * Q) :=
  match getitem metrics "Datapoints" with
  | Raise e => Raise e
  | Ok datapoints =>
      if truthy datapoints then
        match iter datapoints with
        | Raise e => Raise e
        | Ok points =>
            match statistic "Average" points with
            | Raise e => Raise e
            | Ok averages =>
                match statistic "Maximum" points with
                | Raise e => Raise e
                | Ok maxima =>
                    Ok (total averages / inject_Z (Z.of_nat (List.length points)),
                        PerformanceTester.maximum maxima)%Q
                end
            end
        end
      else Ok (0, 0)%Q
  end.

(** the sum of a metric and its hourly average, 0 when there are no
    datapoints *)
Definition sum_and_hourly_average (metrics : pyval) : result (Q * Q) :=
  match getitem metrics "Datapoints" with
  | Raise e => Raise e
  | Ok datapoints =>
      if truthy datapoints then
        match iter datapoints with
        | Raise e => Raise e
        | Ok points =>
            match statistic "Sum" points with
            | Raise e => Raise e
            | Ok sums =>
                Ok (total sums,
                    total sums / inject_Z (Z.of_nat (List.length points)))%Q
            end
        end
      else Ok (0, 0)%Q
  end.

Definition analyze_kinesis_utilization : M pyval :=
  try_except
    (response <- sdk "kinesis" "describe_stream" [("StreamName", KINESIS_STREAM)] ;;
     stream_info <- lift (getitem response "StreamDescription") ;;
     end_time <- utcnow ;;
     let start_time := (end_time - 7 * seconds_per_day)%Z in
     metrics <- sdk "cloudwatch" "get_metric_statistics"
                  (metric_query "AWS/Kinesis" "IncomingRecords"
                     [("StreamName", KINESIS_STREAM)] start_time end_time 3600
                     ["Average"; "Maximum"]) ;;
     stats <- lift (average_and_maximum metrics) ;;
     let avg_records := fst stats in
     let max_records := snd stats in
     shards <- lift (getitem stream_info "Shards") ;;
     shard_count <- lift (len shards) ;;
     let records_per_shard :=
       if (0 <? shard_count)%nat
       then (avg_records / inject_Z (Z.of_nat shard_count))%Q else 0%Q in
     let utilization_percentage := ((records_per_shard / 1000) * 100)%Q in
     ret (PDict [("shard_count", of_nat shard_count);
                 ("avg_records_per_second", PNum avg_records);
                 ("max_records_per_second", PNum max_records);
                 ("records_per_shard", PNum records_per_shard);
                 ("utilization_percentage", PNum utilization_percentage);
                 ("recommendation", PStr (scale_by utilization_percentage 30 80))]))
    failed.

Definition analyze_redshift_utilization : M pyval :=
  try_except
    (response <- sdk "redshift" "describe_clusters"
                   [("ClusterIdentifier", REDSHIFT_CLUSTER)] ;;
     clusters <- lift (getitem response "Clusters") ;;
     cluster <- lift (index clusters 0) ;;
     end_time <- utcnow ;;
     let start_time := (end_time - 7 * seconds_per_day)%Z in
     cpu_metrics <- sdk "cloudwatch" "get_metric_statistics"
                      (metric_query "AWS/Redshift" "CPUUtilization"
                         [("ClusterIdentifier", REDSHIFT_CLUSTER)] start_time end_time 3600
                         ["Average"; "Maximum"]) ;;
     stats <- lift (average_and_maximum cpu_metrics) ;;
     let avg_cpu := fst stats in
     let max_cpu := snd stats in
     node_type <- lift (getitem cluster "NodeType") ;;
     node_count <- lift (getitem cluster "NumberOfNodes") ;;
     ret (PDict [("node_type", node_type);
                 ("node_count", node_count);
                 ("avg_cpu_utilization", PNum avg_cpu);
                 ("max_cpu_utilization", PNum max_cpu);
                 ("recommendation", PStr (scale_by avg_cpu 30 80))]))
    failed.

Definition analyze_sagemaker_utilization : M pyval :=
  try_except
    (response <- sdk "sagemaker" "describe_endpoint"
                   [("EndpointName", SAGEMAKER_ENDPOINT)] ;;
     endpoint <- lift (getitem response "EndpointConfigName") ;;
     config_response <- sdk "sagemaker" "describe_endpoint_config"
                          [("EndpointConfigName", endpoint)] ;;
     variants <- lift (getitem config_response "ProductionVariants") ;;
     config <- lift (index variants 0) ;;
     end_time <- utcnow ;;
     let start_time := (end_time - 7 * seconds_per_day)%Z in
     invocation_metrics <- sdk "cloudwatch" "get_metric_statistics"
                             (metric_query "AWS/SageMaker" "Invocations"
                                [("EndpointName", SAGEMAKER_ENDPOINT)] start_time end_time
                                3600 ["Sum"]) ;;
     stats <- lift (sum_and_hourly_average invocation_metrics) ;;
     let total_invocations := fst stats in
     let avg_invocations_per_hour := snd stats in
     instance_type <- lift (getitem config "InstanceType") ;;
     instance_count <- lift (getitem config "InitialInstanceCount") ;;
     ret (PDict [("instance_type", instance_type);
                 ("instance_count", instance_count);
                 ("total_invocations", PNum total_invocations);
                 ("avg_invocations_per_hour", PNum avg_invocations_per_hour);
                 ("recommendation", PStr (scale_by avg_invocations_per_hour 10 100))]))
    failed.

Definition analyze_lambda_utilization : M pyval :=
  try_except
    (response <- sdk "lambda" "get_function"
                   [("FunctionName", PStr data_processor_function)] ;;
     config <- lift (getitem response "Configuration") ;;
     end_time <- utcnow ;;
     let start_time := (end_time - 7 * seconds_per_day)%Z in
     invocation_metrics <- sdk "cloudwatch" "get_metric_statistics"
                             (metric_query "AWS/Lambda" "Invocations"
                                [("FunctionName", PStr data_processor_function)]
                                start_time end_time 3600 ["Sum"]) ;;
     stats <- lift (sum_and_hourly_average invocation_metrics) ;;
     let total_invocations := fst stats in
     let avg_invocations_per_hour := snd stats in
     memory_size <- lift (getitem config "MemorySize") ;;
     timeout <- lift (getitem config "Timeout") ;;
     memory <- lift (as_number memory_size) ;;
     ret (PDict [("memory_size", memory_size);
                 ("timeout", timeout);
                 ("total_invocations", PNum total_invocations);
                 ("avg_invocations_per_hour", PNum avg_invocations_per_hour);
                 ("recommendation",
                  PStr (if Qlt_bool 512 memory then "optimize_memory" else "maintain"))]))
    failed.

Definition analyze_s3_utilization : M pyval :=
  try_except
    (start_now <- utcnow ;;
     end_now <- utcnow ;;
     response <- sdk "cloudwatch" "get_metric_statistics"
                   (metric_query "AWS/S3" "BucketSizeBytes"
                      [("BucketName", S3_BUCKET); ("StorageType", PStr "StandardStorage")]
                      (start_now - seconds_per_day)%Z end_now 86400 ["Average"]) ;;
     datapoints <- lift (getitem response "Datapoints") ;;
     bucket_size_gb <-
       (if truthy datapoints then
          first <- lift (index datapoints 0) ;;
          average <- lift (getitem first "Average") ;;
          bucket_size_bytes <- lift (as_number average) ;;
          ret (bucket_size_bytes / inject_Z (1024 ^ 3))%Q
        else ret 0%Q) ;;
     ret (PDict [("bucket_size_gb", PNum bucket_size_gb);
                 ("recommendation",
                  PStr (if Qlt_bool 100 bucket_size_gb
                        then "enable_lifecycle" else "maintain"))]))
    failed.

Definition analyze_resource_utilization : M pyval :=
  try_except
    (kinesis <- analyze_kinesis_utilization ;;
     redshift <- analyze_redshift_utilization ;;
     sagemaker <- analyze_sagemaker_utilization ;;
     lambda <- analyze_lambda_utilization ;;
     s3 <- analyze_s3_utilization ;;
     ret (PDict [("kinesis", kinesis); ("redshift", redshift);
                 ("sagemaker", sagemaker); ("lambda", lambda); ("s3", s3)]))
    (fun _ => ret (PDict [])).

Definition update_function_configuration_args (memory : pyval) : list (string * pyval) :=
  [("FunctionName", PStr data_processor_function); ("MemorySize", memory)].

Definition update_shard_count_args (shards : pyval) : list (string * pyval) :=
  [("StreamName", KINESIS_STREAM);
   ("TargetShardCount", shards);
   ("ScalingType", PStr "UNIFORM_SCALING")].

Definition applied_entry (rec : pyval) (now : Z) : pyval :=
  PDict [("recommendation", rec); ("status", PStr "applied");
         ("timestamp", PStr (isoformat L now))].

Definition failed_entry (rec : pyval) (e : exn) (now : Z) : pyval :=
  PDict [("recommendation", rec); ("status", PStr "failed");
         ("error", PStr (exn_str e)); ("timestamp", PStr (isoformat L now))].

(** the body of the loop of [apply_automatic_optimizations] *)
Definition apply_one (applied : list pyval) (rec : pyval) : M (list pyval) :=
  risk <- lift (getitem rec "risk_level") ;;
  if str_is risk "low" then
    try_except
      (service <- lift (getitem rec "service") ;;
       is_memory <-
         (if str_is service "lambda"
          then action <- lift (getitem rec "action") ;; ret (str_is action "optimize_memory")
          else ret false) ;;
       if is_memory then
         memory <- lift (getitem rec "recommended_memory") ;;
         sdk "lambda" "update_function_configuration"
           (update_function_configuration_args memory) ;;;
         now <- utcnow ;;
         ret (append applied (applied_entry rec now))
       else
         service' <- lift (getitem rec "service") ;;
         is_shards <-
           (if str_is service' "kinesis"
            then action <- lift (getitem rec "action") ;;
                 ret (str_is action "scale_down_shards")
            else ret false) ;;
         if is_shards then
           shards <- lift (getitem rec "recommended_shards") ;;
           sdk "kinesis" "update_shard_count" (update_shard_count_args shards) ;;;
           now <- utcnow ;;
           ret (append applied (applied_entry rec now))
         else ret applied)
      (fun e =>
         lift (getitem rec "action") ;;;
         now <- utcnow ;;
         ret (append applied (failed_entry rec e now)))
  else ret applied.

Definition apply_automatic_optimizations (recommendations : list pyval)
  : M (list pyval) :=
  fold_each recommendations apply_one [].

Definition generate_cost_optimization_report
  (current_costs utilization : pyval) (recommendations applied : list pyval)
  (savings : pyval) : M pyval :=
  report_timestamp <- utcnow ;;
  n_applied <- lift (count_where (field_is "status" "applied") applied) ;;
  n_failed <- lift (count_where (field_is "status" "failed") applied) ;;
  n_pending <- lift (count_where (field_is_not "risk_level" "low") recommendations) ;;
  next <- utcnow ;;
  ret (PDict [("report_timestamp", PStr (isoformat L report_timestamp));
              ("current_costs", current_costs);
              ("resource_utilization", utilization);
              ("recommendations", PList recommendations);
              ("applied_optimizations", PList applied);
              ("potential_savings", savings);
              ("summary",
               PDict [("total_recommendations", of_nat (List.length recommendations));
                      ("applied_optimizations", of_nat n_applied);
                      ("failed_optimizations", of_nat n_failed);
                      ("pending_optimizations", of_nat n_pending)]);
              ("next_optimization_schedule",
               PStr (isoformat L (next + seconds_per_day)%Z))]).

Definition metric_datum (name : string) (value : pyval) (unit_ : string) : pyval :=
  PDict [("MetricName", PStr name); ("Value", value); ("Unit", PStr unit_)].

Definition publish_cost_optimization_metrics (current_costs savings : pyval) : M unit :=
  try_except
    (total_cost <- lift (get current_costs "total_cost" (PNum 0)) ;;
     monthly <- lift (get savings "monthly_savings" (PNum 0)) ;;
     percentage <- lift (get savings "savings_percentage" (PNum 0)) ;;
     sdk "cloudwatch" "put_metric_data"
       [("Namespace", PStr "DataAnalytics/CostOptimization");
        ("MetricData",
         PList [metric_datum "CurrentMonthlyCost" total_cost "None";
                metric_datum "PotentialMonthlySavings" monthly "None";
                metric_datum "SavingsPercentage" percentage "Percent"])] ;;;
     ret tt)
    (fun _ => ret tt).

Definition lambda_handler (event : pyval) : M response :=
  try_except
    (current_costs <- get_current_costs ;;
     utilization_analysis <- analyze_resource_utilization ;;
     recommendations <-
       lift (generate_optimization_recommendations current_costs utilization_analysis) ;;
     applied_optimizations <- apply_automatic_optimizations recommendations ;;
     potential_savings <- lift (calculate_potential_savings recommendations) ;;
     report <- generate_cost_optimization_report current_costs utilization_analysis
                 recommendations applied_optimizations potential_savings ;;
     publish_cost_optimization_metrics current_costs potential_savings ;;;
     lift (getitem potential_savings "total_savings") ;;;
     let payload :=
       [("message", PStr "Cost optimization analysis completed successfully");
        ("current_costs", current_costs);
        ("potential_savings", potential_savings);
        ("recommendations", PList recommendations);
        ("applied_optimizations", PList applied_optimizations);
        ("report", report)] in
     if serializable (PDict payload)
     then ret {| statusCode := 200; body := payload |}
     else raise TypeError)
    (fun e =>
       ret {| statusCode := 500;
              body := [("error", PStr (exn_str e));
                       ("message", PStr "Cost optimization failed")] |}).

End Model.

End AnalyticsCostOptimizer.

(** ** lmsEcs/lambda_functions/cost_optimizer *)

Module EcsCostOptimizer.

Definition module_globals : list string :=
  ["boto3"; "json"; "logging"; "datetime"; "timedelta"; "logger";
   "lambda_handler"; "get_cost_data"; "get_rightsizing_recommendations";
   "get_reservation_recommendations"; "analyze_costs"; "send_recommendations"].

Definition seconds_per_day : Z := 86400.

Definition compute_service : string := "Amazon Elastic Compute Cloud - Compute".

(** the loop over the groups of one day *)
Fixpoint add_groups (L : pylib) (groups : list pyval) (total_cost : Q) : result Q :=
  match groups with
  | [] => Ok total_cost
  | group :: rest =>
      match getitem group "Metrics" with
      | Raise e => Raise e
      | Ok metrics =>
      match getitem metrics "BlendedCost" with
      | Raise e => Raise e
      | Ok blended =>
      match getitem blended "Amount" with
      | Raise e => Raise e
      | Ok amount =>
      match to_float L amount with
      | Raise e => Raise e
      | Ok cost => add_groups L rest (total_cost + cost)%Q
      end end end end
  end.

(** the loop over the days *)
Fixpoint add_days (L : pylib) (days : list pyval) (total_cost : Q) : result Q :=
  match days with
  | [] => Ok total_cost
  | day_data :: rest =>
      match getitem day_data "Groups" with
      | Raise e => Raise e
      | Ok groups =>
          match iter groups with
          | Raise e => Raise e
          | Ok gs =>
              match add_groups L gs total_cost with
              | Raise e => Raise e
              | Ok total_cost' => add_days L rest total_cost'
              end
          end
      end
  end.

Definition rightsizing_entry (recommendation : pyval) : result (option pyval) :=
  match getitem recommendation "RightsizingType" with
  | Raise e => Raise e
  | Ok kind =>
      if str_is kind "Modify" then
        match getitem recommendation "CurrentInstance" with
        | Raise e => Raise e
        | Ok current =>
        match getitem current "ResourceId" with
        | Raise e => Raise e
        | Ok resource =>
        match getitem current "InstanceType" with
        | Raise e => Raise e
        | Ok current_type =>
        match getitem recommendation "TargetInstances" with
        | Raise e => Raise e
        | Ok targets =>
        match index targets 0 with
        | Raise e => Raise e
        | Ok target =>
        match getitem target "InstanceType" with
        | Raise e => Raise e
        | Ok recommended_type =>
        match getitem recommendation "EstimatedMonthlySavings" with
        | Raise e => Raise e
        | Ok savings =>
            Ok (Some (PDict [("type", PStr "rightsizing");
                             ("resource", resource);
                             ("current_type", current_type);
                             ("recommended_type", recommended_type);
                             ("savings", savings)]))
        end end end end end end end
      else Ok None
  end.

Definition reservation_entry (recommendation : pyval) : result pyval :=
  match getitem recommendation "InstanceType" with
  | Raise e => Raise e
  | Ok instance_type =>
  match getitem recommendation "TermInYears" with
  | Raise e => Raise e
  | Ok term =>
  match getitem recommendation "PaymentOption" with
  | Raise e => Raise e
  | Ok payment_option =>
  match getitem recommendation "EstimatedMonthlySavings" with
  | Raise e => Raise e
  | Ok savings =>
      Ok (PDict [("type", PStr "reservation");
                 ("instance_type", instance_type);
                 ("term", term);
                 ("payment_option", payment_option);
                 ("savings", savings)])
  end end end end.

Fixpoint add_rightsizing (l : list pyval) (recommendations : list pyval)
  : result (list pyval) :=
  match l with
  | [] => Ok recommendations
  | recommendation :: rest =>
      match rightsizing_entry recommendation with
      | Raise e => Raise e
      | Ok (Some entry) => add_rightsizing rest (append recommendations entry)
      | Ok None => add_rightsizing rest recommendations
      end
  end.

Fixpoint add_reservations (l : list pyval) (recommendations : list pyval)
  : result (list pyval) :=
  match l with
  | [] => Ok recommendations
  | recommendation :: rest =>
      match reservation_entry recommendation with
      | Raise e => Raise e
      | Ok entry => add_reservations rest (append recommendations entry)
      end
  end.

Definition analyze_costs (L : pylib)
  (cost_data rightsizing_recommendations reservation_recommendations : pyval)
  : result (list pyval) :=
  match iter cost_data with
  | Raise e => Raise e
  | Ok days =>
  match add_days L days 0 with
  | Raise e => Raise e
  | Ok _ =>
  match iter rightsizing_recommendations with
  | Raise e => Raise e
  | Ok rightsizing =>
  match add_rightsizing rightsizing [] with
  | Raise e => Raise e
  | Ok recommendations =>
  match iter reservation_recommendations with
  | Raise e => Raise e
  | Ok reservations => add_reservations reservations recommendations
  end end end end end.

Section Model.

Variable L : pylib.
Variable environ : string -> option string.

(** [os.environ[key]] *)
Definition os_environ_item (globals : list string) (key : string) : M string :=
  resolve_global globals "os" ;;;
  match environ key with
  | Some value => ret value
  | None => raise (KeyError key)
  end.

Definition get_cost_data (start_date end_date : string) : M pyval :=
  try_except
    (response <- sdk "ce" "get_cost_and_usage"
                   [("TimePeriod", PDict [("Start", PStr start_date);
                                          ("End", PStr end_date)]);
                    ("Granularity", PStr "DAILY");
                    ("Metrics", PList [PStr "BlendedCost"; PStr "UsageQuantity"]);
                    ("GroupBy", PList [PDict [("Type", PStr "DIMENSION");
                                              ("Key", PStr "SERVICE")]])] ;;
     lift (getitem response "ResultsByTime"))
    (fun _ => ret (PList [])).

Definition get_rightsizing_recommendations : M pyval :=
  try_except
    (response <- sdk "ce" "get_rightsizing_recommendation"
                   [("Service", PStr compute_service)] ;;
     lift (getitem response "RightsizingRecommendations"))
    (fun _ => ret (PList [])).

Definition get_reservation_recommendations : M pyval :=
  try_except
    (response <- sdk "ce" "get_reservation_purchase_recommendation"
                   [("Service", PStr compute_service);
                    ("LookbackPeriodInDays", PNum 30)] ;;
     lift (getitem response "Recommendations"))
    (fun _ => ret (PList [])).

Definition send_recommendations (topic_arn : string) (recommendations : list pyval)
  : M unit :=
  try_except
    (sdk "sns" "publish"
       [("TopicArn", PStr topic_arn);
        ("Subject", PStr "AWS Cost Optimization Recommendations");
        ("Message", PStr (json_dumps L (PList recommendations)))] ;;;
     ret tt)
    (fun _ => ret tt).

Definition lambda_handler_in (globals : list string) (event : pyval) : M response :=
  try_except
    (sns_topic_arn <- os_environ_item globals "SNS_TOPIC_ARN" ;;
     end_now <- utcnow ;;
     let end_date := strftime_ymd L end_now in
     start_now <- utcnow ;;
     let start_date := strftime_ymd L (start_now - 30 * seconds_per_day)%Z in
     cost_data <- get_cost_data start_date end_date ;;
     rightsizing_recommendations <- get_rightsizing_recommendations ;;
     reservation_recommendations <- get_reservation_recommendations ;;
     recommendations <-
       lift (analyze_costs L cost_data rightsizing_recommendations
               reservation_recommendations) ;;
     (match recommendations with
      | [] => ret tt
      | _ => send_recommendations sns_topic_arn recommendations
      end) ;;;
     ret {| statusCode := 200;
            body := [("message", PStr "Cost optimization analysis completed");
                     ("recommendations", of_nat (List.length recommendations))] |})
    (fun e =>
       ret {| statusCode := 500; body := [("error", PStr (exn_str e))] |}).

Definition lambda_handler (event : pyval) : M response :=
  lambda_handler_in module_globals event.

End Model.

End EcsCostOptimizer.

(** ** Performance tester: the report *)

Module PerformanceReport.




Section Model.

Variable L : pylib.


End Model.

End PerformanceReport.

(** ** The contact form handler with the seeded defects

    [broken_contact_handler.py] is the contact handler with validation
    switched off, responses built without [create_response], and
    [process_contact_submission] and [send_notification_email] changed as
    below.  Its [validate_form_data] and [create_response] are never
    called. *)

Module BrokenContactHandler.

Section Model.

Variable L : pylib.

Definition process_contact_submission (data : pyval) : M string :=
  try_except
    (submission_id <- uuid4 ;;
     name <- lift (getitem data "name") ;;
     email <- lift (getitem data "email") ;;
     phone <- lift (get data "phone" (PStr "")) ;;
     subject <- lift (getitem data "subject") ;;
     message <- lift (getitem data "message") ;;
     priority <- lift (get data "priority" (PStr "medium")) ;;
     created_at <- utcnow ;;
     updated_at <- utcnow ;;
     let item :=
       [("submission_id", PStr submission_id);
        ("name", name);
        ("email", email);
        ("phone", phone);
        ("subject", subject);
        ("message", message);
        ("priority", priority);
        ("status", PStr "new");
        ("created_at", PStr (isoformat L created_at));
        ("updated_at", PStr (isoformat L updated_at))] in
     sdk "dynamodb" "put_item" (ContactHandler.put_item_args item) ;;;
     ret submission_id)
    (fun e =>
       match e with
       | ClientError _ =>
           raise (Exception_ ("Failed to store contact submission: " ++ exn_str e))
       | KeyError _ =>
           raise (Exception_ ("Missing required field: " ++ exn_str e))
       | _ => raise e
       end).

Definition send_notification_email (data : pyval) (submission_id : string) : M unit :=
  try_except
    (name <- lift (get data "name" (PStr "N/A")) ;;
     email <- lift (get data "email" (PStr "N/A")) ;;
     phone <- lift (get data "phone" (PStr "N/A")) ;;
     subject <- lift (get data "subject" (PStr "N/A")) ;;
     priority <- lift (get data "priority" (PStr "medium")) ;;
     text <- lift (get data "message" (PStr "N/A")) ;;
     now <- utcnow ;;
     let message :=
       newline ++ "New Contact Form Submission" ++ newline ++ newline ++
       "Submission ID: " ++ submission_id ++ newline ++
       "Name: " ++ str_of L name ++ newline ++
       "Email: " ++ str_of L email ++ newline ++
       "Phone: " ++ str_of L phone ++ newline ++
       "Subject: " ++ str_of L subject ++ newline ++
       "Priority: " ++ str_of L priority ++ newline ++ newline ++
       "Message:" ++ newline ++ str_of L text ++ newline ++ newline ++
       "Submitted at: " ++ isoformat L now ++ newline ++ "        " in
     subject' <- lift (get data "subject" (PStr "Unknown")) ;;
     response <- sdk "sns" "publish" (ContactHandler.publish_args L subject' message) ;;
     lift (getitem response "MessageId") ;;;
     ret tt)
    (fun _ => ret tt).

(** [body = event.get('body', {})], decoded when it is a string *)
Definition parse_body (event : pyval) : result pyval :=
  match get event "body" (PDict []) with
  | Raise e => Raise e
  | Ok (PStr text) =>
      match json_loads L text with
      | Some v => Ok v
      | None => Raise JSONDecodeError
      end
  | Ok body => Ok body
  end.

Definition lambda_handler (event : pyval) : M response :=
  try_except
    (body <- lift (parse_body event) ;;
     submission_id <- process_contact_submission body ;;
     send_notification_email body submission_id ;;;
     now <- utcnow ;;
     ret {| statusCode := 200;
            body := [("message", PStr "Contact form submitted successfully");
                     ("submission_id", PStr submission_id);
                     ("timestamp", PStr (isoformat L now))] |})
    (fun _ =>
       ret {| statusCode := 500;
              body := [("error", PStr "Internal server error");
                       ("message",
                        PStr "An error occurred while processing your request")] |}).

End Model.

End BrokenContactHandler.

(** * Properties *)

(** ** Reasoning about the calls a computation makes *)

(** [emits P m]: whatever the environment answers, [m] only appends calls
    that satisfy [P] to the history. *)
Definition emits {A} (P : call -> Prop) (m : M A) : Prop :=
  forall w h, exists t, snd (m w h) = (h ++ t)%list /\ Forall P t.

Section Emits.

Context {A B : Type} (P : call -> Prop).

Lemma emits_ret (a : A) : emits P (ret a).
Proof. intros w h. exists []. simpl. rewrite app_nil_r. auto. Qed.

Lemma emits_raise (e : exn) : emits P (@raise A e).
Proof. intros w h. exists []. simpl. rewrite app_nil_r. auto. Qed.

Lemma emits_lift (r : result A) : emits P (lift r).
Proof. intros w h. exists []. simpl. rewrite app_nil_r. auto. Qed.

Lemma emits_bind (m : M A) (f : A -> M B) :
  emits P m -> (forall a, emits P (f a)) -> emits P (bind m f).
Proof.
  intros Hm Hf w h. unfold bind.
  destruct (Hm w h) as [t [Et Ft]].
  destruct (m w h) as [[a | e] h']; simpl in Et; subst h'.
  - destruct (Hf a w (h ++ t)%list) as [t' [Et' Ft']].
    exists (t ++ t')%list. rewrite Et', app_assoc. split; [reflexivity|].
    apply Forall_app; auto.
  - exists t. auto.
Qed.

Lemma emits_try_except (m : M A) (handler : exn -> M A) :
  emits P m -> (forall e, emits P (handler e)) -> emits P (try_except m handler).
Proof.
  intros Hm Hh w h. unfold try_except.
  destruct (Hm w h) as [t [Et Ft]].
  destruct (m w h) as [[a | e] h']; simpl in Et; subst h'.
  - exists t. auto.
  - destruct (Hh e w (h ++ t)%list) as [t' [Et' Ft']].
    exists (t ++ t')%list. rewrite Et', app_assoc. split; [reflexivity|].
    apply Forall_app; auto.
Qed.

Lemma emits_fold_each {S : Type} (l : list A) (body : S -> A -> M S) (s : S) :
  (forall s' x, emits P (body s' x)) -> emits P (fold_each l body s).
Proof.
  intros Hb. revert s. induction l as [| x l IH]; intros s; simpl.
  - intros w h. exists []. simpl. rewrite app_nil_r. auto.
  - intros w h. unfold bind.
    destruct (Hb s x w h) as [t [Et Ft]].
    destruct (body s x w h) as [[s' | e] h']; simpl in Et; subst h'.
    + destruct (IH s' w (h ++ t)%list) as [t' [Et' Ft']].
      exists (t ++ t')%list. rewrite Et', app_assoc. split; [reflexivity|].
      apply Forall_app; auto.
    + exists t. auto.
Qed.

Lemma emits_guarded {S : Type} (s : S) (m : M A) (k : A -> M (S * option exn)) :
  emits P m -> (forall a, emits P (k a)) -> emits P (guarded s m k).
Proof.
  intros Hm Hk w h. unfold guarded.
  destruct (Hm w h) as [t [Et Ft]].
  destruct (m w h) as [[a | e] h']; simpl in Et; subst h'.
  - destruct (Hk a w (h ++ t)%list) as [t' [Et' Ft']].
    exists (t ++ t')%list. rewrite Et', app_assoc. split; [reflexivity|].
    apply Forall_app; auto.
  - exists t. auto.
Qed.

Lemma emits_pfold {S : Type} (l : list A) (body : S -> A -> M (S * option exn)) (s : S) :
  (forall s' x, emits P (body s' x)) -> emits P (pfold l body s).
Proof.
  intros Hb. revert s. induction l as [| x l IH]; intros s; simpl.
  - intros w h. exists []. simpl. rewrite app_nil_r. auto.
  - intros w h. unfold bind.
    destruct (Hb s x w h) as [t [Et Ft]].
    destruct (body s x w h) as [[[s' [e |]] | e] h']; simpl in Et; subst h'; simpl.
    + exists t. unfold ret. simpl. auto.
    + destruct (IH s' w (h ++ t)%list) as [t' [Et' Ft']].
      exists (t ++ t')%list. rewrite Et', app_assoc. split; [reflexivity|].
      apply Forall_app; auto.
    + exists t. auto.
Qed.

End Emits.

Lemma emits_sdk (P : call -> Prop) client operation kwargs :
  P (Sdk client operation kwargs) -> emits P (sdk client operation kwargs).
Proof. intros H w h. exists [Sdk client operation kwargs]. simpl. auto. Qed.

Lemma emits_utcnow (P : call -> Prop) : P Utcnow -> emits P utcnow.
Proof. intros H w h. exists [Utcnow]. simpl. auto. Qed.

Lemma emits_uuid4 (P : call -> Prop) : P Uuid4 -> emits P uuid4.
Proof. intros H w h. exists [Uuid4]. simpl. auto. Qed.

Lemma emits_resolve_global (P : call -> Prop) globals name :
  emits P (resolve_global globals name).
Proof.
  unfold resolve_global. destruct (existsb _ _); [apply emits_ret | apply emits_raise].
Qed.

Lemma emits_os_environ_get (P : call -> Prop) globals environ key :
  emits P (os_environ_get globals environ key).
Proof.
  unfold os_environ_get. apply emits_bind; [apply emits_resolve_global |].
  intros _. apply emits_ret.
Qed.

(** One step of a proof that a function only makes calls in [P]: peel a
    combinator, or split on the value a branch inspects. *)
Ltac emits_step :=
  match goal with
  | |- emits _ (bind _ _) => apply emits_bind; [| intros ?]
  | |- emits _ (try_except _ _) => apply emits_try_except; [| intros ?]
  | |- emits _ (guarded _ _ _) => apply emits_guarded; [| intros ?]
  | |- emits _ (fold_each _ _ _) => apply emits_fold_each; intros ? ?
  | |- emits _ (pfold _ _ _) => apply emits_pfold; intros ? ?
  | |- emits _ (ret _) => apply emits_ret
  | |- emits _ (raise _) => apply emits_raise
  | |- emits _ (lift _) => apply emits_lift
  | |- emits _ (sdk _ _ _) => apply emits_sdk; try reflexivity
  | |- emits _ utcnow => apply emits_utcnow; try reflexivity
  | |- emits _ uuid4 => apply emits_uuid4; try reflexivity
  | |- emits _ (os_environ_get _ _ _) => apply emits_os_environ_get
  | |- emits _ (resolve_global _ _) => apply emits_resolve_global
  | |- emits _ (if ?b then _ else _) => destruct b
  | |- emits _ (match ?x with _ => _ end) => destruct x
  end.

Ltac emits_auto := repeat (emits_step; auto).

(** ** The four handlers that use [os] without importing it *)

Definition error_response (e : exn) : response :=
  {| statusCode := 500; body := [("error", PStr (exn_str e))] |}.

(** the three subscripts the auto-remediation handler evaluates first *)
Definition alarm_fields (event : pyval) : result (pyval * pyval * pyval) :=
  match getitem event "detail" with
  | Raise e => Raise e
  | Ok detail =>
  match getitem detail "alarmName" with
  | Raise e => Raise e
  | Ok alarm_name =>
  match getitem detail "state" with
  | Raise e => Raise e
  | Ok state =>
  match getitem state "value" with
  | Raise e => Raise e
  | Ok alarm_state =>
  match getitem state "reason" with
  | Raise e => Raise e
  | Ok alarm_reason => Ok (alarm_name, alarm_state, alarm_reason)
  end end end end end.

Lemma os_is_unbound_in_auto_remediation environ key w h :
  os_environ_get AutoRemediation.module_globals environ key w h = (Raise (NameError "os"), h).
Proof. reflexivity. Qed.

Lemma auto_remediation_handler_fails L environ event w h :
  AutoRemediation.handler L environ event w h =
  (Ok (error_response (match alarm_fields event with
                       | Ok _ => NameError "os"
                       | Raise e => e
                       end)), h).
Proof.
  unfold AutoRemediation.handler, AutoRemediation.handler_in, alarm_fields.
  unfold try_except, bind, lift.
  destruct (getitem event "detail") as [detail |]; [| reflexivity].
  destruct (getitem detail "alarmName") as [alarm_name |]; [| reflexivity].
  destruct (getitem detail "state") as [state |]; [| reflexivity].
  destruct (getitem state "value") as [alarm_state |]; [| reflexivity].
  destruct (getitem state "reason") as [alarm_reason |]; [| reflexivity].
  rewrite os_is_unbound_in_auto_remediation. reflexivity.
Qed.

Lemma cost_optimizer_handler_fails L environ event w h :
  CostOptimizer.handler L environ event w h = (Ok (error_response (NameError "os")), h).
Proof. reflexivity. Qed.

Lemma security_response_handler_fails L environ event w h :
  SecurityResponse.handler L environ event w h = (Ok (error_response (NameError "os")), h).
Proof. reflexivity. Qed.

Lemma compliance_monitor_handler_fails L environ event w h :
  ComplianceMonitor.handler L environ event w h = (Ok (error_response (NameError "os")), h).
Proof. reflexivity. Qed.

(** C1: whatever the event and whatever AWS would answer, each of the four
    handlers returns status code 500 and leaves the history of calls as it
    found it: no remediation, no SDK write, no SNS notification.  The
    exception the catch-all turns into that response is the [NameError] for
    [os]; the auto-remediation handler reads three fields of the event
    first, and an event that lacks them fails with their error instead. *)
Theorem C1_handlers_without_os_return_500 :
  forall (L : pylib) (environ : string -> option string) (event : pyval)
         (w : world) (h : history),
    AutoRemediation.handler L environ event w h =
      (Ok (error_response (match alarm_fields event with
                           | Ok _ => NameError "os"
                           | Raise e => e
                           end)), h) /\
    CostOptimizer.handler L environ event w h =
      (Ok (error_response (NameError "os")), h) /\
    SecurityResponse.handler L environ event w h =
      (Ok (error_response (NameError "os")), h) /\
    ComplianceMonitor.handler L environ event w h =
      (Ok (error_response (NameError "os")), h) /\
    statusCode (error_response (NameError "os")) = 500%Z.
Proof.
  intros L environ event w h.
  split; [apply auto_remediation_handler_fails |].
  split; [apply cost_optimizer_handler_fails |].
  split; [apply security_response_handler_fails |].
  split; [apply compliance_monitor_handler_fails | reflexivity].
Qed.

(** ** Auto-remediation: dispatch on the alarm name *)

Definition instance_status_event : pyval :=
  PDict [("detail",
          PDict [("alarmName", PStr "prod-instance-status-i-0abc123def");
                 ("state", PDict [("value", PStr "ALARM");
                                  ("reason", PStr "Threshold Crossed")])])].

Definition reboot_call (id : string) : call :=
  Sdk "ec2" "reboot_instances" [("InstanceIds", PList [PStr id])].

(** a module namespace in which [os] has been imported *)
Definition with_os (globals : list string) : list string := "os" :: globals.

Lemma instance_id_of_sample :
  AutoRemediation.search_instance_id "prod-instance-status-i-0abc123def"
  = Some "i-0abc123def".
Proof. reflexivity. Qed.

(** With [os] bound, the handler does what the dispatch is written for: the
    reboot is the first call and the status code is 200. *)
Lemma instance_status_reboots_when_os_is_bound L environ w :
  exists resp t,
    run (AutoRemediation.handler_in L environ (with_os AutoRemediation.module_globals)
           instance_status_event) w
    = (Ok resp, reboot_call "i-0abc123def" :: t) /\
    statusCode resp = 200%Z.
Proof.
  unfold run, AutoRemediation.handler_in, with_os.
  unfold try_except, bind, lift, os_environ_get, resolve_global. simpl.
  unfold AutoRemediation.handle_instance_status_alarm, AutoRemediation.extract_instance_id.
  unfold try_except, bind, lift, sdk, ret. simpl.
  destruct (aws w [] "ec2" "reboot_instances" _) as [r | e];
    destruct (environ "SNS_TOPIC_ARN") as [arn |]; simpl;
    try (destruct (negb (arn =? ""))%string; simpl);
    unfold AutoRemediation.send_notification, try_except, bind, utcnow, sdk, ret; simpl;
    try (destruct (aws w _ "sns" "publish" _); simpl);
    eexists; eexists; (split; [reflexivity | reflexivity]).
Qed.

(** C5, at the failing input: an [instance-status] alarm that names an
    instance.  The deployed handler returns 500 and calls nothing, because
    [os] is unbound; the same code with [os] imported reboots the instance
    and returns 200. *)
Theorem C5_instance_status_alarm_is_not_remediated :
  forall (L : pylib) (environ : string -> option string) (w : world),
    run (AutoRemediation.handler L environ instance_status_event) w
      = (Ok (error_response (NameError "os")), []) /\
    (exists resp t,
        run (AutoRemediation.handler_in L environ
               (with_os AutoRemediation.module_globals) instance_status_event) w
        = (Ok resp, reboot_call "i-0abc123def" :: t) /\
        statusCode resp = 200%Z).
Proof.
  intros L environ w. split.
  - unfold run. rewrite auto_remediation_handler_fails. reflexivity.
  - apply instance_status_reboots_when_os_is_bound.
Qed.

(** ** Compliance monitor: security-group remediation *)

Definition open_rule : pyval :=
  PDict [("IpProtocol", PStr "tcp"); ("FromPort", PNum 22); ("ToPort", PNum 22);
         ("IpRanges", PList [PDict [("CidrIp", PStr "0.0.0.0/0")]])].

Definition office_rule : pyval :=
  PDict [("IpProtocol", PStr "tcp"); ("FromPort", PNum 443); ("ToPort", PNum 443);
         ("IpRanges", PList [PDict [("CidrIp", PStr "10.0.0.0/8")]])].

Definition security_group_event : pyval :=
  PDict [("source", PStr "aws.config");
         ("detail",
          PDict [("configRuleName", PStr "restricted-security-group-ingress");
                 ("newEvaluationResult",
                  PDict [("complianceType", PStr "NON_COMPLIANT");
                         ("evaluationResultIdentifier",
                          PDict [("evaluationResultQualifier",
                                  PDict [("resourceType", PStr "AWS::EC2::SecurityGroup");
                                         ("resourceId", PStr "sg-0123")])])])])].

(** an account whose security group has one rule open to the world *)
Definition open_group_world : world :=
  {| aws := fun _ client operation _ =>
       if String.eqb operation "describe_security_groups"
       then Ok (PDict [("SecurityGroups",
                        PList [PDict [("GroupId", PStr "sg-0123");
                                      ("IpPermissions", PList [open_rule; office_rule])]])])
       else Ok (PDict []);
     clock := fun _ => 0%Z;
     uuid := fun _ => "" |}.

Definition describe_group_call : call :=
  Sdk "ec2" "describe_security_groups" [("GroupIds", PList [PStr "sg-0123"])].

Definition revoke_call : call :=
  Sdk "ec2" "revoke_security_group_ingress"
    (ComplianceMonitor.revoke_args (PStr "sg-0123") open_rule).

Lemma open_rule_revoked_when_os_is_bound L environ :
  exists resp t,
    run (ComplianceMonitor.handler_in L environ
           (with_os ComplianceMonitor.module_globals) security_group_event)
        open_group_world
    = (Ok resp, describe_group_call :: revoke_call :: t) /\
    statusCode resp = 200%Z /\
    ~ In (Sdk "ec2" "revoke_security_group_ingress"
            (ComplianceMonitor.revoke_args (PStr "sg-0123") office_rule)) t.
Proof.
  unfold run, ComplianceMonitor.handler_in, with_os.
  unfold try_except, bind, lift, os_environ_get, resolve_global. simpl.
  unfold ComplianceMonitor.handle_compliance_violation, bind, lift. simpl.
  unfold ComplianceMonitor.handle_security_group_violation.
  unfold try_except, bind, lift, sdk, ret. simpl.
  destruct (environ "COMPLIANCE_SNS_TOPIC_ARN") as [arn |]; simpl;
    try (destruct (negb (arn =? ""))%string; simpl);
    unfold ComplianceMonitor.send_compliance_notification, try_except, bind, utcnow, sdk, ret;
    simpl;
    eexists; eexists; (split; [reflexivity | split; [reflexivity |]]);
    simpl; intros H; repeat (destruct H as [H | H]; [discriminate H |]); exact H.
Qed.

(** C6, at the failing input: a [NON_COMPLIANT] evaluation of a
    security-group rule, in an account whose group has a rule open to
    0.0.0.0/0.  The deployed handler returns 500 and calls nothing, because
    [os] is unbound; the same code with [os] imported revokes the open rule,
    leaves the other rule alone and returns 200. *)
Theorem C6_open_security_group_is_not_remediated :
  forall (L : pylib) (environ : string -> option string),
    run (ComplianceMonitor.handler L environ security_group_event) open_group_world
      = (Ok (error_response (NameError "os")), []) /\
    (exists resp t,
        run (ComplianceMonitor.handler_in L environ
               (with_os ComplianceMonitor.module_globals) security_group_event)
            open_group_world
        = (Ok resp, describe_group_call :: revoke_call :: t) /\
        statusCode resp = 200%Z /\
        ~ In (Sdk "ec2" "revoke_security_group_ingress"
                (ComplianceMonitor.revoke_args (PStr "sg-0123") office_rule)) t).
Proof.
  intros L environ. split.
  - reflexivity.
  - apply open_rule_revoked_when_os_is_bound.
Qed.

(** ** Project3 cost optimizer: idle instances *)

(** the arithmetic mean of a non-empty list of rationals *)
Definition arithmetic_mean (l : list Q) : Q :=
  (fold_right Qplus 0 l / inject_Z (Z.of_nat (List.length l)))%Q.

(** the ['Average'] of every datapoint, when each has a numeric one *)
Fixpoint averages (points : list pyval) : option (list Q) :=
  match points with
  | [] => Some []
  | p :: rest =>
      match getitem p "Average" with
      | Ok a =>
          match as_number a, averages rest with
          | Ok q, Some qs => Some (q :: qs)
          | _, _ => None
          end
      | Raise _ => None
      end
  end.

(** what CloudWatch returned: the averages of the datapoints of a reply,
    [None] when the query raised or the reply carries no list of datapoints *)
Definition datapoint_averages (reply : result pyval) : option (list Q) :=
  match reply with
  | Ok response =>
      match getitem response "Datapoints" with
      | Ok (PList points) => averages points
      | _ => None
      end
  | Raise _ => None
  end.

Definition idle_threshold : Q := 5.

(** the sum of the values as Python arithmetic computes it: from the
    integer 0, from left to right, a sum of floats being rounded after every
    addition *)
Definition python_sum (qs : list Q) : result number :=
  fold_left (fun total q =>
               match total with
               | Ok t => number_add t (number_of q)
               | Raise e => Raise e
               end) qs (Ok (Exact 0)).

(** the mean of the values as [sum(values) / len(values)] computes it *)
Definition python_mean (qs : list Q) : result float64 :=
  match python_sum qs with
  | Ok total => number_div_nat total (List.length qs)
  | Raise e => Raise e
  end.

(** the classification: at least one datapoint, and a computed mean
    strictly below the threshold *)
Definition classified_idle (reply : result pyval) : bool :=
  match datapoint_averages reply with
  | Some (q :: qs) =>
      match python_mean (q :: qs) with
      | Ok mean => float_lt mean (Finite idle_threshold)
      | Raise _ => false
      end
  | _ => false
  end.

(** the query for the hourly CPU utilization of an instance over the seven
    days before [now] *)
Definition cpu_query (instance_id : pyval) (now : Z) : list (string * pyval) :=
  [("Namespace", PStr "AWS/EC2");
   ("MetricName", PStr "CPUUtilization");
   ("Dimensions", PList [PDict [("Name", PStr "InstanceId"); ("Value", instance_id)]]);
   ("StartTime", PDatetime (now - 7 * 86400)%Z);
   ("EndTime", PDatetime now);
   ("Period", PNum 3600);
   ("Statistics", PList [PStr "Average"])].

(** the reply of the environment to that query *)
Definition cpu_reply (w : world) (h : history) (instance_id : pyval) : result pyval :=
  aws w (h ++ [Utcnow])%list "cloudwatch" "get_metric_statistics"
    (cpu_query instance_id (clock w h)).

(** the calls one classification makes *)
Definition cpu_calls (w : world) (h : history) (instance_id : pyval) : list call :=
  [Utcnow; Sdk "cloudwatch" "get_metric_statistics" (cpu_query instance_id (clock w h))].

Lemma Qlt_bool_iff (x y : Q) : Qlt_bool x y = true <-> (x < y)%Q.
Proof.
  unfold Qlt_bool. rewrite negb_true_iff. split.
  - intros H. apply Qnot_le_lt. intros Hle. apply Qle_bool_iff in Hle. congruence.
  - intros H. destruct (Qle_bool y x) eqn:E; [| reflexivity].
    apply Qle_bool_iff in E. exfalso. exact (Qlt_not_le _ _ H E).
Qed.

Lemma Qlt_bool_comp (x x' y : Q) : (x == x')%Q -> Qlt_bool x y = Qlt_bool x' y.
Proof.
  intros E. unfold Qlt_bool. f_equal. apply Qleb_comp; [reflexivity | exact E].
Qed.

Definition add_value (total : result number) (q : Q) : result number :=
  match total with
  | Ok t => number_add t (number_of q)
  | Raise e => Raise e
  end.

Lemma fold_add_value_raise (qs : list Q) (e : exn) :
  fold_left add_value qs (Raise e) = Raise e.
Proof. induction qs as [| q qs IH]; [reflexivity | exact IH]. Qed.

Lemma sum_averages_spec (points : list pyval) :
  forall acc,
    match averages points with
    | Some qs =>
        CostOptimizer.sum_averages points acc = fold_left add_value qs (Ok acc) /\
        List.length qs = List.length points
    | None => exists e, CostOptimizer.sum_averages points acc = Raise e
    end.
Proof.
  induction points as [| p rest IH]; intros acc; simpl.
  - split; reflexivity.
  - destruct (getitem p "Average") as [a | e]; [| exists e; reflexivity].
    destruct (as_number a) as [q | e]; [| destruct (averages rest); exists e; reflexivity].
    destruct (number_add acc (number_of q)) as [acc' | e] eqn:Ea.
    + specialize (IH acc'). destruct (averages rest) as [qs |].
      * destruct IH as [E Hlen]. split; [| simpl; congruence].
        simpl. rewrite Ea. exact E.
      * exact IH.
    + destruct (averages rest) as [qs |].
      * split; [| simpl; f_equal; destruct (IH acc) as [_ Hlen]; exact Hlen].
        simpl. rewrite Ea, fold_add_value_raise. reflexivity.
      * exists e. reflexivity.
Qed.

Lemma average_of_list (points : list pyval) :
  match averages points with
  | Some qs =>
      CostOptimizer.average_of (PList points) = python_mean qs /\
      List.length qs = List.length points
  | None => exists e, CostOptimizer.average_of (PList points) = Raise e
  end.
Proof.
  unfold CostOptimizer.average_of, python_mean, python_sum. cbn [iter len].
  pose proof (sum_averages_spec points (Exact 0)) as H.
  destruct (averages points) as [qs |].
  - destruct H as [E Hlen]. split; [| exact Hlen].
    rewrite E. fold add_value. rewrite Hlen. reflexivity.
  - destruct H as [e E]. exists e. rewrite E. reflexivity.
Qed.

Lemma is_instance_idle_classifies instance_id w h :
  CostOptimizer.is_instance_idle instance_id w h =
  (Ok (classified_idle (cpu_reply w h instance_id)),
   (h ++ cpu_calls w h instance_id)%list).
Proof.
  unfold CostOptimizer.is_instance_idle, classified_idle, datapoint_averages, cpu_reply,
    cpu_calls.
  unfold try_except, bind, utcnow, sdk, lift, ret, CostOptimizer.seconds_per_day, cpu_query,
    CostOptimizer.metric_query.
  simpl. rewrite <- app_assoc. simpl.
  destruct (aws w _ _ _ _) as [response |]; [| reflexivity].
  destruct (getitem response "Datapoints") as [datapoints |]; [| reflexivity].
  destruct datapoints as [| b | q | s | z | points | d]; simpl;
    try reflexivity.
  - destruct b; reflexivity.
  - destruct (negb (Qzero q)); reflexivity.
  - destruct s as [| c s']; [reflexivity |].
    unfold CostOptimizer.average_of. reflexivity.
  - destruct points as [| p rest]; [reflexivity |].
    cbn [negb].
    pose proof (average_of_list (p :: rest)) as H.
    destruct (averages (p :: rest)) as [qs |].
    + destruct H as [E Hlen]. rewrite E.
      destruct qs as [| q qs]; [discriminate Hlen |].
      destruct (python_mean (q :: qs)); reflexivity.
    + destruct H as [e E]. rewrite E. reflexivity.
  - destruct d as [| [k v] d']; [reflexivity |].
    unfold CostOptimizer.average_of. reflexivity.
Qed.

(** [keeps w Inv m]: in the environment [w], the loop variables [m] returns
    satisfy [Inv], whether the loop ended or was left by an exception. *)
Definition keeps {S} (w : world) (Inv : S -> Prop) (m : M (S * option exn)) : Prop :=
  forall h, match fst (m w h) with
            | Ok (s, _) => Inv s
            | Raise _ => True
            end.

Section Keeps.

Context {A S : Type} (w : world) (Inv : S -> Prop).

Lemma keeps_ret (s : S) (o : option exn) : Inv s -> keeps w Inv (ret (s, o)).
Proof. intros H h. exact H. Qed.

Lemma keeps_guarded (s : S) (m : M A) (k : A -> M (S * option exn)) :
  Inv s -> (forall a, keeps w Inv (k a)) -> keeps w Inv (guarded s m k).
Proof.
  intros Hs Hk h. unfold guarded.
  destruct (m w h) as [[a | e] h']; [apply Hk | exact Hs].
Qed.

Lemma keeps_pfold (l : list A) (body : S -> A -> M (S * option exn)) :
  (forall s x, Inv s -> keeps w Inv (body s x)) ->
  forall s, Inv s -> keeps w Inv (pfold l body s).
Proof.
  intros Hb. induction l as [| x l IH]; intros s Hs h; simpl.
  - exact Hs.
  - unfold bind. pose proof (Hb s x Hs h) as H.
    destruct (body s x w h) as [[[s' [e |]] | e] h']; simpl in *.
    + exact H.
    + apply IH. exact H.
    + exact I.
Qed.

End Keeps.

(** the filter of [describe_instances]: the running instances *)
Definition running_instances_filter : list (string * pyval) :=
  [("Filters", PList [PDict [("Name", PStr "instance-state-name");
                             ("Values", PList [PStr "running"])]])].

(** the instance ids of a list of descriptions, up to the first description
    without an [InstanceId] or an [InstanceType]; the flag tells whether
    every description was read *)
Fixpoint described_instances (instances : list pyval) : list pyval * bool :=
  match instances with
  | [] => ([], true)
  | instance :: rest =>
      match getitem instance "InstanceId", getitem instance "InstanceType" with
      | Ok id, Ok _ =>
          (id :: fst (described_instances rest), snd (described_instances rest))
      | _, _ => ([], false)
      end
  end.

(** the instances of the reservations in the order of the reply, up to the
    first entry that cannot be read *)
Fixpoint scanned_instances (reservations : list pyval) : list pyval * bool :=
  match reservations with
  | [] => ([], true)
  | reservation :: rest =>
      match getitem reservation "Instances" with
      | Ok instances =>
          match iter instances with
          | Ok l =>
              if snd (described_instances l)
              then ((fst (described_instances l) ++ fst (scanned_instances rest))%list,
                    snd (scanned_instances rest))
              else (fst (described_instances l), false)
          | Raise _ => ([], false)
          end
      | Raise _ => ([], false)
      end
  end.

(** the instances [check_idle_instances] classifies, given the reply to its
    [describe_instances] *)
Definition running_instances (reply : result pyval) : list pyval :=
  match reply with
  | Ok response =>
      match getitem response "Reservations" with
      | Ok reservations =>
          match iter reservations with
          | Ok l => fst (scanned_instances l)
          | Raise _ => []
          end
      | Raise _ => []
      end
  | Raise _ => []
  end.

(** the history after the instances were classified one after the other *)
Fixpoint history_after (w : world) (h : history) (ids : list pyval) : history :=
  match ids with
  | [] => h
  | id :: rest => history_after w (h ++ cpu_calls w h id)%list rest
  end.

(** the instances classified idle, each by the reply to its own query *)
Fixpoint idle_among (w : world) (h : history) (ids : list pyval) : list pyval :=
  match ids with
  | [] => []
  | id :: rest =>
      if classified_idle (cpu_reply w h id)
      then id :: idle_among w (h ++ cpu_calls w h id)%list rest
      else idle_among w (h ++ cpu_calls w h id)%list rest
  end.

Lemma idle_among_app w ids more :
  forall h,
    idle_among w h (ids ++ more)%list
    = (idle_among w h ids ++ idle_among w (history_after w h ids) more)%list.
Proof.
  induction ids as [| id ids IH]; intros h; [reflexivity |].
  cbn [app idle_among history_after]. rewrite IH.
  destruct (classified_idle (cpu_reply w h id)); reflexivity.
Qed.

Lemma history_after_app w ids more :
  forall h,
    history_after w h (ids ++ more)%list
    = history_after w (history_after w h ids) more.
Proof.
  induction ids as [| id ids IH]; intros h; [reflexivity |].
  cbn [app history_after]. apply IH.
Qed.

Lemma pfold_step {A S} (x : A) (l : list A) (body : S -> A -> M (S * option exn))
  (s : S) w h :
  pfold (x :: l) body s w h =
  match body s x w h with
  | (Ok (s', None), h') => pfold l body s' w h'
  | (Ok (s', Some e), h') => (Ok (s', Some e), h')
  | (Raise e, h') => (Raise e, h')
  end.
Proof.
  cbn [pfold]. unfold bind.
  destruct (body s x w h) as [[[s' [e |]] | e] h']; reflexivity.
Qed.

Lemma note_idle_instance_step w h acc instance :
  CostOptimizer.note_idle_instance acc instance w h =
  match getitem instance "InstanceId", getitem instance "InstanceType" with
  | Ok id, Ok _ =>
      (Ok (if classified_idle (cpu_reply w h id) then append acc id else acc, None),
       (h ++ cpu_calls w h id)%list)
  | Ok _, Raise e => (Ok (acc, Some e), h)
  | Raise e, _ => (Ok (acc, Some e), h)
  end.
Proof.
  unfold CostOptimizer.note_idle_instance, guarded, lift.
  destruct (getitem instance "InstanceId") as [id | e]; [| reflexivity].
  destruct (getitem instance "InstanceType") as [ty | e]; [| reflexivity].
  rewrite is_instance_idle_classifies. reflexivity.
Qed.

Lemma note_idle_instances_scan w instances :
  forall acc h, exists o,
    pfold instances CostOptimizer.note_idle_instance acc w h
    = (Ok ((acc ++ idle_among w h (fst (described_instances instances)))%list, o),
       history_after w h (fst (described_instances instances))) /\
    (o = None <-> snd (described_instances instances) = true).
Proof.
  induction instances as [| instance rest IH]; intros acc h.
  - exists None. cbn. rewrite app_nil_r. split; [reflexivity | split; reflexivity].
  - rewrite pfold_step, note_idle_instance_step. cbn [described_instances].
    destruct (getitem instance "InstanceId") as [id | e].
    + destruct (getitem instance "InstanceType") as [ty | e].
      * cbn [fst snd idle_among history_after].
        destruct (classified_idle (cpu_reply w h id)).
        -- destruct (IH (append acc id) (h ++ cpu_calls w h id)%list) as [o [E Ho]].
           exists o. rewrite E. unfold append. rewrite <- app_assoc.
           split; [reflexivity | exact Ho].
        -- destruct (IH acc (h ++ cpu_calls w h id)%list) as [o [E Ho]].
           exists o. rewrite E. split; [reflexivity | exact Ho].
      * exists (Some e). cbn. rewrite app_nil_r.
        split; [reflexivity | split; discriminate].
    + exists (Some e). cbn. rewrite app_nil_r.
      split; [reflexivity | split; discriminate].
Qed.

Lemma scan_reservation_step w h acc reservation :
  CostOptimizer.scan_reservation acc reservation w h =
  match getitem reservation "Instances" with
  | Ok instances =>
      match iter instances with
      | Ok l => pfold l CostOptimizer.note_idle_instance acc w h
      | Raise e => (Ok (acc, Some e), h)
      end
  | Raise e => (Ok (acc, Some e), h)
  end.
Proof.
  unfold CostOptimizer.scan_reservation, guarded, lift.
  destruct (getitem reservation "Instances") as [instances | e]; [| reflexivity].
  destruct (iter instances); reflexivity.
Qed.

Lemma scan_reservations_scan w reservations :
  forall acc h, exists o,
    pfold reservations CostOptimizer.scan_reservation acc w h
    = (Ok ((acc ++ idle_among w h (fst (scanned_instances reservations)))%list, o),
       history_after w h (fst (scanned_instances reservations))).
Proof.
  induction reservations as [| reservation rest IH]; intros acc h.
  - exists None. cbn. rewrite app_nil_r. reflexivity.
  - rewrite pfold_step, scan_reservation_step. cbn [scanned_instances].
    destruct (getitem reservation "Instances") as [instances | e];
      [| exists (Some e); cbn; rewrite app_nil_r; reflexivity].
    destruct (iter instances) as [l | e];
      [| exists (Some e); cbn; rewrite app_nil_r; reflexivity].
    destruct (note_idle_instances_scan w l acc h) as [o [E Ho]]. rewrite E.
    destruct (snd (described_instances l)) eqn:C.
    + assert (o = None) by (apply Ho; reflexivity). subst o.
      cbn [fst snd].
      destruct (IH (acc ++ idle_among w h (fst (described_instances l)))%list
                  (history_after w h (fst (described_instances l)))) as [o' E'].
      exists o'. rewrite E', idle_among_app, history_after_app, app_assoc. reflexivity.
    + destruct o as [e |].
      * exists (Some e). reflexivity.
      * exfalso. assert (false = true) by (apply Ho; reflexivity). discriminate.
Qed.

(** [check_idle_instances] reports the running instances it reads from the
    reply, in order, that are classified idle *)
Lemma check_idle_instances_reports w h :
  CostOptimizer.check_idle_instances w h =
  let described := (h ++ [Sdk "ec2" "describe_instances" running_instances_filter])%list in
  let ids := running_instances (aws w h "ec2" "describe_instances" running_instances_filter) in
  (Ok (idle_among w described ids), history_after w described ids).
Proof.
  unfold CostOptimizer.check_idle_instances, bind, guarded, sdk, lift, ret,
    running_instances, CostOptimizer.running_filter, running_instances_filter.
  destruct (aws w h "ec2" "describe_instances" _) as [response | e]; [| reflexivity].
  destruct (getitem response "Reservations") as [reservations | e]; [| reflexivity].
  destruct (iter reservations) as [l | e]; [| reflexivity].
  match goal with
  | |- context [pfold l CostOptimizer.scan_reservation [] w ?h1] =>
      destruct (scan_reservations_scan w l [] h1) as [o E]; rewrite E
  end.
  reflexivity.
Qed.

(** an account whose only instance has two datapoints, 5.0 and the float
    just below it *)
Definition just_below_five : Q := 5629499534213119 # 1125899906842624.

Definition boundary_account : world :=
  {| aws := fun _ client operation _ =>
       if client =? "cloudwatch"
       then Ok (PDict [("Datapoints",
                        PList [PDict [("Average", PNum 5)];
                               PDict [("Average", PNum just_below_five)]])])
       else Ok (PDict [("Reservations",
                        PList [PDict [("Instances",
                                       PList [PDict [("InstanceId", PStr "i-0b0b");
                                                     ("InstanceType", PStr "t3.micro")]])]])]);
     clock := fun _ => 1700000000%Z;
     uuid := fun _ => "" |}.

(** C8, as stated, fails: CloudWatch returns two datapoints whose
    arithmetic mean is below 5, yet the instance is not classified idle and
    not reported, because the sum of the two floats is rounded to 10. *)
Lemma C8_counterexample_rounded_sum :
  datapoint_averages (cpu_reply boundary_account [] (PStr "i-0b0b"))
    = Some [5; just_below_five] /\
  is_binary64 5 = true /\ is_binary64 just_below_five = true /\
  (arithmetic_mean [5; just_below_five] < 5)%Q /\
  fst (CostOptimizer.is_instance_idle (PStr "i-0b0b") boundary_account []) = Ok false /\
  fst (CostOptimizer.check_idle_instances boundary_account []) = Ok [].
Proof.
  split; [reflexivity |]. split; [vm_compute; reflexivity |].
  split; [vm_compute; reflexivity |]. split; [vm_compute; reflexivity |].
  split; vm_compute; reflexivity.
Qed.

(** C8, amended: [is_instance_idle] sends the query for the hourly
    CPUUtilization averages of the instance over the seven days before the
    call, and answers [True] exactly when the reply carries at least one
    datapoint and the mean of the ['Average'] values, computed as the code
    computes it (the values added from left to right, every sum of floats
    rounded to the nearest binary64 value, the total divided by their
    number), is strictly below 5.0; with no datapoints, or when the query
    raises, it answers [False].  [check_idle_instances] reports, in the
    order of the reply, exactly the running instances it reads that are so
    classified by the reply to their own query. *)
Theorem C8_idle_iff_mean_cpu_below_threshold :
  forall (instance_id : pyval) (w : world) (h : history),
    CostOptimizer.is_instance_idle instance_id w h
      = (Ok (classified_idle (cpu_reply w h instance_id)),
         (h ++ [Utcnow;
                Sdk "cloudwatch" "get_metric_statistics"
                  (cpu_query instance_id (clock w h))])%list) /\
    (classified_idle (cpu_reply w h instance_id) = true <->
     exists qs mean,
       datapoint_averages (cpu_reply w h instance_id) = Some qs /\
       qs <> [] /\
       python_mean qs = Ok mean /\
       float_lt mean (Finite 5) = true) /\
    (datapoint_averages (cpu_reply w h instance_id) = Some [] ->
     fst (CostOptimizer.is_instance_idle instance_id w h) = Ok false) /\
    (forall e, cpu_reply w h instance_id = Raise e ->
     fst (CostOptimizer.is_instance_idle instance_id w h) = Ok false) /\
    (let described :=
       (h ++ [Sdk "ec2" "describe_instances" running_instances_filter])%list in
     let ids :=
       running_instances (aws w h "ec2" "describe_instances" running_instances_filter) in
     CostOptimizer.check_idle_instances w h
       = (Ok (idle_among w described ids), history_after w described ids)).
Proof.
  intros instance_id w h.
  assert (E : CostOptimizer.is_instance_idle instance_id w h
              = (Ok (classified_idle (cpu_reply w h instance_id)),
                 (h ++ cpu_calls w h instance_id)%list))
    by apply is_instance_idle_classifies.
  split; [exact E |]. split; [| split; [| split]].
  - unfold classified_idle. split.
    + destruct (datapoint_averages (cpu_reply w h instance_id)) as [[| q qs] |];
        try discriminate.
      destruct (python_mean (q :: qs)) as [mean |] eqn:Em; [| discriminate].
      intros H. exists (q :: qs), mean. split; [reflexivity |]. split; [discriminate |].
      split; [exact Em | exact H].
    + intros [qs [mean [Hqs [Hne [Hm Hlt]]]]]. rewrite Hqs.
      destruct qs as [| q qs]; [contradiction |].
      rewrite Hm. exact Hlt.
  - intros H. rewrite E. unfold classified_idle. rewrite H. reflexivity.
  - intros e H. rewrite E. unfold classified_idle. rewrite H. reflexivity.
  - apply check_idle_instances_reports.
Qed.

(** ** Performance tester: scoring and the load test *)

Lemma fold_left_Qplus (l : list Q) :
  forall a, (fold_left Qplus l a == a + fold_right Qplus 0 l)%Q.
Proof.
  induction l as [| x l IH]; intros a; simpl.
  - ring.
  - rewrite IH. ring.
Qed.

Lemma Qle_bool_false (x y : Q) : Qle_bool x y = false <-> (y < x)%Q.
Proof.
  split.
  - intros H. apply Qnot_le_lt. intros Hle. apply Qle_bool_iff in Hle. congruence.
  - intros H. destruct (Qle_bool x y) eqn:E; [| reflexivity].
    apply Qle_bool_iff in E. exfalso. exact (Qlt_not_le _ _ H E).
Qed.

(** rounding does not depend on how the rational is written *)
Lemma round64_comp (x y : Q) : (x == y)%Q -> round64 x = round64 y.
Proof. intros H. unfold round64. rewrite (Qred_complete x y H). reflexivity. Qed.

Lemma floor_log2_le (n d : Z) : (floor_log2 n d <= Z.log2 n - Z.log2 d)%Z.
Proof.
  unfold floor_log2.
  destruct (if (0 <=? Z.log2 n - Z.log2 d)%Z then _ else _); lia.
Qed.

Lemma round_half_even_le (n d : Z) :
  (0 < d)%Z -> (round_half_even n d <= n / d + 1)%Z.
Proof.
  intros Hd. unfold round_half_even.
  destruct (2 * (n mod d) ?= d)%Z; [destruct (Z.even (n / d)) | |]; lia.
Qed.

(** a value between 0 and 128 rounds to a finite float *)
Lemma round64_finite_of_small (q : Q) :
  (0 <= q)%Q -> (q <= 128)%Q -> exists r, round64 q = Finite r.
Proof.
  intros H0 H128. unfold round64.
  pose proof (Qred_correct q) as Hred.
  rewrite <- Hred in H0, H128. clear Hred.
  destruct (Qred q) as [n d]. cbn [Qnum Qden].
  unfold Qle in H0, H128. cbn [Qnum Qden] in H0, H128.
  destruct n as [| p | p]; [eexists; reflexivity | | lia].
  assert (Hn : (Z.pos p <= 128 * Z.pos d)%Z) by lia.
  assert (He : (grid_exponent (Z.pos p) (Z.pos d) < 0)%Z).
  { unfold grid_exponent. pose proof (floor_log2_le (Z.pos p) (Z.pos d)) as Hf.
    assert (Hl : (Z.log2 (Z.pos p) <= 7 + Z.log2 (Z.pos d))%Z).
    { rewrite <- (Z.log2_mul_pow2 (Z.pos d) 7) by lia.
      apply Z.log2_le_mono. change (2 ^ 7)%Z with 128%Z. lia. }
    lia. }
  unfold round_magnitude.
  destruct (0 <=? grid_exponent (Z.pos p) (Z.pos d))%Z eqn:El;
    [apply Z.leb_le in El; lia |].
  set (P := (2 ^ (- grid_exponent (Z.pos p) (Z.pos d)))%Z).
  assert (HP : (0 < P)%Z) by (apply Z.pow_pos_nonneg; lia).
  set (m := round_half_even (Z.pos p * P) (Z.pos d)).
  assert (Hm : (m <= 128 * P + 1)%Z).
  { pose proof (round_half_even_le (Z.pos p * P) (Z.pos d) eq_refl) as Hr. fold m in Hr.
    assert ((Z.pos p * P) / Z.pos d <= 128 * P)%Z
      by (apply Z.div_le_upper_bound; nia).
    lia. }
  destruct (Qle_bool overflow_threshold (Qred (m # Z.to_pos P))) eqn:Eo;
    [| eexists; reflexivity].
  exfalso. apply Qle_bool_iff in Eo. rewrite Qred_correct in Eo.
  unfold Qle, overflow_threshold in Eo. cbn [Qnum Qden inject_Z] in Eo.
  rewrite Z2Pos.id in Eo by exact HP.
  assert (H256 : (256 <= 2 ^ 1024)%Z).
  { change 256%Z with (2 ^ 8)%Z. apply Z.pow_le_mono_r; lia. }
  nia.
Qed.

(** the quotient [n / d] lies in the binade [floor_log2] names *)
Lemma floor_log2_upper (n d a b : Z) :
  (0 < n)%Z -> (0 < d)%Z -> (0 <= a)%Z -> (0 <= b)%Z ->
  (floor_log2 n d + 1 <= b - a)%Z ->
  (n * 2 ^ a < d * 2 ^ b)%Z.
Proof.
  intros Hn Hd Ha Hb Hab.
  pose proof (Z.log2_spec n Hn) as [Hn1 Hn2].
  pose proof (Z.log2_spec d Hd) as [Hd1 Hd2].
  pose proof (Z.log2_nonneg n) as Ln. pose proof (Z.log2_nonneg d) as Ld.
  unfold floor_log2 in Hab.
  set (k := (Z.log2 n - Z.log2 d)%Z) in *.
  assert (Hpa : (0 < 2 ^ a)%Z) by (apply Z.pow_pos_nonneg; lia).
  destruct (0 <=? k)%Z eqn:Ek.
  - apply Z.leb_le in Ek.
    destruct (n <? d * 2 ^ k)%Z eqn:Eb.
    + apply Z.ltb_lt in Eb.
      assert (Hle : (2 ^ (k + a) <= 2 ^ b)%Z) by (apply Z.pow_le_mono_r; lia).
      rewrite Z.pow_add_r in Hle by lia. nia.
    + assert (H1 : (n * 2 ^ a < 2 ^ (Z.succ (Z.log2 n) + a))%Z)
        by (rewrite Z.pow_add_r by lia; nia).
      assert (H2 : (2 ^ (Z.succ (Z.log2 n) + a) <= 2 ^ (Z.log2 d + b))%Z)
        by (apply Z.pow_le_mono_r; lia).
      rewrite (Z.pow_add_r 2 (Z.log2 d) b) in H2 by lia.
      assert (Hpb : (0 < 2 ^ b)%Z) by (apply Z.pow_pos_nonneg; lia).
      nia.
  - apply Z.leb_gt in Ek.
    destruct (n * 2 ^ (- k) <? d)%Z eqn:Eb.
    + apply Z.ltb_lt in Eb.
      assert (Hle : (2 ^ a <= 2 ^ (- k + b))%Z) by (apply Z.pow_le_mono_r; lia).
      rewrite Z.pow_add_r in Hle by lia.
      assert (Hpk : (0 < 2 ^ (- k))%Z) by (apply Z.pow_pos_nonneg; lia).
      assert (Hpb : (0 < 2 ^ b)%Z) by (apply Z.pow_pos_nonneg; lia).
      nia.
    + assert (H1 : (n * 2 ^ a < 2 ^ (Z.succ (Z.log2 n) + a))%Z)
        by (rewrite Z.pow_add_r by lia; nia).
      assert (H2 : (2 ^ (Z.succ (Z.log2 n) + a) <= 2 ^ (Z.log2 d + b))%Z)
        by (apply Z.pow_le_mono_r; lia).
      rewrite (Z.pow_add_r 2 (Z.log2 d) b) in H2 by lia.
      assert (Hpb : (0 < 2 ^ b)%Z) by (apply Z.pow_pos_nonneg; lia).
      nia.
Qed.

Lemma floor_log2_lower (n d a b : Z) :
  (0 < n)%Z -> (0 < d)%Z -> (0 <= a)%Z -> (0 <= b)%Z ->
  (b - a <= floor_log2 n d)%Z ->
  (d * 2 ^ b <= n * 2 ^ a)%Z.
Proof.
  intros Hn Hd Ha Hb Hab.
  pose proof (Z.log2_spec n Hn) as [Hn1 Hn2].
  pose proof (Z.log2_spec d Hd) as [Hd1 Hd2].
  pose proof (Z.log2_nonneg n) as Ln. pose proof (Z.log2_nonneg d) as Ld.
  unfold floor_log2 in Hab.
  set (k := (Z.log2 n - Z.log2 d)%Z) in *.
  assert (Hpa : (0 < 2 ^ a)%Z) by (apply Z.pow_pos_nonneg; lia).
  assert (Hpb : (0 < 2 ^ b)%Z) by (apply Z.pow_pos_nonneg; lia).
  assert (Hbelow : (d * 2 ^ b < 2 ^ (Z.succ (Z.log2 d) + b))%Z)
    by (rewrite Z.pow_add_r by lia; nia).
  assert (Hgen : (b - a <= k - 1 -> d * 2 ^ b <= n * 2 ^ a)%Z).
  { intros Hk.
    assert (H2 : (2 ^ (Z.succ (Z.log2 d) + b) <= 2 ^ (Z.log2 n + a))%Z)
      by (apply Z.pow_le_mono_r; lia).
    rewrite (Z.pow_add_r 2 (Z.log2 n) a) in H2 by lia. nia. }
  destruct (0 <=? k)%Z eqn:Ek.
  - apply Z.leb_le in Ek.
    destruct (n <? d * 2 ^ k)%Z eqn:Eb; [apply Hgen; lia |].
    apply Z.ltb_ge in Eb.
    destruct (Z.eq_dec (b - a) k) as [Heq | Hne]; [| apply Hgen; lia].
    assert (Hb' : b = (k + a)%Z) by lia. subst b.
    rewrite Z.pow_add_r by lia. nia.
  - apply Z.leb_gt in Ek.
    destruct (n * 2 ^ (- k) <? d)%Z eqn:Eb; [apply Hgen; lia |].
    apply Z.ltb_ge in Eb.
    destruct (Z.eq_dec (b - a) k) as [Heq | Hne]; [| apply Hgen; lia].
    assert (Ha' : a = (- k + b)%Z) by lia. subst a.
    rewrite Z.pow_add_r by lia. nia.
Qed.

(** rounding a quotient that is at most an integer gives at most that integer *)
Lemma round_half_even_bound (n d k : Z) :
  (0 < d)%Z -> (n <= k * d)%Z -> (round_half_even n d <= k)%Z.
Proof.
  intros Hd Hk. unfold round_half_even.
  pose proof (Z.div_mod n d ltac:(lia)) as Hdm.
  pose proof (Z.mod_pos_bound n d Hd) as Hm.
  assert (Hq : (n / d <= k)%Z) by (apply Z.div_le_upper_bound; nia).
  destruct (Z.eq_dec (n mod d) 0) as [Hz | Hnz].
  - rewrite Hz. cbn [Z.mul]. rewrite (proj2 (Z.compare_lt_iff 0 d) Hd). exact Hq.
  - assert (Hlt : (n / d < k)%Z) by nia.
    destruct (2 * (n mod d) ?= d)%Z; [destruct (Z.even (n / d)) | |]; lia.
Qed.

Lemma round_half_even_nonneg (n d : Z) :
  (0 <= n)%Z -> (0 < d)%Z -> (0 <= round_half_even n d)%Z.
Proof.
  intros Hn Hd. unfold round_half_even.
  assert (0 <= n / d)%Z by (apply Z.div_pos; lia).
  destruct (2 * (n mod d) ?= d)%Z; [destruct (Z.even (n / d)) | |]; lia.
Qed.

(** the largest finite float *)
Definition max_float : Q := inject_Z ((2 ^ 53 - 1) * 2 ^ 971).

Lemma grid_exponent_cases (n d : Z) :
  (grid_exponent n d = floor_log2 n d - 52 /\ -1074 <= floor_log2 n d - 52)%Z \/
  (grid_exponent n d = -1074 /\ floor_log2 n d - 52 < -1074)%Z.
Proof. unfold grid_exponent. lia. Qed.

(** the significand of a rounded magnitude has at most 53 bits, or is [2 ^ 53] *)
Lemma significand_bound_up (n d : Z) :
  (0 < n)%Z -> (0 < d)%Z -> (0 <= grid_exponent n d)%Z ->
  (round_half_even n (d * 2 ^ grid_exponent n d) <= 2 ^ 53)%Z.
Proof.
  intros Hn Hd He.
  assert (Hp : (0 < 2 ^ grid_exponent n d)%Z) by (apply Z.pow_pos_nonneg; lia).
  apply round_half_even_bound; [nia |].
  pose proof (floor_log2_upper n d 0 (grid_exponent n d + 53) Hn Hd ltac:(lia) ltac:(lia))
    as H.
  destruct (grid_exponent_cases n d) as [[E _] | [E _]]; [| lia].
  specialize (H ltac:(lia)).
  rewrite Z.pow_0_r, Z.mul_1_r, Z.pow_add_r in H by lia. nia.
Qed.

Lemma significand_bound_down (n d : Z) :
  (0 < n)%Z -> (0 < d)%Z -> (grid_exponent n d < 0)%Z ->
  (round_half_even (n * 2 ^ (- grid_exponent n d)) d <= 2 ^ 53)%Z.
Proof.
  intros Hn Hd He.
  apply round_half_even_bound; [exact Hd |].
  pose proof (floor_log2_upper n d (- grid_exponent n d) 53 Hn Hd ltac:(lia) ltac:(lia))
    as H.
  destruct (grid_exponent_cases n d) as [[E _] | [E Hf]]; specialize (H ltac:(lia)); lia.
Qed.

Lemma pow2_1024 : (2 ^ 1024 = 2 ^ 53 * 2 ^ 971)%Z.
Proof. rewrite <- Z.pow_add_r by lia. reflexivity. Qed.

Lemma pow2_53_pos : (1 < 2 ^ 53)%Z.
Proof. apply Z.pow_gt_1; lia. Qed.

(** a magnitude on a grid below [2 ^ 971] rounds to at most [2 ^ 1023] *)
Lemma round_magnitude_low (n d : Z) :
  (0 < n)%Z -> (0 < d)%Z -> (grid_exponent n d <= 970)%Z ->
  (round_magnitude n d <= max_float)%Q.
Proof.
  intros Hn Hd He. unfold round_magnitude, max_float.
  pose proof pow2_53_pos as HT.
  assert (HP : (0 < 2 ^ 971)%Z) by (apply Z.pow_pos_nonneg; lia).
  destruct (0 <=? grid_exponent n d)%Z eqn:El.
  - apply Z.leb_le in El. rewrite <- Zle_Qle.
    pose proof (significand_bound_up n d Hn Hd El) as Hk.
    assert (Hp : (0 < 2 ^ grid_exponent n d)%Z) by (apply Z.pow_pos_nonneg; lia).
    assert (Hle : (2 * 2 ^ grid_exponent n d <= 2 ^ 971)%Z).
    { change 2%Z with (2 ^ 1)%Z at 1. rewrite <- Z.pow_add_r by lia.
      apply Z.pow_le_mono_r; lia. }
    set (T := (2 ^ 53)%Z) in *. set (P := (2 ^ 971)%Z) in *.
    set (E := (2 ^ grid_exponent n d)%Z) in *.
    set (k := round_half_even n (d * E)) in *.
    nia.
  - apply Z.leb_gt in El. rewrite Qred_correct.
    pose proof (significand_bound_down n d Hn Hd El) as Hk.
    assert (Hp : (0 < 2 ^ (- grid_exponent n d))%Z) by (apply Z.pow_pos_nonneg; lia).
    unfold Qle. cbn [Qnum Qden inject_Z]. rewrite Z2Pos.id by exact Hp.
    set (T := (2 ^ 53)%Z) in *. set (P := (2 ^ 971)%Z) in *.
    set (E := (2 ^ (- grid_exponent n d))%Z) in *.
    set (k := round_half_even (n * E) d) in *.
    nia.
Qed.

(** a rounded magnitude below [2 ^ 1024] is at most the largest float *)
Lemma round_magnitude_max (n d : Z) :
  (0 < n)%Z -> (0 < d)%Z ->
  (round_magnitude n d < overflow_threshold)%Q ->
  (round_magnitude n d <= max_float)%Q.
Proof.
  intros Hn Hd Hlt.
  destruct (Z_le_gt_dec (grid_exponent n d) 970) as [He | He];
    [apply round_magnitude_low; assumption |].
  unfold round_magnitude, max_float, overflow_threshold in *.
  destruct (0 <=? grid_exponent n d)%Z eqn:El; [| apply Z.leb_gt in El; lia].
  rewrite <- Zlt_Qlt in Hlt. rewrite <- Zle_Qle. rewrite pow2_1024 in Hlt.
  replace (grid_exponent n d) with (971 + (grid_exponent n d - 971))%Z in * by lia.
  rewrite Z.pow_add_r in * by lia.
  assert (Ht : (0 < 2 ^ (grid_exponent n d - 971))%Z) by (apply Z.pow_pos_nonneg; lia).
  assert (HP : (0 < 2 ^ 971)%Z) by (apply Z.pow_pos_nonneg; lia).
  pose proof pow2_53_pos as HT.
  set (T := (2 ^ 53)%Z) in *. set (P := (2 ^ 971)%Z) in *.
  set (t := (2 ^ (grid_exponent n d - 971))%Z) in *.
  match goal with |- (?k * (P * t) <= _)%Z => set (k0 := k) in * end.
  assert (k0 * t < T)%Z by nia.
  nia.
Qed.

(** a magnitude that is at most the largest float rounds to at most it *)
Lemma round_magnitude_finite (n d : Z) :
  (0 < n)%Z -> (0 < d)%Z -> (n <= (2 ^ 53 - 1) * 2 ^ 971 * d)%Z ->
  (round_magnitude n d <= max_float)%Q.
Proof.
  intros Hn Hd Hmax.
  destruct (Z_le_gt_dec (grid_exponent n d) 970) as [He | He];
    [apply round_magnitude_low; assumption |].
  destruct (grid_exponent_cases n d) as [[E _] | [E _]]; [| lia].
  assert (HP : (0 < 2 ^ 971)%Z) by (apply Z.pow_pos_nonneg; lia).
  pose proof pow2_53_pos as HT.
  assert (Hfl : (floor_log2 n d < 1024)%Z).
  { pose proof (floor_log2_lower n d 0 (floor_log2 n d) Hn Hd ltac:(lia) ltac:(lia)
                  ltac:(lia)) as H.
    rewrite Z.pow_0_r, Z.mul_1_r in H.
    apply (Z.pow_lt_mono_r_iff 2); [lia | lia |].
    rewrite pow2_1024.
    assert (Hp : (0 < 2 ^ floor_log2 n d)%Z) by (apply Z.pow_pos_nonneg; lia).
    set (T := (2 ^ 53)%Z) in *. set (P := (2 ^ 971)%Z) in *.
    set (F := (2 ^ floor_log2 n d)%Z) in *. nia. }
  assert (Ee : grid_exponent n d = 971%Z) by lia.
  unfold round_magnitude, max_float. rewrite Ee. cbn [Z.leb Z.compare].
  rewrite <- Zle_Qle.
  assert (Hk : (round_half_even n (d * 2 ^ 971) <= 2 ^ 53 - 1)%Z)
    by (apply round_half_even_bound; nia).
  set (T := (2 ^ 53)%Z) in *. set (P := (2 ^ 971)%Z) in *.
  set (k := round_half_even n (d * P)) in *. nia.
Qed.

Lemma max_float_below_threshold : (max_float < overflow_threshold)%Q.
Proof.
  unfold max_float, overflow_threshold. rewrite <- Zlt_Qlt, pow2_1024.
  assert (HP : (0 < 2 ^ 971)%Z) by (apply Z.pow_pos_nonneg; lia).
  set (T := (2 ^ 53)%Z). set (P := (2 ^ 971)%Z) in *. nia.
Qed.

Lemma max_float_nonneg : (0 <= max_float)%Q.
Proof.
  unfold max_float. change 0%Q with (inject_Z 0). rewrite <- Zle_Qle.
  assert (HP : (0 < 2 ^ 971)%Z) by (apply Z.pow_pos_nonneg; lia).
  pose proof pow2_53_pos. nia.
Qed.

(** a number within the range of the floats rounds to a finite float, which
    is in the range too *)
Lemma round64_finite (q : Q) :
  (- max_float <= q)%Q -> (q <= max_float)%Q ->
  exists r, round64 q = Finite r /\ (- max_float <= r)%Q /\ (r <= max_float)%Q.
Proof.
  intros Hlo Hhi. unfold round64.
  pose proof (Qred_correct q) as Hred. rewrite <- Hred in Hlo, Hhi. clear Hred.
  pose proof max_float_below_threshold as Hth. pose proof max_float_nonneg as Hnn.
  destruct (Qred q) as [n d]. cbn [Qnum Qden].
  destruct n as [| p | p].
  - exists 0%Q. split; [reflexivity |]. split; lra.
  - assert (Hr : (round_magnitude (Z.pos p) (Z.pos d) <= max_float)%Q).
    { apply round_magnitude_finite; [lia | lia |].
      unfold Qle, max_float in Hhi. cbn [Qnum Qden inject_Z] in Hhi.
      set (M := ((2 ^ 53 - 1) * 2 ^ 971)%Z) in *. clearbody M. lia. }
    destruct (Qle_bool overflow_threshold (round_magnitude (Z.pos p) (Z.pos d))) eqn:Eo.
    + apply Qle_bool_iff in Eo. lra.
    + eexists. split; [reflexivity |]. split; [| exact Hr].
      assert (0 <= round_magnitude (Z.pos p) (Z.pos d))%Q; [| lra].
      unfold round_magnitude.
      destruct (0 <=? grid_exponent (Z.pos p) (Z.pos d))%Z eqn:El.
      * apply Z.leb_le in El. change 0%Q with (inject_Z 0). rewrite <- Zle_Qle.
        apply Z.mul_nonneg_nonneg; [| apply Z.pow_nonneg; lia].
        apply round_half_even_nonneg; [lia |].
        apply Z.mul_pos_pos; [lia | apply Z.pow_pos_nonneg; lia].
      * rewrite Qred_correct. unfold Qle. cbn [Qnum Qden].
        rewrite Z.mul_1_r, Z.mul_0_l. apply round_half_even_nonneg; [| lia].
        apply Z.mul_nonneg_nonneg; [lia | apply Z.pow_nonneg; lia].
  - assert (Hr : (round_magnitude (- Z.neg p) (Z.pos d) <= max_float)%Q).
    { apply round_magnitude_finite; [lia | lia |].
      unfold Qle, max_float in Hlo. cbn [Qnum Qden inject_Z Qopp] in Hlo.
      set (M := ((2 ^ 53 - 1) * 2 ^ 971)%Z) in *. clearbody M. lia. }
    destruct (Qle_bool overflow_threshold (round_magnitude (- Z.neg p) (Z.pos d))) eqn:Eo.
    + apply Qle_bool_iff in Eo. lra.
    + eexists. split; [reflexivity |]. split; [lra |].
      assert (0 <= round_magnitude (- Z.neg p) (Z.pos d))%Q; [| lra].
      unfold round_magnitude.
      destruct (0 <=? grid_exponent (- Z.neg p) (Z.pos d))%Z eqn:El.
      * apply Z.leb_le in El. change 0%Q with (inject_Z 0). rewrite <- Zle_Qle.
        apply Z.mul_nonneg_nonneg; [| apply Z.pow_nonneg; lia].
        apply round_half_even_nonneg; [lia |].
        apply Z.mul_pos_pos; [lia | apply Z.pow_pos_nonneg; lia].
      * rewrite Qred_correct. unfold Qle. cbn [Qnum Qden].
        rewrite Z.mul_1_r, Z.mul_0_l. apply round_half_even_nonneg; [| lia].
        apply Z.mul_nonneg_nonneg; [lia | apply Z.pow_nonneg; lia].
Qed.

(** a float is within the range of the floats *)
Lemma binary64_bounded (q : Q) :
  is_binary64 q = true -> (- max_float <= q)%Q /\ (q <= max_float)%Q.
Proof.
  unfold is_binary64, round64.
  pose proof (Qred_correct q) as Hred.
  pose proof max_float_nonneg as Hnn.
  destruct (Qred q) as [n d]. cbn [Qnum Qden].
  destruct n as [| p | p].
  - intros _. rewrite <- Hred. split.
    + assert (- max_float <= 0)%Q by lra. exact H.
    + exact Hnn.
  - destruct (Qle_bool overflow_threshold (round_magnitude (Z.pos p) (Z.pos d))) eqn:Eo;
      [discriminate |].
    intros Heq. apply Qeq_bool_iff in Heq. apply Qle_bool_false in Eo.
    pose proof (round_magnitude_max (Z.pos p) (Z.pos d) eq_refl eq_refl Eo) as Hm.
    rewrite <- Heq. split; [| exact Hm].
    rewrite Heq, <- Hred. unfold Qle, max_float. cbn [Qnum Qden inject_Z Qopp].
    unfold max_float, Qle in Hnn. cbn [Qnum Qden inject_Z] in Hnn.
    set (M := ((2 ^ 53 - 1) * 2 ^ 971)%Z) in *. clearbody M. lia.
  - destruct (Qle_bool overflow_threshold (round_magnitude (- Z.neg p) (Z.pos d))) eqn:Eo;
      [discriminate |].
    intros Heq. apply Qeq_bool_iff in Heq. apply Qle_bool_false in Eo.
    pose proof (round_magnitude_max (- Z.neg p) (Z.pos d) eq_refl eq_refl Eo) as Hm.
    rewrite <- Heq. split; [lra |].
    rewrite Heq, <- Hred. unfold Qle, max_float. cbn [Qnum Qden inject_Z Qopp].
    unfold max_float, Qle in Hnn. cbn [Qnum Qden inject_Z] in Hnn.
    set (M := ((2 ^ 53 - 1) * 2 ^ 971)%Z) in *. clearbody M. lia.
Qed.

Lemma sum_within (bound : Q) (l : list Q) :
  (forall q, In q l -> (- bound <= q)%Q /\ (q <= bound)%Q) ->
  (- (inject_Z (Z.of_nat (List.length l)) * bound) <= fold_right Qplus 0 l)%Q /\
  (fold_right Qplus 0 l <= inject_Z (Z.of_nat (List.length l)) * bound)%Q.
Proof.
  induction l as [| x l IH]; intros H.
  - cbn [fold_right List.length Z.of_nat]. change (inject_Z 0) with 0%Q. split; lra.
  - destruct (IH (fun q Hq => H q (or_intror Hq))) as [IH0 IH1].
    destruct (H x (or_introl eq_refl)) as [Hx0 Hx1].
    cbn [fold_right List.length].
    rewrite Nat2Z.inj_succ, <- Z.add_1_r, inject_Z_plus.
    change (inject_Z 1) with 1%Q.
    set (N := inject_Z (Z.of_nat (List.length l))) in *.
    set (T := fold_right Qplus 0 l) in *.
    assert (E : ((N + 1) * bound == N * bound + bound)%Q) by ring.
    rewrite E. set (NB := (N * bound)%Q) in *. split; lra.
Qed.

(** the mean of numbers within a range is within the range *)
Lemma mean_within (bound : Q) (l : list Q) :
  l <> [] ->
  (forall q, In q l -> (- bound <= q)%Q /\ (q <= bound)%Q) ->
  (- bound <= arithmetic_mean l)%Q /\ (arithmetic_mean l <= bound)%Q.
Proof.
  intros Hne H. unfold arithmetic_mean.
  destruct (sum_within bound l H) as [H0 H1].
  assert (Hn : (0 < inject_Z (Z.of_nat (List.length l)))%Q).
  { destruct l as [| x l]; [contradiction |].
    unfold Qlt. cbn [Qnum Qden inject_Z List.length]. lia. }
  split.
  - apply Qle_shift_div_l; [exact Hn |].
    set (N := inject_Z (Z.of_nat (List.length l))) in *.
    assert (E : (- bound * N == - (N * bound))%Q) by ring.
    rewrite E. exact H0.
  - apply Qle_shift_div_r; [exact Hn |].
    set (N := inject_Z (Z.of_nat (List.length l))) in *.
    rewrite Qmult_comm. exact H1.
Qed.

(** the mean of floats rounds to a finite float *)
Lemma mean_of_floats_is_finite (l : list Q) :
  l <> [] ->
  (forall q, In q l -> is_binary64 q = true) ->
  exists r, round64 (arithmetic_mean l) = Finite r.
Proof.
  intros Hne H.
  destruct (mean_within max_float l Hne (fun q Hq => binary64_bounded q (H q Hq)))
    as [H0 H1].
  destruct (round64_finite _ H0 H1) as [r [Hr _]]. exists r. exact Hr.
Qed.

(** [statistics.mean] of data among which there is a float: the arithmetic
    mean, rounded to the nearest float *)
Lemma mean_of_floats (l : list Q) :
  (exists q, In q l /\ is_binary64 q = true) ->
  PerformanceTester.mean l =
  match round64 (arithmetic_mean l) with
  | Finite r => Ok r
  | _ => Raise (OverflowError "integer division result too large for a float")
  end.
Proof.
  intros [q [Hin Hq]]. unfold PerformanceTester.mean.
  destruct l as [| x l']; [contradiction |].
  assert (Hall : forallb (fun q => negb (is_binary64 q)) (x :: l') = false).
  { destruct (forallb _ (x :: l')) eqn:E; [| reflexivity].
    rewrite forallb_forall in E. specialize (E q Hin). rewrite Hq in E. discriminate E. }
  rewrite Hall. cbn [andb].
  rewrite (round64_comp _ (arithmetic_mean (x :: l'))); [reflexivity |].
  unfold arithmetic_mean. rewrite fold_left_Qplus, Qplus_0_l. reflexivity.
Qed.

(** the status a component carries, if it is a dictionary with a ['status'] *)
Definition status_of (results : pyval) : option pyval :=
  match results with
  | PDict d => lookup "status" d
  | _ => None
  end.

(** 100 for ['PASS'], 50 for ['FAIL'], 0 otherwise *)
Definition points (status : pyval) : Z :=
  if str_is status "PASS" then 100
  else if str_is status "FAIL" then 50
  else 0.

Definition statuses (pairs : list (string * pyval)) : list pyval :=
  flat_map (fun kv => match status_of (snd kv) with
                      | Some s => [s]
                      | None => []
                      end) pairs.

(** the overall score as the specification words it *)
Definition spec_overall_score (pairs : list (string * pyval)) : Q :=
  match statuses pairs with
  | [] => 0
  | ss => arithmetic_mean (map (fun s => inject_Z (points s)) ss)
  end.

(** the entry of a component is a dictionary, or the component is absent *)
Definition dict_or_absent (pairs : list (string * pyval)) (component : string) : bool :=
  match lookup component pairs with
  | None | Some (PDict _) => true
  | Some _ => false
  end.

Definition recommendable (pairs : list (string * pyval)) : bool :=
  dict_or_absent pairs "kinesis_performance" &&
  dict_or_absent pairs "sagemaker_performance" &&
  dict_or_absent pairs "redshift_performance".

Lemma score_component_spec (scores : list Z) (results : pyval) :
  PerformanceTester.score_component scores results
  = (scores ++ map points (match status_of results with
                           | Some s => [s]
                           | None => []
                           end))%list.
Proof.
  unfold PerformanceTester.score_component, status_of.
  destruct results as [| | | | | | d]; try (rewrite app_nil_r; reflexivity).
  destruct (lookup "status" d) as [status |]; [| rewrite app_nil_r; reflexivity].
  unfold points, append. cbn [map].
  destruct (str_is status "PASS"); [reflexivity |].
  destruct (str_is status "FAIL"); reflexivity.
Qed.

Lemma score_loop (pairs : list (string * pyval)) :
  forall scores,
    fold_left (fun scores kv => PerformanceTester.score_component scores (snd kv))
      pairs scores
    = (scores ++ map points (statuses pairs))%list.
Proof.
  induction pairs as [| [k v] rest IH]; intros scores.
  - simpl. rewrite app_nil_r. reflexivity.
  - cbn [fold_left snd]. rewrite IH, score_component_spec.
    unfold statuses. cbn [flat_map snd]. rewrite map_app, app_assoc. reflexivity.
Qed.

Lemma points_are_floats (s : pyval) : is_binary64 (inject_Z (points s)) = true.
Proof.
  unfold points. destruct (str_is s "PASS"); [vm_compute; reflexivity |].
  destruct (str_is s "FAIL"); vm_compute; reflexivity.
Qed.

Lemma points_bounds (s : pyval) : (0 <= points s <= 100)%Z.
Proof.
  unfold points. destruct (str_is s "PASS"); [lia |].
  destruct (str_is s "FAIL"); lia.
Qed.

Lemma sum_of_points_bounds (ss : list pyval) :
  (0 <= fold_right Qplus 0 (map (fun s => inject_Z (points s)) ss))%Q /\
  (fold_right Qplus 0 (map (fun s => inject_Z (points s)) ss)
   <= 100 * inject_Z (Z.of_nat (List.length ss)))%Q.
Proof.
  induction ss as [| s ss [IH0 IH1]].
  - cbn. split; [apply Qle_refl | unfold Qle; cbn; lia].
  - cbn [map fold_right List.length].
    pose proof (points_bounds s) as [Hp0 Hp1].
    assert (H0 : (0 <= inject_Z (points s))%Q) by (unfold Qle; cbn; lia).
    assert (H1 : (inject_Z (points s) <= 100)%Q) by (unfold Qle; cbn; lia).
    rewrite Nat2Z.inj_succ, <- Z.add_1_r, inject_Z_plus.
    change (inject_Z 1) with 1%Q.
    set (N := inject_Z (Z.of_nat (List.length ss))) in *.
    set (P := inject_Z (points s)) in *.
    set (T := fold_right Qplus 0 (map (fun s0 => inject_Z (points s0)) ss)) in *.
    split; lra.
Qed.

Lemma mean_of_points_bounds (s : pyval) (ss : list pyval) :
  (0 <= arithmetic_mean (map (fun s => inject_Z (points s)) (s :: ss)))%Q /\
  (arithmetic_mean (map (fun s => inject_Z (points s)) (s :: ss)) <= 128)%Q.
Proof.
  unfold arithmetic_mean. rewrite length_map.
  pose proof (sum_of_points_bounds (s :: ss)) as [H0 H1].
  assert (Hn : (0 < inject_Z (Z.of_nat (List.length (s :: ss))))%Q).
  { unfold Qlt. cbn [Qnum Qden inject_Z List.length]. lia. }
  split.
  - apply Qle_shift_div_l; [exact Hn |]. rewrite Qmult_0_l. exact H0.
  - apply Qle_shift_div_r; [exact Hn |]. lra.
Qed.

(** the score of the analysis: the arithmetic mean of the points, rounded
    to the nearest float *)
Lemma mean_scores_spec (pairs : list (string * pyval)) :
  exists score,
    PerformanceTester.mean_scores (map points (statuses pairs)) = Ok score /\
    round64 (spec_overall_score pairs) = Finite score.
Proof.
  unfold PerformanceTester.mean_scores, spec_overall_score.
  destruct (statuses pairs) as [| s ss]; [exists 0; split; reflexivity |].
  cbn [map].
  rewrite mean_of_floats
    by (exists (inject_Z (points s)); split; [left; reflexivity | apply points_are_floats]).
  rewrite map_map.
  destruct (mean_of_points_bounds s ss) as [H0 H1]. cbn [map] in H0, H1.
  destruct (round64_finite_of_small _ H0 H1) as [r Hr].
  rewrite Hr. exists r. split; reflexivity.
Qed.

Lemma component_failed_spec pairs component :
  match PerformanceTester.component_failed (PDict pairs) component with
  | Ok _ => dict_or_absent pairs component = true
  | Raise _ => dict_or_absent pairs component = false
  end.
Proof.
  unfold PerformanceTester.component_failed, dict_or_absent. simpl.
  destruct (lookup component pairs) as [[| | | | | |] |]; reflexivity.
Qed.

Lemma generate_recommendations_spec pairs score :
  match PerformanceTester.generate_recommendations (PDict pairs) score with
  | Ok _ => recommendable pairs = true
  | Raise _ => recommendable pairs = false
  end.
Proof.
  unfold PerformanceTester.generate_recommendations, recommendable.
  pose proof (component_failed_spec pairs "kinesis_performance") as Hk.
  pose proof (component_failed_spec pairs "sagemaker_performance") as Hs.
  pose proof (component_failed_spec pairs "redshift_performance") as Hr.
  destruct (PerformanceTester.component_failed (PDict pairs) "kinesis_performance");
    rewrite Hk; [| reflexivity].
  destruct (PerformanceTester.component_failed (PDict pairs) "sagemaker_performance");
    rewrite Hs; [| reflexivity].
  destruct (PerformanceTester.component_failed (PDict pairs) "redshift_performance");
    rewrite Hr; reflexivity.
Qed.

(** the grade boundaries *)
Lemma grade_of_spec (score : Q) :
  (PerformanceTester.grade_of score = "A" <-> (90 <= score)%Q) /\
  (PerformanceTester.grade_of score = "B" <-> (80 <= score)%Q /\ (score < 90)%Q) /\
  (PerformanceTester.grade_of score = "C" <-> (70 <= score)%Q /\ (score < 80)%Q) /\
  (PerformanceTester.grade_of score = "D" <-> (60 <= score)%Q /\ (score < 70)%Q) /\
  (PerformanceTester.grade_of score = "F" <-> (score < 60)%Q).
Proof.
  unfold PerformanceTester.grade_of.
  destruct (Qle_bool 90 score) eqn:E90;
    [apply Qle_bool_iff in E90 | apply Qle_bool_false in E90];
  [| destruct (Qle_bool 80 score) eqn:E80;
     [apply Qle_bool_iff in E80 | apply Qle_bool_false in E80];
   [| destruct (Qle_bool 70 score) eqn:E70;
      [apply Qle_bool_iff in E70 | apply Qle_bool_false in E70];
    [| destruct (Qle_bool 60 score) eqn:E60;
       [apply Qle_bool_iff in E60 | apply Qle_bool_false in E60]]]];
  repeat match goal with
         | |- _ /\ _ => split
         | |- _ <-> _ => split
         | |- _ -> _ => intros ?
         | H : _ /\ _ |- _ => destruct H
         end;
  try discriminate; try reflexivity; try lra; exfalso; lra.
Qed.

Lemma results_of_spec (completed : list (result Q)) (latencies : list Q) :
  PerformanceTester.results_of completed = Ok latencies <->
  completed = map Ok latencies.
Proof.
  revert latencies. induction completed as [| [q | e] rest IH]; intros latencies; simpl.
  - split.
    + intros H. injection H as <-. reflexivity.
    + destruct latencies; [reflexivity | discriminate].
  - destruct (PerformanceTester.results_of rest) as [l |].
    + split.
      * intros H. injection H as <-. simpl. f_equal. apply IH. reflexivity.
      * destruct latencies as [| q' qs]; [discriminate |]. simpl.
        intros H. injection H as -> Hrest. apply IH in Hrest. congruence.
    + split; [discriminate |].
      destruct latencies as [| q' qs]; [discriminate |]. simpl.
      intros H. injection H as -> Hrest. apply IH in Hrest. discriminate.
  - split; [discriminate |].
    destruct latencies; discriminate.
Qed.

Lemma results_of_raise (completed : list (result Q)) (e : exn) :
  PerformanceTester.results_of completed = Raise e ->
  forall latencies, completed <> map Ok latencies.
Proof.
  intros H latencies E. apply results_of_spec in E. congruence.
Qed.

Lemma fold_Qmax_spec (rest : list Q) :
  forall x,
    (fold_left PerformanceTester.Qmax rest x = x \/
     In (fold_left PerformanceTester.Qmax rest x) rest) /\
    (x <= fold_left PerformanceTester.Qmax rest x)%Q /\
    Forall (fun y => (y <= fold_left PerformanceTester.Qmax rest x)%Q) rest.
Proof.
  induction rest as [| y rest IH]; intros x; simpl.
  - split; [left; reflexivity |]. split; [apply Qle_refl | constructor].
  - destruct (IH (PerformanceTester.Qmax x y)) as [Hin [Hle Hall]].
    assert (Hx : (x <= PerformanceTester.Qmax x y)%Q /\ (y <= PerformanceTester.Qmax x y)%Q /\
                 (PerformanceTester.Qmax x y = x \/ PerformanceTester.Qmax x y = y)).
    { unfold PerformanceTester.Qmax. destruct (Qle_bool x y) eqn:E.
      - apply Qle_bool_iff in E. split; [exact E |]. split; [apply Qle_refl | right; reflexivity].
      - apply Qle_bool_false in E. split; [apply Qle_refl |].
        split; [apply Qlt_le_weak; exact E | left; reflexivity]. }
    destruct Hx as [Hx [Hy Hxy]].
    split; [| split].
    + destruct Hin as [Hin | Hin]; [| right; right; exact Hin].
      rewrite Hin. destruct Hxy as [-> | ->]; [left; reflexivity | right; left; reflexivity].
    + apply Qle_trans with (PerformanceTester.Qmax x y); assumption.
    + constructor; [| exact Hall].
      apply Qle_trans with (PerformanceTester.Qmax x y); assumption.
Qed.

Lemma fold_Qmin_spec (rest : list Q) :
  forall x,
    (fold_left PerformanceTester.Qmin rest x = x \/
     In (fold_left PerformanceTester.Qmin rest x) rest) /\
    (fold_left PerformanceTester.Qmin rest x <= x)%Q /\
    Forall (fun y => (fold_left PerformanceTester.Qmin rest x <= y)%Q) rest.
Proof.
  induction rest as [| y rest IH]; intros x; simpl.
  - split; [left; reflexivity |]. split; [apply Qle_refl | constructor].
  - destruct (IH (PerformanceTester.Qmin x y)) as [Hin [Hle Hall]].
    assert (Hx : (PerformanceTester.Qmin x y <= x)%Q /\ (PerformanceTester.Qmin x y <= y)%Q /\
                 (PerformanceTester.Qmin x y = x \/ PerformanceTester.Qmin x y = y)).
    { unfold PerformanceTester.Qmin. destruct (Qle_bool x y) eqn:E.
      - apply Qle_bool_iff in E. split; [apply Qle_refl |]. split; [exact E | left; reflexivity].
      - apply Qle_bool_false in E. split; [apply Qlt_le_weak; exact E |].
        split; [apply Qle_refl | right; reflexivity]. }
    destruct Hx as [Hx [Hy Hxy]].
    split; [| split].
    + destruct Hin as [Hin | Hin]; [| right; right; exact Hin].
      rewrite Hin. destruct Hxy as [-> | ->]; [left; reflexivity | right; left; reflexivity].
    + apply Qle_trans with (PerformanceTester.Qmin x y); assumption.
    + constructor; [| exact Hall].
      apply Qle_trans with (PerformanceTester.Qmin x y); assumption.
Qed.

(** [max(l)] is an element of [l] that bounds every element *)
Lemma maximum_spec (l : list Q) :
  l <> [] ->
  In (PerformanceTester.maximum l) l /\
  Forall (fun y => (y <= PerformanceTester.maximum l)%Q) l.
Proof.
  destruct l as [| x rest]; [congruence |]. intros _. simpl.
  destruct (fold_Qmax_spec rest x) as [Hin [Hle Hall]].
  split; [destruct Hin as [-> | Hin]; [left; reflexivity | right; exact Hin] |].
  constructor; assumption.
Qed.

Lemma minimum_spec (l : list Q) :
  l <> [] ->
  In (PerformanceTester.minimum l) l /\
  Forall (fun y => (PerformanceTester.minimum l <= y)%Q) l.
Proof.
  destruct l as [| x rest]; [congruence |]. intros _. simpl.
  destruct (fold_Qmin_spec rest x) as [Hin [Hle Hall]].
  split; [destruct Hin as [-> | Hin]; [left; reflexivity | right; exact Hin] |].
  constructor; assumption.
Qed.

(** the 50 futures of the load test, in the order they complete *)
Definition load_futures (future_result : nat -> result Q) : list (result Q) :=
  map future_result (seq 0 50).

Lemma load_futures_results (future_result : nat -> result Q) (latencies : list Q) :
  load_futures future_result = map Ok latencies ->
  forall q, In q latencies -> exists k, future_result k = Ok q.
Proof.
  intros E q Hin.
  assert (H : In (Ok q) (load_futures future_result))
    by (rewrite E; apply in_map; exact Hin).
  unfold load_futures in H. apply in_map_iff in H. destruct H as [k [Hk _]].
  exists k. exact Hk.
Qed.

(** the quotient [50000 / total_time] for a float [total_time > 0] *)
Lemma throughput_of_float (total_time : Q) :
  is_binary64 total_time = true ->
  Qlt_bool 0 total_time = true ->
  number_div (Exact 50000) (number_of total_time) = Ok (round64 (50000 / total_time)).
Proof.
  intros Hf Hpos. unfold number_of. rewrite Hf. unfold number_div.
  assert (E : float_of_int 50000 = Ok (Finite 50000)) by (vm_compute; reflexivity).
  rewrite E. unfold float_div.
  destruct (Qzero total_time) eqn:Ez; [| reflexivity].
  exfalso. unfold Qzero in Ez. apply Qeq_bool_iff in Ez.
  apply Qlt_bool_iff in Hpos. rewrite Ez in Hpos. exact (Qlt_irrefl 0 Hpos).
Qed.

(** the report of a load test whose requests all returned *)
Definition measured (latencies : list Q) (total_time mean : Q)
  : PerformanceTester.load_report :=
  {| PerformanceTester.requests := 50;
     PerformanceTester.total_time_ms := total_time;
     PerformanceTester.average_latency_ms := mean;
     PerformanceTester.max_latency_ms := PerformanceTester.maximum latencies;
     PerformanceTester.min_latency_ms := PerformanceTester.minimum latencies;
     PerformanceTester.throughput_rps :=
       if Qlt_bool 0 total_time then round64 (50000 / total_time) else Finite 0;
     PerformanceTester.load_status := if Qlt_bool mean 500 then "PASS" else "FAIL" |}.

Lemma load_test_outcome future_result total_time :
  (forall k q, future_result k = Ok q -> is_binary64 q = true) ->
  is_binary64 total_time = true ->
  match PerformanceTester.results_of (load_futures future_result) with
  | Ok latencies =>
      load_futures future_result = map Ok latencies /\
      List.length latencies = 50%nat /\
      exists mean,
        round64 (arithmetic_mean latencies) = Finite mean /\
        PerformanceTester.run_load_tests future_result total_time
        = PerformanceTester.Report (measured latencies total_time mean)
  | Raise e =>
      (forall latencies, load_futures future_result <> map Ok latencies) /\
      PerformanceTester.run_load_tests future_result total_time
      = PerformanceTester.Failure (exn_str e)
  end.
Proof.
  intros Hf Ht.
  unfold PerformanceTester.run_load_tests, PerformanceTester.concurrent_requests.
  fold (load_futures future_result).
  destruct (PerformanceTester.results_of (load_futures future_result)) as [latencies | e] eqn:E.
  - apply results_of_spec in E. split; [exact E |].
    assert (Hlen : List.length latencies = 50%nat).
    { assert (H : List.length (load_futures future_result) = 50%nat)
        by (unfold load_futures; rewrite length_map, length_seq; reflexivity).
      rewrite E, length_map in H. exact H. }
    split; [exact Hlen |].
    assert (Hall : forall q, In q latencies -> is_binary64 q = true).
    { intros q Hin.
      destruct (load_futures_results future_result latencies E q Hin) as [k Hk].
      exact (Hf k q Hk). }
    assert (Hne : latencies <> []) by (destruct latencies; [discriminate Hlen | discriminate]).
    assert (Hfloat : exists q, In q latencies /\ is_binary64 q = true).
    { destruct latencies as [| q rest]; [contradiction |].
      exists q. split; [left; reflexivity | apply Hall; left; reflexivity]. }
    rewrite (mean_of_floats latencies Hfloat).
    destruct (mean_of_floats_is_finite latencies Hne Hall) as [mean Hmean].
    exists mean. split; [exact Hmean |]. rewrite Hmean.
    unfold measured.
    destruct (Qlt_bool 0 total_time) eqn:Epos; [| reflexivity].
    rewrite (throughput_of_float total_time Ht Epos). reflexivity.
  - split; [exact (results_of_raise _ _ E) | reflexivity].
Qed.

Lemma analyze_performance_results_spec pairs :
  let a := PerformanceTester.analyze_performance_results (PDict pairs) in
  PerformanceTester.grade a = PerformanceTester.grade_of (PerformanceTester.overall_score a) /\
  if recommendable pairs
  then round64 (spec_overall_score pairs) = Finite (PerformanceTester.overall_score a) /\
       PerformanceTester.component_scores a = Some (map points (statuses pairs))
  else PerformanceTester.overall_score a = 0%Q /\ PerformanceTester.grade a = "F".
Proof.
  unfold PerformanceTester.analyze_performance_results. cbn [PerformanceTester.items].
  rewrite score_loop. cbn [app].
  destruct (mean_scores_spec pairs) as [score [Es Er]]. rewrite Es.
  pose proof (generate_recommendations_spec pairs score) as H.
  destruct (PerformanceTester.generate_recommendations _ _) as [recs | e];
    rewrite H; cbn.
  - split; [reflexivity |]. split; [exact Er | reflexivity].
  - split; [reflexivity |]. split; reflexivity.
Qed.

(** a result set whose Kinesis entry is a string instead of a dictionary *)
Definition results_with_text_entry : list (string * pyval) :=
  [("kinesis_performance", PStr "timed out");
   ("lambda_performance", PDict [("execution_time_ms", PNum 101); ("status", PStr "PASS")])].

(** the only component with a status passed, so the mean is 100, but the
    function returns score 0 and grade F because [generate_recommendations]
    raises on the string *)
Example analysis_of_a_text_entry :
  (spec_overall_score results_with_text_entry == 100)%Q /\
  PerformanceTester.overall_score
    (PerformanceTester.analyze_performance_results (PDict results_with_text_entry)) = 0%Q /\
  PerformanceTester.grade
    (PerformanceTester.analyze_performance_results (PDict results_with_text_entry)) = "F".
Proof.
  split; [reflexivity |]. split; vm_compute; reflexivity.
Qed.

(** the float just below 500 *)
Definition just_below_500 : Q := 8796093022207999 # 17592186044416.

(** a load test in which 49 requests take 500 ms and the last one to
    complete takes a hair less *)
Definition boundary_load (k : nat) : result Q :=
  Ok (if (k =? 49)%nat then just_below_500 else 500).

Definition boundary_latencies : list Q := (repeat (500 : Q) 49 ++ [just_below_500])%list.

(** C9, as stated, fails: the 50 requests return, the arithmetic mean of
    their latencies is below 500, and the load test reports FAIL, because
    the mean it compares is rounded to the float 500.0.  The latencies and
    the elapsed time are floats. *)
Lemma C9_counterexample_rounded_mean :
  load_futures boundary_load = map Ok boundary_latencies /\
  forallb is_binary64 boundary_latencies = true /\
  is_binary64 60000 = true /\
  (arithmetic_mean boundary_latencies < 500)%Q /\
  PerformanceTester.status_of_load (PerformanceTester.run_load_tests boundary_load 60000)
    = "FAIL".
Proof.
  split; [reflexivity |]. split; [vm_compute; reflexivity |].
  split; [vm_compute; reflexivity |]. split; vm_compute; reflexivity.
Qed.

(** C9, amended: when the entries of the three components the
    recommendations inspect are dictionaries (or absent), the overall score
    is the arithmetic mean, over the components that carry a status, of 100
    for PASS, 50 for FAIL and 0 otherwise (0 when none carries one),
    rounded to the nearest float; otherwise the catch-all returns score 0
    and grade F.  In both cases the grade follows the boundaries 90, 80, 70
    and 60.  When the latencies and the elapsed time are floats, the load
    test reports ERROR if a request raises; if the 50 requests return, it
    returns a report with their maximum and minimum and, as their mean, the
    arithmetic mean rounded to the nearest float, which is finite, with
    PASS exactly when that rounded mean is below 500 and FAIL otherwise. *)
Theorem C9_score_grade_and_load_test :
  forall (pairs : list (string * pyval)) (future_result : nat -> result Q) (total_time : Q),
    (forall k q, future_result k = Ok q -> is_binary64 q = true) ->
    is_binary64 total_time = true ->
    let a := PerformanceTester.analyze_performance_results (PDict pairs) in
    let load := PerformanceTester.run_load_tests future_result total_time in
    (recommendable pairs = true ->
     round64 (spec_overall_score pairs) = Finite (PerformanceTester.overall_score a)) /\
    (recommendable pairs = false ->
     PerformanceTester.overall_score a = 0%Q /\ PerformanceTester.grade a = "F") /\
    ((PerformanceTester.grade a = "A" <-> (90 <= PerformanceTester.overall_score a)%Q) /\
     (PerformanceTester.grade a = "B" <->
      (80 <= PerformanceTester.overall_score a)%Q /\ (PerformanceTester.overall_score a < 90)%Q) /\
     (PerformanceTester.grade a = "C" <->
      (70 <= PerformanceTester.overall_score a)%Q /\ (PerformanceTester.overall_score a < 80)%Q) /\
     (PerformanceTester.grade a = "D" <->
      (60 <= PerformanceTester.overall_score a)%Q /\ (PerformanceTester.overall_score a < 70)%Q) /\
     (PerformanceTester.grade a = "F" <-> (PerformanceTester.overall_score a < 60)%Q)) /\
    (forall k e, (k < 50)%nat -> future_result k = Raise e ->
                 PerformanceTester.status_of_load load = "ERROR") /\
    (forall latencies,
        load_futures future_result = map Ok latencies ->
        List.length latencies = 50%nat /\
        exists mean report,
          round64 (arithmetic_mean latencies) = Finite mean /\
          load = PerformanceTester.Report report /\
          PerformanceTester.average_latency_ms report = mean /\
          (PerformanceTester.load_status report = "PASS" <-> (mean < 500)%Q) /\
          (PerformanceTester.load_status report = "FAIL" <-> (500 <= mean)%Q) /\
          In (PerformanceTester.max_latency_ms report) latencies /\
          Forall (fun y => (y <= PerformanceTester.max_latency_ms report)%Q) latencies /\
          In (PerformanceTester.min_latency_ms report) latencies /\
          Forall (fun y => (PerformanceTester.min_latency_ms report <= y)%Q) latencies).
Proof.
  intros pairs future_result total_time Hf Ht a load.
  destruct (analyze_performance_results_spec pairs) as [Hgrade Hscore].
  fold a in Hgrade, Hscore.
  pose proof (load_test_outcome future_result total_time Hf Ht) as H. fold load in H.
  split; [| split; [| split; [| split]]].
  - intros Hr. rewrite Hr in Hscore. apply Hscore.
  - intros Hr. rewrite Hr in Hscore. exact Hscore.
  - rewrite Hgrade. apply grade_of_spec.
  - intros k e Hk He.
    destruct (PerformanceTester.results_of (load_futures future_result)) as [latencies | e'].
    + exfalso. destruct H as [E _].
      assert (Hin : In (future_result k) (load_futures future_result)).
      { unfold load_futures. apply in_map. apply in_seq. lia. }
      rewrite E, He in Hin. apply in_map_iff in Hin. destruct Hin as [q [Hq _]].
      discriminate Hq.
    + destruct H as [_ H]. rewrite H. reflexivity.
  - intros latencies E.
    pose proof (proj2 (results_of_spec _ _) E) as R. rewrite R in H.
    destruct H as [_ [Hlen [mean [Hmean H]]]]. split; [exact Hlen |].
    assert (Hne : latencies <> []) by (destruct latencies; [discriminate Hlen | discriminate]).
    destruct (maximum_spec latencies Hne) as [Hmax_in Hmax_all].
    destruct (minimum_spec latencies Hne) as [Hmin_in Hmin_all].
    exists mean, (measured latencies total_time mean).
    split; [exact Hmean |]. split; [exact H |]. split; [reflexivity |].
    cbn [measured PerformanceTester.load_status
      PerformanceTester.max_latency_ms PerformanceTester.min_latency_ms].
    split; [| split; [| repeat split; assumption]].
    + destruct (Qlt_bool mean 500) eqn:B.
      * apply Qlt_bool_iff in B. split; [intros _; exact B | reflexivity].
      * split; [discriminate |]. intros Hlt. apply Qlt_bool_iff in Hlt. congruence.
    + destruct (Qlt_bool mean 500) eqn:B.
      * apply Qlt_bool_iff in B. split; [discriminate |].
        intros Hle. exfalso. exact (Qlt_not_le _ _ B Hle).
      * split; [| reflexivity]. intros _. apply Qnot_lt_le. intros Hlt.
        apply Qlt_bool_iff in Hlt. congruence.
Qed.

(** ** Contact form handler *)

Definition is_dynamodb (c : call) : bool :=
  match c with
  | Sdk client _ _ => String.eqb client "dynamodb"
  | _ => false
  end.

Definition is_publish (c : call) : bool :=
  match c with
  | Sdk client operation _ => String.eqb client "sns" && String.eqb operation "publish"
  | _ => false
  end.

Lemma append_not_nil {A} (l : list A) (x : A) : append l x <> [].
Proof. unfold append. destruct l; discriminate. Qed.

(** [check_required] only adds errors; it returns none exactly when every
    required field is present with a true value. *)
Lemma check_required_nil data fields :
  forall errors,
    ContactHandler.check_required data fields errors = Ok [] ->
    errors = [] /\
    Forall (fun field => exists x, get data field PNone = Ok x /\ truthy x = true) fields.
Proof.
  induction fields as [| field rest IH]; intros errors H; simpl in H.
  - injection H as ->. split; [reflexivity | constructor].
  - destruct (get data field PNone) as [x |] eqn:E; [| discriminate].
    apply IH in H. destruct H as [Herr Hrest].
    destruct (truthy x) eqn:T; simpl in Herr.
    + split; [exact Herr |]. constructor; [| exact Hrest]. exists x. auto.
    + exfalso. exact (append_not_nil _ _ Herr).
Qed.

(** a form that passes validation is a dictionary carrying the four
    required fields *)
Lemma valid_form_has_required_fields data v :
  ContactHandler.validate_form_data data = Ok v ->
  ContactHandler.valid v = true ->
  exists d name email subject message,
    data = PDict d /\
    lookup "name" d = Some name /\ lookup "email" d = Some email /\
    lookup "subject" d = Some subject /\ lookup "message" d = Some message.
Proof.
  unfold ContactHandler.validate_form_data. intros H Hvalid.
  destruct (ContactHandler.check_required data ContactHandler.required_fields [])
    as [errors0 |] eqn:E0; [| discriminate].
  destruct (get data "email" (PStr "")) as [email |]; [| discriminate].
  destruct (if truthy email then _ else _) as [errors1 |] eqn:E1; [| discriminate].
  destruct (get data "message" (PStr "")) as [message |]; [| discriminate].
  destruct (if truthy message then _ else _) as [errors2 |] eqn:E2; [| discriminate].
  destruct (get data "phone" (PStr "")) as [phone |]; [| discriminate].
  destruct (if truthy phone then _ else _) as [errors3 |] eqn:E3; [| discriminate].
  injection H as <-. simpl in Hvalid.
  destruct errors3 as [| e3 rest3]; [| discriminate]. clear Hvalid.
  assert (H2 : errors2 = []).
  { destruct (truthy phone); [| congruence].
    destruct phone; try discriminate.
    destruct (negb _); [| congruence].
    injection E3 as E3. exfalso. exact (append_not_nil _ _ E3). }
  subst errors2.
  assert (H1 : errors1 = []).
  { destruct (truthy message); [| congruence].
    destruct (len message); [| discriminate].
    destruct (_ <? _)%nat; [| congruence].
    injection E2 as E2. exfalso. exact (append_not_nil _ _ E2). }
  subst errors1.
  assert (H0 : errors0 = []).
  { destruct (truthy email); [| congruence].
    destruct (has "@" email); [| discriminate].
    destruct (negb _); [| congruence].
    injection E1 as E1. exfalso. exact (append_not_nil _ _ E1). }
  subst errors0.
  apply check_required_nil in E0. destruct E0 as [_ Hall].
  unfold ContactHandler.required_fields in Hall.
  repeat match goal with
         | H : Forall _ (_ :: _) |- _ => inversion H; clear H; subst
         end.
  destruct data as [| | | | | | d];
    try (match goal with
         | H : exists x, get _ "name" PNone = Ok x /\ _ |- _ =>
             destruct H as [? [H _]]; discriminate H
         end).
  exists d.
  repeat match goal with
         | H : exists x, get (PDict d) ?f PNone = Ok x /\ truthy x = true |- _ =>
             let x := fresh "x" in
             let G := fresh "G" in
             let T := fresh "T" in
             destruct H as [x [G T]]; simpl in G;
             destruct (lookup f d) eqn:?;
             [| injection G as <-; discriminate T]
         end.
  do 4 eexists. repeat split; reflexivity.
Qed.

Definition clock_or_publish (c : call) : Prop :=
  c = Utcnow \/ is_publish c = true.

Lemma send_notification_email_emits L data submission_id :
  emits clock_or_publish (ContactHandler.send_notification_email L data submission_id).
Proof.
  unfold ContactHandler.send_notification_email.
  emits_auto; unfold clock_or_publish; auto.
Qed.

(** whatever SNS does, [send_notification_email] returns normally *)
Lemma send_notification_email_returns L data submission_id w h :
  fst (ContactHandler.send_notification_email L data submission_id w h) = Ok tt.
Proof.
  unfold ContactHandler.send_notification_email, try_except.
  destruct (bind _ _ w h) as [[[] | e] h']; reflexivity.
Qed.

Lemma send_notification_email_spec L data submission_id w h :
  exists t,
    ContactHandler.send_notification_email L data submission_id w h = (Ok tt, (h ++ t)%list) /\
    Forall clock_or_publish t.
Proof.
  destruct (send_notification_email_emits L data submission_id w h) as [t [Et Ft]].
  exists t. split; [| exact Ft].
  pose proof (send_notification_email_returns L data submission_id w h) as R.
  destruct (ContactHandler.send_notification_email L data submission_id w h) as [r h'].
  cbn [fst snd] in Et, R. rewrite Et, R. reflexivity.
Qed.

(** DynamoDB accepts every [put_item] *)
Definition put_item_succeeds (w : world) : Prop :=
  forall h item, exists r,
    aws w h "dynamodb" "put_item" (ContactHandler.put_item_args item) = Ok r.

Definition stored_item (L : pylib) (w : world) (h : history) (d : list (string * pyval))
  (name email subject message : pyval) : list (string * pyval) :=
  [("submission_id", PStr (uuid w h));
   ("name", name);
   ("email", email);
   ("phone", match lookup "phone" d with Some x => x | None => PStr "" end);
   ("subject", subject);
   ("message", message);
   ("priority", match lookup "priority" d with Some x => x | None => PStr "medium" end);
   ("status", PStr "new");
   ("created_at", PStr (isoformat L (clock w (h ++ [Uuid4])%list)));
   ("updated_at", PStr (isoformat L (clock w (h ++ [Uuid4; Utcnow])%list)))].

Lemma process_contact_submission_stores L w h d name email subject message :
  put_item_succeeds w ->
  lookup "name" d = Some name -> lookup "email" d = Some email ->
  lookup "subject" d = Some subject -> lookup "message" d = Some message ->
  ContactHandler.process_contact_submission L (PDict d) w h =
  (Ok (uuid w h),
   (h ++ [Uuid4; Utcnow; Utcnow;
          Sdk "dynamodb" "put_item"
            (ContactHandler.put_item_args (stored_item L w h d name email subject message))])%list).
Proof.
  intros Hput Hn He Hs Hm.
  unfold ContactHandler.process_contact_submission, try_except, bind, uuid4, utcnow, sdk,
    lift, ret, getitem, get.
  rewrite Hn, He, Hs, Hm. cbn [fst snd].
  repeat rewrite <- app_assoc. cbn [app].
  match goal with
  | |- context [aws w ?h1 "dynamodb" "put_item" (ContactHandler.put_item_args ?item)] =>
      destruct (Hput h1 item) as [r Hr]; rewrite Hr
  end.
  reflexivity.
Qed.

(** C10: a form that passes validation and is stored gets the 200 response
    with its submission id whatever the notification does: SNS may raise
    any exception; after the [put_item] the handler only reads the clock and
    attempts the publish, so nothing touches the stored item again. *)
Theorem C10_notification_failure_keeps_success :
  forall (L : pylib) (event data : pyval) (v : ContactHandler.validation)
         (w : world) (h : history),
    ContactHandler.parse_body L event = Ok data ->
    ContactHandler.validate_form_data data = Ok v ->
    ContactHandler.valid v = true ->
    put_item_succeeds w ->
    exists resp item t,
      ContactHandler.lambda_handler L event w h
        = (Ok resp,
           (h ++ [Uuid4; Utcnow; Utcnow;
                  Sdk "dynamodb" "put_item" (ContactHandler.put_item_args item)] ++ t)%list) /\
      ContactHandler.statusCode resp = 200%Z /\
      lookup "submission_id" (ContactHandler.body resp) = Some (PStr (uuid w h)) /\
      lookup "submission_id" item = Some (PStr (uuid w h)) /\
      Forall (fun c => is_dynamodb c = false) t.
Proof.
  intros L event data v w h Hparse Hvalidate Hvalid Hput.
  destruct (valid_form_has_required_fields data v Hvalidate Hvalid)
    as [d [name [email [subject [message [-> [Hn [He [Hs Hm]]]]]]]]].
  unfold ContactHandler.lambda_handler, try_except, bind, lift.
  rewrite Hparse, Hvalidate, Hvalid. cbn [negb].
  rewrite (process_contact_submission_stores L w h d name email subject message Hput Hn He Hs Hm).
  match goal with
  | |- context [ContactHandler.send_notification_email L ?data ?id w ?h1] =>
      destruct (send_notification_email_spec L data id w h1) as [t [Et Ft]]; rewrite Et
  end.
  eexists. exists (stored_item L w h d name email subject message), (t ++ [Utcnow])%list.
  split; [| split; [| split; [| split]]].
  - unfold utcnow, ret. cbn [fst snd]. f_equal. repeat rewrite <- app_assoc. reflexivity.
  - reflexivity.
  - reflexivity.
  - reflexivity.
  - apply Forall_app. split.
    + eapply Forall_impl; [| exact Ft]. intros c [-> | Hc]; [reflexivity |].
      destruct c as [client operation kwargs | |]; try discriminate Hc.
      simpl in *. apply andb_true_iff in Hc. destruct Hc as [Hc _].
      apply String.eqb_eq in Hc. subst client. reflexivity.
    + constructor; [reflexivity | constructor].
Qed.

(** the text of a field; a missing or null field reads as the empty string *)
Definition field_text (d : list (string * pyval)) (field : string) : string :=
  match lookup field d with
  | Some (PStr s) => s
  | _ => ""
  end.

Definition text_or_absent (d : list (string * pyval)) (field : string) : bool :=
  match lookup field d with
  | None | Some PNone | Some (PStr _) => true
  | Some _ => false
  end.

(** a contact form: every field the validation reads is a string, null or
    missing *)
Definition text_form (d : list (string * pyval)) : bool :=
  forallb (text_or_absent d) ["name"; "email"; "subject"; "message"; "phone"].

Definition add_if (b : bool) (msg : string) (errors : list string) : list string :=
  if b then append errors msg else errors.

Definition is_nil {A} (l : list A) : bool :=
  match l with
  | [] => true
  | _ => false
  end.

(** the errors of a contact form, from its texts *)
Definition form_errors (d : list (string * pyval)) : list string :=
  let name := field_text d "name" in
  let email := field_text d "email" in
  let subject := field_text d "subject" in
  let message := field_text d "message" in
  let phone := field_text d "phone" in
  add_if (negb (phone =? "") && negb (isdigit (ContactHandler.strip_phone phone)))
    "Invalid phone number format"
    (add_if (negb (message =? "") && (String.length message <? 10)%nat)
       "Message must be at least 10 characters long"
       (add_if (negb (email =? "") && negb (contains "@" email))
          "Invalid email format"
          (add_if (message =? "") "message is required"
             (add_if (subject =? "") "subject is required"
                (add_if (email =? "") "email is required"
                   (add_if (name =? "") "name is required" [])))))).

Lemma validate_text_form d :
  text_form d = true ->
  ContactHandler.validate_form_data (PDict d)
  = Ok {| ContactHandler.valid := is_nil (form_errors d);
          ContactHandler.errors := form_errors d |}.
Proof.
  intros H. unfold text_form in H. cbn [forallb] in H. unfold text_or_absent in H.
  unfold ContactHandler.validate_form_data, form_errors, field_text.
  cbn [ContactHandler.check_required ContactHandler.required_fields get].
  destruct (lookup "name" d) as [[| | | name | | |] |]; cbn [andb] in H; try discriminate H;
  destruct (lookup "email" d) as [[| | | email | | |] |]; cbn [andb] in H; try discriminate H;
  destruct (lookup "subject" d) as [[| | | subject | | |] |]; cbn [andb] in H; try discriminate H;
  destruct (lookup "message" d) as [[| | | message | | |] |]; cbn [andb] in H; try discriminate H;
  destruct (lookup "phone" d) as [[| | | phone | | |] |]; cbn [andb] in H; try discriminate H;
  clear H; unfold add_if; cbn;
  repeat match goal with
         | |- context [String.eqb ?s ""] => destruct (String.eqb s ""); cbn
         end;
  reflexivity.
Qed.

Definition missing_required (d : list (string * pyval)) : bool :=
  existsb (fun field => field_text d field =? "") ContactHandler.required_fields.

(** the rejection rule of the code: the phone, once dashes, parentheses and
    spaces are removed, has to be a non-empty string of digits *)
Definition rejected (d : list (string * pyval)) : bool :=
  missing_required d ||
  negb (contains "@" (field_text d "email")) ||
  (String.length (field_text d "message") <? 10)%nat ||
  (negb (field_text d "phone" =? "") &&
   negb (isdigit (ContactHandler.strip_phone (field_text d "phone")))).

Definition phone_separator (c : ascii) : bool :=
  existsb (Ascii.eqb c) ["-"; "("; ")"; " "]%char.

(** the rejection rule as the claim words it: the phone is rejected when it
    contains a character that is neither a digit nor a dash, a parenthesis
    or a space *)
Definition rejected_as_stated (d : list (string * pyval)) : bool :=
  missing_required d ||
  negb (contains "@" (field_text d "email")) ||
  (String.length (field_text d "message") <? 10)%nat ||
  negb (all_chars (fun c => isdigit_char c || phone_separator c) (field_text d "phone")).

Lemma form_errors_nil d : is_nil (form_errors d) = negb (rejected d).
Proof.
  unfold form_errors, rejected, missing_required, add_if.
  cbn [existsb ContactHandler.required_fields].
  destruct (field_text d "name" =? ""), (field_text d "email" =? ""),
    (field_text d "subject" =? ""), (field_text d "message" =? ""),
    (field_text d "phone" =? ""),
    (contains "@" (field_text d "email")),
    (String.length (field_text d "message") <? 10)%nat,
    (isdigit (ContactHandler.strip_phone (field_text d "phone")));
    reflexivity.
Qed.

(** a form whose phone number consists of a dash *)
Definition dash_phone_form : list (string * pyval) :=
  [("name", PStr "Ada Lovelace");
   ("email", PStr "ada@example.org");
   ("subject", PStr "Engines");
   ("message", PStr "Please call me back.");
   ("phone", PStr "-")].

Definition dash_phone_event : pyval := PDict [("body", PDict dash_phone_form)].

(** a library and an environment for concrete runs *)
Definition sample_payload : string := "sample-payload".

Definition sample_record : pyval :=
  PDict [("timestamp", PStr "2024-01-15T10:30:00Z");
         ("user_id", PStr "user-1");
         ("event_type", PStr "purchase");
         ("value", PNum 120)].

Definition sample_lib : pylib :=
  {| json_loads := fun s => if s =? sample_payload then Some sample_record else None;
     json_dumps := fun _ => "{}";
     b64decode_utf8 := fun s => if s =? "c2FtcGxl" then Some sample_payload else None;
     float_of_str := fun _ => None;
     repr := fun _ => "value";
     fromisoformat := fun s =>
       if s =? "2024-01-15T10:30:00+00:00"
       then Some {| dt_year := 2024; dt_month := 1; dt_day := 15; dt_hour := 10;
                    dt_iso := "2024-01-15T10:30:00+00:00" |}
       else None;
     isoformat := fun _ => "2024-01-15T10:30:00";
     strftime_ymd := fun _ => "2024-01-15";
     month_start := fun z => z;
     format_2f := fun _ => "0.00" |}.

(** every AWS call succeeds with an empty reply *)
Definition agreeable_world : world :=
  {| aws := fun _ _ _ _ => Ok (PDict []);
     clock := fun _ => 0%Z;
     uuid := fun _ => "00000000-0000-4000-8000-000000000000" |}.

(** C3, as stated, fails: none of the listed conditions holds for a form
    whose phone is a single dash (the phone contains no character beyond
    digits, dashes, parentheses and spaces), so the claim promises a stored
    item and status 200, but the handler answers 400 and calls nothing. *)
Lemma C3_counterexample_dash_phone :
  rejected_as_stated dash_phone_form = false /\
  run (ContactHandler.lambda_handler sample_lib dash_phone_event) agreeable_world
  = (Ok (ContactHandler.create_response 400
           [("error", PStr "Validation failed");
            ("details", PList [PStr "Invalid phone number format"])]),
     []).
Proof. split; reflexivity. Qed.

Lemma nonempty_text_is_present d field :
  (field_text d field =? "") = false ->
  lookup field d = Some (PStr (field_text d field)).
Proof.
  unfold field_text.
  destruct (lookup field d) as [[| | | s | | |] |]; simpl; intros H;
    try discriminate H; reflexivity.
Qed.

Lemma accepted_form_has_texts d :
  rejected d = false ->
  lookup "name" d = Some (PStr (field_text d "name")) /\
  lookup "email" d = Some (PStr (field_text d "email")) /\
  lookup "subject" d = Some (PStr (field_text d "subject")) /\
  lookup "message" d = Some (PStr (field_text d "message")).
Proof.
  unfold rejected, missing_required. cbn [existsb ContactHandler.required_fields].
  intros H. repeat rewrite orb_false_iff in H. decompose [and] H.
  repeat split; apply nonempty_text_is_present; assumption.
Qed.

Lemma send_notification_email_publishes L w h d submission_id name email subject message :
  lookup "name" d = Some name -> lookup "email" d = Some email ->
  lookup "subject" d = Some subject -> lookup "message" d = Some message ->
  exists text,
    ContactHandler.send_notification_email L (PDict d) submission_id w h
    = (Ok tt,
       (h ++ [Utcnow; Sdk "sns" "publish" (ContactHandler.publish_args L subject text)])%list).
Proof.
  intros Hn He Hs Hm.
  unfold ContactHandler.send_notification_email, try_except, bind, utcnow, sdk, lift, ret,
    getitem, get.
  rewrite Hn, He, Hs, Hm. cbn [fst snd].
  eexists.
  destruct (aws w _ "sns" "publish" _) as [[| | | | | | r] | e]; cbn;
    try (rewrite <- app_assoc; reflexivity).
  destruct (lookup "MessageId" r); rewrite <- app_assoc; reflexivity.
Qed.

(** C3, amended: for a contact form whose fields are text, the handler
    validates first.  When a required field is missing or empty, the email
    lacks '@', the message has fewer than 10 characters, or a provided phone
    is not a non-empty string of digits once dashes, parentheses and spaces
    are removed, it returns 400 with the errors and calls nothing.
    Otherwise, when DynamoDB accepts the item, it stores exactly one item
    with the generated submission id and status 'new', then issues exactly
    one SNS publish, and returns 200 with that submission id. *)
Theorem C3_validate_then_store_then_publish :
  forall (L : pylib) (event : pyval) (d : list (string * pyval)) (w : world) (h : history),
    ContactHandler.parse_body L event = Ok (PDict d) ->
    text_form d = true ->
    (rejected d = true ->
     form_errors d <> [] /\
     ContactHandler.lambda_handler L event w h
     = (Ok (ContactHandler.create_response 400
              [("error", PStr "Validation failed");
               ("details", PList (map PStr (form_errors d)))]),
        h)) /\
    (rejected d = false ->
     put_item_succeeds w ->
     exists item text now,
       ContactHandler.lambda_handler L event w h
       = (Ok (ContactHandler.create_response 200
                [("message", PStr "Contact form submitted successfully");
                 ("submission_id", PStr (uuid w h));
                 ("timestamp", PStr now)]),
          (h ++ [Uuid4; Utcnow; Utcnow;
                 Sdk "dynamodb" "put_item" (ContactHandler.put_item_args item);
                 Utcnow;
                 Sdk "sns" "publish"
                   (ContactHandler.publish_args L (PStr (field_text d "subject")) text);
                 Utcnow])%list) /\
       lookup "submission_id" item = Some (PStr (uuid w h)) /\
       lookup "status" item = Some (PStr "new")).
Proof.
  intros L event d w h Hparse Htext.
  pose proof (validate_text_form d Htext) as Hvalidate.
  pose proof (form_errors_nil d) as Hnil.
  split.
  - intros Hrej. rewrite Hrej in Hnil. split.
    + intros E. rewrite E in Hnil. discriminate Hnil.
    + unfold ContactHandler.lambda_handler, try_except, bind, lift.
      rewrite Hparse, Hvalidate. cbn [ContactHandler.valid ContactHandler.errors].
      rewrite Hnil. reflexivity.
  - intros Hacc Hput. rewrite Hacc in Hnil.
    destruct (accepted_form_has_texts d Hacc) as [Hn [He [Hs Hm]]].
    unfold ContactHandler.lambda_handler, try_except, bind, lift.
    rewrite Hparse, Hvalidate. cbn [ContactHandler.valid ContactHandler.errors].
    rewrite Hnil. cbn [negb].
    rewrite (process_contact_submission_stores L w h d _ _ _ _ Hput Hn He Hs Hm).
    match goal with
    | |- context [ContactHandler.send_notification_email L ?data ?id w ?h1] =>
        destruct (send_notification_email_publishes L w h1 d id _ _ _ _ Hn He Hs Hm)
          as [text Et]; rewrite Et
    end.
    exists (stored_item L w h d (PStr (field_text d "name")) (PStr (field_text d "email"))
              (PStr (field_text d "subject")) (PStr (field_text d "message"))).
    exists text. eexists. split; [| split; reflexivity].
    unfold utcnow, ret. cbn [fst snd]. repeat rewrite <- app_assoc. reflexivity.
Qed.

(** ** Data processor: decode, validate, enrich, store *)

Lemma eqb_sym_false (a b : string) : (a =? b) = false -> (b =? a) = false.
Proof. rewrite String.eqb_sym. auto. Qed.

Lemma lookup_set_item_same k (v : pyval) d : lookup k (set_item k v d) = Some v.
Proof.
  induction d as [| [k' v'] d IH]; simpl.
  - rewrite String.eqb_refl. reflexivity.
  - destruct (k =? k') eqn:E; simpl.
    + rewrite String.eqb_refl. reflexivity.
    + rewrite E. exact IH.
Qed.

Lemma lookup_set_item_other k k' (v : pyval) d :
  (k =? k') = false -> lookup k (set_item k' v d) = lookup k d.
Proof.
  intros Hne. induction d as [| [k0 v0] d IH]; simpl.
  - rewrite Hne. reflexivity.
  - destruct (k' =? k0) eqn:E; simpl.
    + apply String.eqb_eq in E. subst k0. rewrite Hne. reflexivity.
    + destruct (k =? k0); [reflexivity | exact IH].
Qed.

Definition is_invoke (c : call) : bool :=
  match c with
  | Sdk client operation _ =>
      (client =? "sagemaker-runtime") && (operation =? "invoke_endpoint")
  | _ => false
  end.

Definition is_store (c : call) : bool :=
  match c with
  | Sdk client operation _ =>
      ((client =? "redshift-data") && (operation =? "execute_statement")) ||
      ((client =? "s3") && (operation =? "put_object"))
  | _ => false
  end.

(** decoding: the [data] of the Kinesis record, base64-decoded and then
    parsed as JSON *)
Definition base64_then_json (L : pylib) (record : pyval) : option pyval :=
  match getitem record "kinesis" with
  | Ok kinesis =>
      match getitem kinesis "data" with
      | Ok (PStr encoded) =>
          match b64decode_utf8 L encoded with
          | Some payload => json_loads L payload
          | None => None
          end
      | _ => None
      end
  | Raise _ => None
  end.

(** what validation accepts: the three required fields are present, the
    timestamp is a string that parses as ISO 8601 once a ['Z'] is replaced
    by ['+00:00'], and the event type is one of the six known *)
Definition well_formed_record (L : pylib) (d : list (string * pyval)) : Prop :=
  (exists ts, lookup "timestamp" d = Some (PStr ts) /\
              fromisoformat L (replace "Z" "+00:00" ts) <> None) /\
  lookup "user_id" d <> None /\
  (exists event_type,
      lookup "event_type" d = Some (PStr event_type) /\
      In event_type ["view"; "click"; "purchase"; "signup"; "login"; "logout"]).

(** the event types that get an ML prediction *)
Definition predicted (d : list (string * pyval)) : bool :=
  match lookup "event_type" d with
  | Some (PStr event_type) =>
      existsb (String.eqb event_type) ["purchase"; "view"; "click"]
  | _ => false
  end.

(** [d.get(k, default)] *)
Definition field_or (k : string) (default : pyval) (d : list (string * pyval)) : pyval :=
  match lookup k d with
  | Some v => v
  | None => default
  end.

(** the fields the enrichment computes with are numbers: [value] can be
    compared with 100, and [value] and [session_duration] can be converted
    to floats *)
Definition numeric_fields (L : pylib) (d : list (string * pyval)) : Prop :=
  (exists q, as_number (field_or "value" (PNum 0) d) = Ok q) /\
  (exists f, to_float L (field_or "value" (PNum 0) d) = Ok f) /\
  (exists f, to_float L (field_or "session_duration" (PNum 0) d) = Ok f).

(** what enrichment makes of a record: [processed_at] is the time of the
    call, [session_duration] and [user_segment] are set, [ml_prediction] is
    set for the predicted event types, and every other field is as it was *)
Definition enriched_from (L : pylib) (now : Z) (d : list (string * pyval))
  (result : pyval) : Prop :=
  exists d',
    result = PDict d' /\
    lookup "processed_at" d' = Some (PStr (isoformat L now)) /\
    lookup "session_duration" d' <> None /\
    (exists segment, lookup "user_segment" d' = Some (PStr segment)) /\
    (if predicted d then lookup "ml_prediction" d' <> None
     else lookup "ml_prediction" d' = lookup "ml_prediction" d) /\
    (forall k, (k =? "processed_at") = false -> (k =? "session_duration") = false ->
               (k =? "user_segment") = false -> (k =? "ml_prediction") = false ->
               lookup k d' = lookup k d).

Section DataProcessorFacts.

Variable L : pylib.
Variable environ : string -> option string.

(** the record after the processing time is set, when it passes validation *)
Definition checked (now : Z) (data : pyval) : result pyval :=
  match DataProcessor.setitem data "processed_at" (PStr (isoformat L now)) with
  | Raise e => Raise e
  | Ok stamped =>
      match DataProcessor.validate_data L stamped with
      | Raise e => Raise e
      | Ok _ => Ok stamped
      end
  end.

(** the three calls of the pipeline *)
Definition invoke_call (features : list Q) : call :=
  Sdk "sagemaker-runtime" "invoke_endpoint"
    [("EndpointName", opt_val (environ "SAGEMAKER_ENDPOINT"));
     ("ContentType", PStr "application/json");
     ("Body",
      PStr (json_dumps L (PDict [("instances", PList [PList (map PNum features)])])))].

Definition redshift_args (sql : string) : list (string * pyval) :=
  [("ClusterIdentifier", opt_val (environ "REDSHIFT_CLUSTER_ID"));
   ("Database", opt_val (environ "REDSHIFT_DATABASE"));
   ("Sql", PStr sql)].

Definition redshift_call (sql : string) : call :=
  Sdk "redshift-data" "execute_statement" (redshift_args sql).

Definition s3_args (key : string) (data : pyval) : list (string * pyval) :=
  [("Bucket", opt_val (environ "S3_BUCKET"));
   ("Key", PStr key);
   ("Body", PStr (json_dumps L data));
   ("ContentType", PStr "application/json")].

Definition s3_call (key : string) (data : pyval) : call :=
  Sdk "s3" "put_object" (s3_args key data).

(** storing an enriched record: the Redshift statement first; the S3 object
    only when the statement was accepted and the reply carries its [Id];
    the record is processed when both stores returned *)
Definition stored (w : world) (h : history) (record enriched : pyval) (sql key : string)
  : result pyval * history :=
  let h1 := (h ++ [redshift_call sql])%list in
  match aws w h "redshift-data" "execute_statement" (redshift_args sql) with
  | Raise e => (Raise e, h1)
  | Ok response =>
      match getitem response "Id" with
      | Raise e => (Raise e, h1)
      | Ok _ =>
          let h2 := (h1 ++ [s3_call key enriched])%list in
          match aws w h1 "s3" "put_object" (s3_args key enriched) with
          | Raise e => (Raise e, h2)
          | Ok _ => (DataProcessor.sequence_number record, h2)
          end
      end
  end.

Lemma get_ml_prediction_spec features w h :
  exists prediction,
    DataProcessor.get_ml_prediction L environ features w h
    = (Ok prediction, (h ++ [invoke_call features])%list).
Proof.
  unfold DataProcessor.get_ml_prediction, try_except, bind, sdk, lift, ret, raise, invoke_call.
  destruct (aws w h _ _ _) as [response | e]; [| eexists; reflexivity].
  cbn. destruct (getitem response "Body") as [[| | | text | | |] | e];
    try (eexists; reflexivity).
  destruct (json_loads L text); eexists; reflexivity.
Qed.

Lemma setitem_dict d k v : DataProcessor.setitem (PDict d) k v = Ok (PDict (set_item k v d)).
Proof. reflexivity. Qed.

Lemma decode_spec record :
  match base64_then_json L record with
  | Some data => DataProcessor.decode L record = Ok data
  | None => exists e, DataProcessor.decode L record = Raise e
  end.
Proof.
  unfold base64_then_json, DataProcessor.decode.
  destruct (getitem record "kinesis") as [kinesis | e]; [| exists e; reflexivity].
  destruct (getitem kinesis "data") as [[| | | encoded | | |] | e];
    try (eexists; reflexivity).
  destruct (b64decode_utf8 L encoded) as [payload |]; [| eexists; reflexivity].
  destruct (json_loads L payload); [reflexivity | eexists; reflexivity].
Qed.

Lemma str_in_spec (v : pyval) (l : list string) :
  DataProcessor.str_in v l = true <-> exists s, v = PStr s /\ In s l.
Proof.
  unfold DataProcessor.str_in. rewrite existsb_exists. split.
  - intros [s [Hin Hs]]. destruct v; try discriminate Hs. simpl in Hs.
    apply String.eqb_eq in Hs. subst. eexists. split; [reflexivity | exact Hin].
  - intros [s [-> Hin]]. exists s. split; [exact Hin | apply String.eqb_refl].
Qed.

Lemma validate_data_spec d :
  DataProcessor.validate_data L (PDict d) = Ok tt <-> well_formed_record L d.
Proof.
  unfold DataProcessor.validate_data, well_formed_record.
  cbn [DataProcessor.check_fields DataProcessor.required_fields has getitem].
  destruct (lookup "timestamp" d) as [timestamp |].
  2:{ split; [discriminate | intros [[ts [H _]] _]; discriminate H]. }
  destruct (lookup "user_id" d) as [user_id |].
  2:{ split; [discriminate | intros [_ [H _]]; contradiction]. }
  destruct (lookup "event_type" d) as [event_type |].
  2:{ split; [discriminate | intros [_ [_ [et [H _]]]]; discriminate H]. }
  unfold DataProcessor.parse_timestamp.
  destruct timestamp as [| | | ts | | |];
    try (split; [discriminate | intros [[ts' [H _]] _]; discriminate H]).
  destruct (fromisoformat L (replace "Z" "+00:00" ts)) as [parsed |] eqn:Ep.
  2:{ split; [discriminate |]. intros [[ts' [H Hp]] _]. injection H as <-.
      contradiction. }
  destruct (DataProcessor.str_in event_type DataProcessor.valid_event_types) eqn:Ein; cbn [negb].
  - apply str_in_spec in Ein. destruct Ein as [et [-> Het]]. split; [| reflexivity].
    intros _. split; [exists ts; split; [reflexivity | congruence] |].
    split; [discriminate | exists et; auto].
  - split; [discriminate |]. intros [_ [_ [et [H Het]]]]. injection H as ->.
    assert (DataProcessor.str_in (PStr et) DataProcessor.valid_event_types = true)
      by (apply str_in_spec; eauto).
    congruence.
Qed.

(** the processing time does not bear on validation *)
Lemma well_formed_stamped d v :
  well_formed_record L (set_item "processed_at" v d) <-> well_formed_record L d.
Proof.
  unfold well_formed_record.
  rewrite !lookup_set_item_other by reflexivity. reflexivity.
Qed.

Lemma validate_stamped d v :
  match DataProcessor.validate_data L (PDict (set_item "processed_at" v d)) with
  | Ok _ => well_formed_record L d
  | Raise _ => ~ well_formed_record L d
  end.
Proof.
  pose proof (validate_data_spec (set_item "processed_at" v d)) as H.
  rewrite well_formed_stamped in H.
  destruct (DataProcessor.validate_data L _) as [[] | e].
  - apply H. reflexivity.
  - intros Hw. apply H in Hw. discriminate Hw.
Qed.

Lemma predicted_spec d :
  DataProcessor.str_in (field_or "event_type" PNone d) DataProcessor.ml_event_types
  = predicted d.
Proof.
  unfold predicted, field_or, DataProcessor.str_in, DataProcessor.ml_event_types.
  destruct (lookup "event_type" d) as [[| | | et | | |] |]; reflexivity.
Qed.

(** [process_record] on a record that passes validation *)
Lemma process_record_valid d w h :
  well_formed_record L d ->
  match DataProcessor.process_record L environ (PDict d) w h with
  | (Raise _, h1) => h1 = (h ++ [Utcnow])%list
  | (Ok result, h1) =>
      enriched_from L (clock w h) d result /\
      exists ml_calls,
        h1 = (h ++ [Utcnow] ++ ml_calls)%list /\
        (if predicted d then exists features, ml_calls = [invoke_call features]
         else ml_calls = [])
  end.
Proof.
  intros Hwf.
  unfold DataProcessor.process_record, try_except, bind, utcnow, lift, ret, raise.
  cbn [fst snd]. rewrite setitem_dict.
  destruct (DataProcessor.validate_data L _) as [[] | e]; [| reflexivity].
  remember (set_item "processed_at" (PStr (isoformat L (clock w h))) d) as d1 eqn:Ed1.
  destruct (DataProcessor.calculate_session_duration (PDict d1)) as [duration | e];
    [| reflexivity].
  rewrite setitem_dict.
  remember (set_item "session_duration" duration d1) as d2 eqn:Ed2.
  destruct (DataProcessor.determine_user_segment (PDict d2)) as [segment | e];
    [| reflexivity].
  rewrite setitem_dict.
  remember (set_item "user_segment" (PStr segment) d2) as d3 eqn:Ed3.
  assert (Hother : forall k, (k =? "processed_at") = false ->
                             (k =? "session_duration") = false ->
                             (k =? "user_segment") = false ->
                             lookup k d3 = lookup k d).
  { intros k H1 H2 H3.
    rewrite Ed3, lookup_set_item_other by exact H3.
    rewrite Ed2, lookup_set_item_other by exact H2.
    rewrite Ed1, lookup_set_item_other by exact H1. reflexivity. }
  assert (Hstamp : lookup "processed_at" d3 = Some (PStr (isoformat L (clock w h)))).
  { rewrite Ed3, lookup_set_item_other by reflexivity.
    rewrite Ed2, lookup_set_item_other by reflexivity.
    rewrite Ed1. apply lookup_set_item_same. }
  assert (Hdur : lookup "session_duration" d3 = Some duration).
  { rewrite Ed3, lookup_set_item_other by reflexivity.
    rewrite Ed2. apply lookup_set_item_same. }
  assert (Hseg : lookup "user_segment" d3 = Some (PStr segment)).
  { rewrite Ed3. apply lookup_set_item_same. }
  assert (Hev : get (PDict d3) "event_type" PNone = Ok (field_or "event_type" PNone d)).
  { cbn [get]. unfold field_or. rewrite (Hother "event_type") by reflexivity. reflexivity. }
  rewrite Hev, predicted_spec.
  destruct (predicted d) eqn:Epred.
  - destruct (DataProcessor.extract_ml_features L (PDict d3)) as [features | e];
      [| reflexivity].
    destruct (get_ml_prediction_spec features w (h ++ [Utcnow])%list) as [prediction Ep].
    rewrite Ep, setitem_dict. split.
    + exists (set_item "ml_prediction" prediction d3).
      split; [reflexivity |].
      split; [rewrite lookup_set_item_other by reflexivity; exact Hstamp |].
      split; [rewrite lookup_set_item_other by reflexivity; rewrite Hdur; discriminate |].
      split; [exists segment; rewrite lookup_set_item_other by reflexivity; exact Hseg |].
      rewrite Epred.
      split; [rewrite lookup_set_item_same; discriminate |].
      intros k H1 H2 H3 H4. rewrite lookup_set_item_other by exact H4.
      apply Hother; assumption.
    + exists [invoke_call features]. split; [rewrite <- app_assoc; reflexivity |].
      exists features. reflexivity.
  - split.
    + exists d3. split; [reflexivity |]. split; [exact Hstamp |].
      split; [rewrite Hdur; discriminate |].
      split; [exists segment; exact Hseg |].
      rewrite Epred. split; [apply Hother; reflexivity |].
      intros k H1 H2 H3 _. apply Hother; assumption.
    + exists []. split; [reflexivity | reflexivity].
Qed.

(** the enrichment of a valid record with numeric fields returns *)
Lemma process_record_returns d w h :
  well_formed_record L d -> numeric_fields L d ->
  exists result h1,
    DataProcessor.process_record L environ (PDict d) w h = (Ok result, h1).
Proof.
  intros Hwf [[q Hq] [[f0 Hf0] [f1 Hf1]]].
  unfold DataProcessor.process_record, try_except, bind, utcnow, lift, ret, raise.
  cbn [fst snd]. rewrite setitem_dict.
  pose proof (validate_stamped d (PStr (isoformat L (clock w h)))) as Hv.
  destruct (DataProcessor.validate_data L _) as [[] | e]; [| contradiction].
  remember (set_item "processed_at" (PStr (isoformat L (clock w h))) d) as d1 eqn:Ed1.
  assert (H1 : forall k, (k =? "processed_at") = false -> lookup k d1 = lookup k d).
  { intros k Hk. rewrite Ed1. apply lookup_set_item_other. exact Hk. }
  unfold DataProcessor.calculate_session_duration. cbn [get].
  rewrite (H1 "event_type") by reflexivity.
  rewrite (H1 "session_duration") by reflexivity.
  fold (field_or "session_duration" (PNum 0) d).
  set (duration :=
         if str_is (field_or "event_type" PNone d) "login" then PNum 0
         else field_or "session_duration" (PNum 0) d).
  assert (Edur :
    (if str_is match lookup "event_type" d with Some x => x | None => PNone end "login"
     then Ok (PNum 0)
     else if str_is match lookup "event_type" d with Some x => x | None => PNone end "logout"
          then Ok (field_or "session_duration" (PNum 0) d)
          else Ok (field_or "session_duration" (PNum 0) d)) = Ok duration).
  { unfold duration, field_or.
    destruct (str_is _ "login"); [reflexivity |].
    destruct (str_is _ "logout"); reflexivity. }
  rewrite Edur. rewrite setitem_dict.
  remember (set_item "session_duration" duration d1) as d2 eqn:Ed2.
  assert (H2 : forall k, (k =? "processed_at") = false ->
                         (k =? "session_duration") = false -> lookup k d2 = lookup k d).
  { intros k Hk1 Hk2. rewrite Ed2, lookup_set_item_other by exact Hk2. apply H1. exact Hk1. }
  unfold DataProcessor.determine_user_segment. cbn [get].
  rewrite (H2 "event_type") by reflexivity. rewrite (H2 "value") by reflexivity.
  fold (field_or "value" (PNum 0) d). rewrite Hq.
  set (segment :=
         if str_is match lookup "event_type" d with Some x => x | None => PNone end "purchase"
         then "high_value"
         else if Qlt_bool 100 q then "medium_value" else "low_value").
  assert (Eseg :
    (if str_is match lookup "event_type" d with Some x => x | None => PNone end "purchase"
     then Ok "high_value"
     else if Qlt_bool 100 q then Ok "medium_value" else Ok "low_value") = Ok segment).
  { unfold segment. destruct (str_is _ "purchase"); [reflexivity |].
    destruct (Qlt_bool 100 q); reflexivity. }
  rewrite Eseg. rewrite setitem_dict.
  remember (set_item "user_segment" (PStr segment) d2) as d3 eqn:Ed3.
  assert (H3 : forall k, (k =? "processed_at") = false ->
                         (k =? "session_duration") = false ->
                         (k =? "user_segment") = false -> lookup k d3 = lookup k d).
  { intros k Hk1 Hk2 Hk3. rewrite Ed3, lookup_set_item_other by exact Hk3.
    apply H2; assumption. }
  assert (Hdur : lookup "session_duration" d3 = Some duration).
  { rewrite Ed3, lookup_set_item_other by reflexivity.
    rewrite Ed2. apply lookup_set_item_same. }
  cbn [get]. rewrite (H3 "event_type") by reflexivity.
  fold (field_or "event_type" PNone d). rewrite predicted_spec.
  destruct (predicted d) eqn:Epred; [| eexists; eexists; reflexivity].
  unfold DataProcessor.extract_ml_features. cbn [get].
  rewrite (H3 "value") by reflexivity. fold (field_or "value" (PNum 0) d).
  rewrite Hf0, Hdur.
  assert (Hnot_login : str_is (field_or "event_type" PNone d) "login" = false).
  { unfold predicted in Epred. unfold field_or.
    destruct (lookup "event_type" d) as [[| | | et | | |] |]; try discriminate Epred.
    cbn [existsb] in Epred. cbn [str_is].
    destruct (et =? "login") eqn:El; [| reflexivity].
    apply String.eqb_eq in El. subst et. discriminate Epred. }
  unfold duration. rewrite Hnot_login, Hf1.
  destruct (get_ml_prediction_spec
              [f0; f1;
               if str_is match lookup "event_type" d3 with Some x => x | None => PNone end
                    "purchase" then 1%Q else 0%Q;
               if str_is match lookup "user_segment" d3 with Some x => x | None => PNone end
                    "high_value" then 1%Q else 0%Q]
              w (h ++ [Utcnow])%list) as [prediction Ep].
  rewrite Ep, setitem_dict. eexists. eexists. reflexivity.
Qed.

Lemma store_in_redshift_steps data w h :
  DataProcessor.store_in_redshift L environ data w h =
  match DataProcessor.insert_statement L data with
  | Raise e => (Raise e, h)
  | Ok sql =>
      match aws w h "redshift-data" "execute_statement" (redshift_args sql) with
      | Raise e => (Raise e, (h ++ [redshift_call sql])%list)
      | Ok response =>
          match getitem response "Id" with
          | Raise e => (Raise e, (h ++ [redshift_call sql])%list)
          | Ok _ => (Ok tt, (h ++ [redshift_call sql])%list)
          end
      end
  end.
Proof.
  unfold DataProcessor.store_in_redshift, try_except, bind, sdk, lift, ret, raise,
    redshift_call, redshift_args, DataProcessor.execute_args,
    DataProcessor.REDSHIFT_CLUSTER_ID, DataProcessor.REDSHIFT_DATABASE.
  destruct (DataProcessor.insert_statement L data) as [sql | e]; [| reflexivity].
  destruct (aws w h _ _ _) as [response | e]; [| reflexivity].
  destruct (getitem response "Id"); reflexivity.
Qed.

Lemma store_in_s3_steps d ts parsed user_id w h :
  lookup "timestamp" d = Some (PStr ts) ->
  fromisoformat L (replace "Z" "+00:00" ts) = Some parsed ->
  lookup "user_id" d = Some user_id ->
  DataProcessor.store_in_s3 L environ (PDict d) w h =
  let key := DataProcessor.s3_key L parsed user_id in
  match aws w h "s3" "put_object" (s3_args key (PDict d)) with
  | Raise e => (Raise e, (h ++ [s3_call key (PDict d)])%list)
  | Ok _ => (Ok tt, (h ++ [s3_call key (PDict d)])%list)
  end.
Proof.
  intros Ht Hp Hu.
  unfold DataProcessor.store_in_s3, try_except, bind, sdk, lift, ret, raise, s3_call,
    s3_args, DataProcessor.put_object_args, DataProcessor.S3_BUCKET,
    DataProcessor.parse_timestamp.
  cbn [getitem]. rewrite Ht, Hp, Hu. cbn.
  destruct (aws w h _ _ _); reflexivity.
Qed.

(** the statement for an enriched record can be written *)
Lemma insert_statement_of_enriched now d result :
  well_formed_record L d -> enriched_from L now d result ->
  exists sql, DataProcessor.insert_statement L result = Ok sql.
Proof.
  intros [[ts [Hts _]] [Hu [et [Het _]]]] [d' [-> [Hstamp [_ [_ [_ Hother]]]]]].
  unfold DataProcessor.insert_statement. cbn [getitem get].
  rewrite (Hother "timestamp"), (Hother "user_id"), (Hother "event_type"), Hts, Het, Hstamp
    by reflexivity.
  destruct (lookup "user_id" d) as [user_id |]; [| contradiction].
  eexists. reflexivity.
Qed.

Lemma process_one_unfolded record w h :
  DataProcessor.process_one L environ record w h =
  match DataProcessor.decode L record with
  | Raise e => (Raise e, h)
  | Ok data =>
      match DataProcessor.process_record L environ data w h with
      | (Raise e, h1) => (Raise e, h1)
      | (Ok enriched, h1) =>
          match DataProcessor.store_in_redshift L environ enriched w h1 with
          | (Raise e, h2) => (Raise e, h2)
          | (Ok _, h2) =>
              match DataProcessor.store_in_s3 L environ enriched w h2 with
              | (Raise e, h3) => (Raise e, h3)
              | (Ok _, h3) => (DataProcessor.sequence_number record, h3)
              end
          end
      end
  end.
Proof.
  unfold DataProcessor.process_one, bind, lift.
  destruct (DataProcessor.decode L record) as [data | e]; [| reflexivity].
  destruct (DataProcessor.process_record L environ data w h) as [[enriched | e] h1];
    [| reflexivity].
  destruct (DataProcessor.store_in_redshift L environ enriched w h1) as [[[] | e] h2];
    [| reflexivity].
  destruct (DataProcessor.store_in_s3 L environ enriched w h2) as [[[] | e] h3];
    reflexivity.
Qed.

End DataProcessorFacts.

(** C4: for every Kinesis record the steps come in the order decode,
    validate, enrich, store.  A record whose data cannot be base64-decoded
    and then parsed as JSON causes no call at all.  A decoded record that
    is not a dictionary with the three required fields, an ISO-parseable
    timestamp and one of the six event types causes the clock read alone:
    it is stored in neither Redshift nor S3.  A record that passes
    validation is enriched (processing time, session_duration,
    user_segment, and an ML prediction, obtained by one call, exactly for
    the event types purchase, view and click; the other fields are kept),
    which succeeds whenever its value and session_duration are numbers;
    only then the Redshift statement built from the enriched record is
    executed, and after it the S3 object is put, and the record counts as
    processed when both stores returned. *)
Theorem C4_decode_validate_enrich_then_store :
  forall (L : pylib) (environ : string -> option string) (record : pyval)
         (w : world) (h : history),
    let run := DataProcessor.process_one L environ record w h in
    (base64_then_json L record = None -> exists e, run = (Raise e, h)) /\
    (forall data,
        base64_then_json L record = Some data ->
        (forall d, data = PDict d -> ~ well_formed_record L d) ->
        exists e, run = (Raise e, (h ++ [Utcnow])%list)) /\
    (forall d,
        base64_then_json L record = Some (PDict d) ->
        well_formed_record L d ->
        (numeric_fields L d ->
         exists result h1,
           DataProcessor.process_record L environ (PDict d) w h = (Ok result, h1)) /\
        match DataProcessor.process_record L environ (PDict d) w h with
        | (Raise e, _) => run = (Raise e, (h ++ [Utcnow])%list)
        | (Ok result, h1) =>
            enriched_from L (clock w h) d result /\
            (exists ml_calls,
                h1 = (h ++ [Utcnow] ++ ml_calls)%list /\
                (if predicted d
                 then exists features, ml_calls = [invoke_call L environ features]
                 else ml_calls = [])) /\
            exists sql key,
              DataProcessor.insert_statement L result = Ok sql /\
              run = stored L environ w h1 record result sql key
        end) /\
    (forall d, DataProcessor.validate_data L (PDict d) = Ok tt <-> well_formed_record L d).
Proof.
  intros L environ record w h run.
  pose proof (decode_spec L record) as Hdec.
  assert (Erun : run = DataProcessor.process_one L environ record w h) by reflexivity.
  rewrite process_one_unfolded in Erun. clearbody run.
  split; [| split; [| split]].
  - intros Hnone. rewrite Hnone in Hdec. destruct Hdec as [e He].
    exists e. rewrite Erun, He. reflexivity.
  - intros data Hsome Hbad. rewrite Hsome in Hdec. rewrite Hdec in Erun.
    assert (Hfail : exists e,
               DataProcessor.process_record L environ data w h
               = (Raise e, (h ++ [Utcnow])%list)).
    { unfold DataProcessor.process_record, try_except, bind, utcnow, lift, ret, raise.
      cbn [fst snd].
      destruct data as [| | | | | | d]; try (eexists; reflexivity).
      rewrite setitem_dict.
      pose proof (validate_stamped L d (PStr (isoformat L (clock w h)))) as Hv.
      destruct (DataProcessor.validate_data L _) as [[] | e]; [| exists e; reflexivity].
      exfalso. exact (Hbad d eq_refl Hv). }
    destruct Hfail as [e He]. rewrite He in Erun. exists e. exact Erun.
  - intros d Hsome Hwf. rewrite Hsome in Hdec. rewrite Hdec in Erun.
    split; [intros Hnum; exact (process_record_returns L environ d w h Hwf Hnum) |].
    pose proof (process_record_valid L environ d w h Hwf) as Hp.
    destruct (DataProcessor.process_record L environ (PDict d) w h)
      as [[enriched | e] h1]; [| subst h1; exact Erun].
    destruct Hp as [Henr Hml].
    split; [exact Henr |]. split; [exact Hml |].
    destruct (insert_statement_of_enriched L (clock w h) d enriched Hwf Henr) as [sql Hsql].
    pose proof Hwf as [[ts [Hts Hparse]] [Hu _]].
    destruct (fromisoformat L (replace "Z" "+00:00" ts)) as [parsed |] eqn:Eparse;
      [| contradiction].
    destruct (lookup "user_id" d) as [user_id |] eqn:Euser; [| contradiction].
    destruct Henr as [d' [-> [_ [_ [_ [_ Hother]]]]]].
    exists sql, (DataProcessor.s3_key L parsed user_id).
    split; [exact Hsql |].
    rewrite Erun. unfold stored. rewrite store_in_redshift_steps, Hsql.
    destruct (aws w h1 "redshift-data" "execute_statement" (redshift_args environ sql))
      as [response | e]; [| reflexivity].
    destruct (getitem response "Id") as [id | e]; [| reflexivity].
    assert (Ht' : lookup "timestamp" d' = Some (PStr ts))
      by (rewrite (Hother "timestamp") by reflexivity; exact Hts).
    assert (Hu' : lookup "user_id" d' = Some user_id)
      by (rewrite (Hother "user_id") by reflexivity; exact Euser).
    rewrite (store_in_s3_steps L environ d' ts parsed user_id w _ Ht' Eparse Hu').
    cbn zeta.
    destruct (aws w _ "s3" "put_object" _) as [reply | e]; reflexivity.
  - intros d. apply validate_data_spec.
Qed.

(** ** Data processor: the batch *)

Definition is_ok {A} (r : result A) : bool :=
  match r with
  | Ok _ => true
  | Raise _ => false
  end.

(** the elements of [l] whose flag is [keep] *)
Fixpoint select {A} (keep : bool) (flags : list bool) (l : list A) : list A :=
  match flags, l with
  | flag :: flags', x :: l' =>
      if Bool.eqb flag keep then x :: select keep flags' l' else select keep flags' l'
  | _, _ => []
  end.

Section BatchFacts.

Variable L : pylib.
Variable environ : string -> option string.
Variable w : world.

(** whether the processing of each record returned, every record being
    processed in the history its predecessors left *)
Fixpoint outcomes (records : list pyval) (h : history) : list bool :=
  match records with
  | [] => []
  | record :: rest =>
      is_ok (fst (DataProcessor.process_one L environ record w h))
      :: outcomes rest (snd (DataProcessor.process_one L environ record w h))
  end.

Lemma process_one_returns_sequence_number record h x :
  fst (DataProcessor.process_one L environ record w h) = Ok x ->
  DataProcessor.sequence_number record = Ok x.
Proof.
  unfold DataProcessor.process_one, bind, lift.
  destruct (DataProcessor.decode L record); [| discriminate].
  destruct (DataProcessor.process_record L environ _ w h) as [[? | ?] ?]; [| discriminate].
  destruct (DataProcessor.store_in_redshift L environ _ w _) as [[? | ?] ?]; [| discriminate].
  destruct (DataProcessor.store_in_s3 L environ _ w _) as [[? | ?] ?]; [| discriminate].
  cbn. auto.
Qed.

Lemma loop_body_spec record seq processed failed h :
  DataProcessor.sequence_number record = Ok seq ->
  DataProcessor.loop_body L environ (processed, failed) record w h
  = (Ok (if is_ok (fst (DataProcessor.process_one L environ record w h))
         then (append processed seq, failed)
         else (processed, append failed seq)),
     snd (DataProcessor.process_one L environ record w h)).
Proof.
  intros Hseq. unfold DataProcessor.loop_body, try_except, bind, lift, ret.
  pose proof (process_one_returns_sequence_number record h) as R.
  destruct (DataProcessor.process_one L environ record w h) as [[x | e] h1]; cbn in *.
  - specialize (R x eq_refl). assert (x = seq) by congruence. subst x. reflexivity.
  - rewrite Hseq. reflexivity.
Qed.

Lemma loop_spec records :
  forall seqs, Forall2 (fun record seq => DataProcessor.sequence_number record = Ok seq)
                 records seqs ->
  forall processed failed h, exists h',
    fold_each records (DataProcessor.loop_body L environ) (processed, failed) w h
    = (Ok ((processed ++ select true (outcomes records h) seqs)%list,
           (failed ++ select false (outcomes records h) seqs)%list), h').
Proof.
  induction records as [| record rest IH]; intros seqs Hseqs processed failed h.
  - inversion Hseqs; subst. cbn. rewrite !app_nil_r. eexists. reflexivity.
  - inversion Hseqs as [| r s rs ss Hseq Hrest]; subst.
    cbn [fold_each]. unfold bind. rewrite (loop_body_spec record s processed failed h Hseq).
    cbn [outcomes select].
    destruct (is_ok (fst (DataProcessor.process_one L environ record w h))); cbn [Bool.eqb].
    + destruct (IH ss Hrest (append processed s) failed
                  (snd (DataProcessor.process_one L environ record w h))) as [h' E].
      exists h'. rewrite E. unfold append. rewrite <- app_assoc. reflexivity.
    + destruct (IH ss Hrest processed (append failed s)
                  (snd (DataProcessor.process_one L environ record w h))) as [h' E].
      exists h'. rewrite E. unfold append. rewrite <- app_assoc. reflexivity.
Qed.

Lemma length_outcomes records h : List.length (outcomes records h) = List.length records.
Proof.
  revert h. induction records as [| r rest IH]; intros h; simpl; [reflexivity |].
  rewrite IH. reflexivity.
Qed.

End BatchFacts.

Lemma select_partition {A} (flags : list bool) :
  forall (l : list A), List.length flags = List.length l ->
    (List.length (select true flags l) + List.length (select false flags l)
     = List.length l)%nat /\
    Permutation (select true flags l ++ select false flags l) l.
Proof.
  induction flags as [| flag flags IH]; intros [| x l] Hlen; try discriminate Hlen.
  - split; [reflexivity | constructor].
  - injection Hlen as Hlen. destruct (IH l Hlen) as [Hcount Hperm].
    destruct flag; cbn.
    + split; [lia |]. constructor. exact Hperm.
    + split; [lia |]. apply Permutation_sym. apply Permutation_cons_app.
      apply Permutation_sym. exact Hperm.
Qed.

Lemma select_subset {A} (keep : bool) (flags : list bool) :
  forall (l : list A) x, In x (select keep flags l) -> In x l.
Proof.
  induction flags as [| flag flags IH]; intros [| y l] x H; cbn in H; try contradiction.
  destruct (Bool.eqb flag keep).
  - destruct H as [-> | H]; [left; reflexivity | right; apply IH; exact H].
  - right. apply IH. exact H.
Qed.

Lemma select_disjoint {A} (flags : list bool) :
  forall (l : list A), NoDup l ->
    forall x, In x (select true flags l) -> ~ In x (select false flags l).
Proof.
  induction flags as [| flag flags IH]; intros [| y l] Hnd x H; cbn in H; try contradiction.
  inversion Hnd as [| y' l' Hy Hnd']; subst.
  destruct flag; cbn in *.
  - destruct H as [-> | H].
    + intros Hin. apply Hy. eapply select_subset. exact Hin.
    + apply IH; assumption.
  - intros [-> | Hin].
    + apply Hy. eapply select_subset. exact H.
    + revert Hin. apply IH; assumption.
Qed.

Lemma failing_record_is_reported L environ w records :
  forall (seqs : list pyval) h record (seq : pyval),
    List.length records = List.length seqs ->
    In (record, seq) (combine records seqs) ->
    (forall h0, is_ok (fst (DataProcessor.process_one L environ record w h0)) = false) ->
    In seq (select false (outcomes L environ w records h) seqs).
Proof.
  induction records as [| r rest IH]; intros [| s seqs] h record seq Hlen Hin Hfail;
    try contradiction; try discriminate Hlen.
  injection Hlen as Hlen. cbn [outcomes select]. destruct Hin as [Hin | Hin].
  - injection Hin as -> ->. rewrite Hfail. cbn. left. reflexivity.
  - destruct (is_ok _); cbn; [| right]; eapply IH; eassumption.
Qed.

Lemma decode_failure_fails L environ w record e h :
  DataProcessor.decode L record = Raise e ->
  is_ok (fst (DataProcessor.process_one L environ record w h)) = false.
Proof.
  intros H. unfold DataProcessor.process_one, bind, lift. rewrite H. reflexivity.
Qed.

(** C7: for a batch whose records carry their sequence numbers, the handler
    returns 200; a record goes to [processed_records] when its processing
    returned and to [failed_records] when it raised, and the records after
    it are processed all the same; the two counts add up to the number of
    records, the two lists together are the sequence numbers of the batch,
    and they share no sequence number when those of the batch are
    distinct. *)
Theorem C7_every_record_is_processed_or_failed :
  forall (L : pylib) (environ : string -> option string) (event : pyval)
         (records seqs : list pyval) (w : world) (h : history),
    getitem event "Records" = Ok (PList records) ->
    Forall2 (fun record seq => DataProcessor.sequence_number record = Ok seq) records seqs ->
    exists processed failed h',
      DataProcessor.lambda_handler L environ event w h
      = (Ok {| statusCode := 200;
               body := [("processed", of_nat (List.length processed));
                        ("failed", of_nat (List.length failed));
                        ("processed_records", PList processed);
                        ("failed_records", PList failed)] |}, h') /\
      processed = select true (outcomes L environ w records h) seqs /\
      failed = select false (outcomes L environ w records h) seqs /\
      (List.length processed + List.length failed = List.length records)%nat /\
      Permutation (processed ++ failed) seqs /\
      (NoDup seqs -> forall seq, In seq processed -> ~ In seq failed) /\
      (forall record seq,
          In (record, seq) (combine records seqs) ->
          (forall h0, is_ok (fst (DataProcessor.process_one L environ record w h0)) = false) ->
          In seq failed) /\
      (forall record seq e,
          In (record, seq) (combine records seqs) ->
          DataProcessor.decode L record = Raise e ->
          In seq failed).
Proof.
  intros L environ event records seqs w h Hrecords Hseqs.
  assert (Hlen : List.length records = List.length seqs)
    by (eapply Forall2_length; exact Hseqs).
  destruct (loop_spec L environ w records seqs Hseqs [] [] h) as [h' Eloop].
  exists (select true (outcomes L environ w records h) seqs),
    (select false (outcomes L environ w records h) seqs), h'.
  assert (Hflags : List.length (outcomes L environ w records h) = List.length seqs)
    by (rewrite length_outcomes; exact Hlen).
  destruct (select_partition (outcomes L environ w records h) seqs Hflags) as [Hcount Hperm].
  split; [| split; [reflexivity | split; [reflexivity | split; [| split; [| split; [| split]]]]]].
  - unfold DataProcessor.lambda_handler, try_except, bind, lift, ret.
    rewrite Hrecords. cbn [len iter]. rewrite Eloop. reflexivity.
  - rewrite Hcount. symmetry. exact Hlen.
  - exact Hperm.
  - intros Hnd. apply select_disjoint. exact Hnd.
  - intros record seq Hin Hfail.
    apply (failing_record_is_reported L environ w records seqs h record seq Hlen Hin Hfail).
  - intros record seq e Hin He.
    apply (failing_record_is_reported L environ w records seqs h record seq Hlen Hin).
    intros h0. eapply decode_failure_fails. exact He.
Qed.

(** ** Cost optimizers: which calls change a resource *)

(** boto3 operations that only read *)
Definition is_read_operation (operation : string) : bool :=
  String.prefix "describe_" operation ||
  String.prefix "get_" operation ||
  String.prefix "list_" operation.

(** publishing a notification or a metric *)
Definition is_publication (client operation : string) : bool :=
  ((client =? "sns") && (operation =? "publish")) ||
  ((client =? "cloudwatch") && (operation =? "put_metric_data")).

(** a call that changes the configuration of a resource *)
Definition modifies_resource (c : call) : bool :=
  match c with
  | Sdk client operation _ =>
      negb (is_read_operation operation) && negb (is_publication client operation)
  | Utcnow | Uuid4 => false
  end.

(** the keyword argument [key] of a call is the string [value] *)
Definition named (key value : string) (kwargs : list (string * pyval)) : bool :=
  match lookup key kwargs with
  | Some v => str_is v value
  | None => false
  end.

(** the two changes [apply_automatic_optimizations] is written to make: the
    memory size of the data-processor function and a uniform rescaling of
    the shards of a stream *)
Definition is_automatic_optimization (c : call) : bool :=
  match c with
  | Sdk client operation kwargs =>
      ((client =? "lambda") && (operation =? "update_function_configuration") &&
       named "FunctionName" AnalyticsCostOptimizer.data_processor_function kwargs) ||
      ((client =? "kinesis") && (operation =? "update_shard_count") &&
       named "ScalingType" "UNIFORM_SCALING" kwargs)
  | Utcnow | Uuid4 => false
  end.

Definition reads_or_publishes (c : call) : Prop := modifies_resource c = false.

Definition reads_publishes_or_optimizes (c : call) : Prop :=
  modifies_resource c = false \/ is_automatic_optimization c = true.

Create HintDb emits discriminated.

#[local] Hint Extern 1 (reads_or_publishes _) => reflexivity : emits.
#[local] Hint Extern 1 (reads_publishes_or_optimizes _) => (left; reflexivity) : emits.
#[local] Hint Extern 2 (reads_publishes_or_optimizes _) => (right; reflexivity) : emits.

Ltac emits_with_hints := repeat (emits_step; auto with emits).

Section Project3.

Variable L : pylib.
Variable environ : string -> option string.

Lemma is_instance_idle_reads id : emits reads_or_publishes (CostOptimizer.is_instance_idle id).
Proof. unfold CostOptimizer.is_instance_idle. emits_with_hints. Qed.

Lemma is_instance_oversized_reads id ty :
  emits reads_or_publishes (CostOptimizer.is_instance_oversized id ty).
Proof. unfold CostOptimizer.is_instance_oversized. emits_with_hints. Qed.

Lemma is_volume_unused_reads id : emits reads_or_publishes (CostOptimizer.is_volume_unused id).
Proof. unfold CostOptimizer.is_volume_unused. emits_with_hints. Qed.

#[local] Hint Resolve is_instance_idle_reads is_instance_oversized_reads is_volume_unused_reads : emits.

Lemma check_idle_instances_reads : emits reads_or_publishes CostOptimizer.check_idle_instances.
Proof.
  unfold CostOptimizer.check_idle_instances, CostOptimizer.scan_reservation,
    CostOptimizer.note_idle_instance.
  emits_with_hints.
Qed.

Lemma check_oversized_instances_reads :
  emits reads_or_publishes CostOptimizer.check_oversized_instances.
Proof. unfold CostOptimizer.check_oversized_instances. emits_with_hints. Qed.

Lemma check_unused_volumes_reads : emits reads_or_publishes CostOptimizer.check_unused_volumes.
Proof. unfold CostOptimizer.check_unused_volumes. emits_with_hints. Qed.

Lemma check_unused_elastic_ips_reads :
  emits reads_or_publishes CostOptimizer.check_unused_elastic_ips.
Proof. unfold CostOptimizer.check_unused_elastic_ips. emits_with_hints. Qed.

Lemma get_cost_analysis_reads : emits reads_or_publishes (CostOptimizer.get_cost_analysis L).
Proof. unfold CostOptimizer.get_cost_analysis. emits_with_hints. Qed.

Lemma send_cost_optimization_notification_publishes arn optimizations cost_analysis :
  emits reads_or_publishes
    (CostOptimizer.send_cost_optimization_notification L arn optimizations cost_analysis).
Proof. unfold CostOptimizer.send_cost_optimization_notification. emits_with_hints. Qed.

Lemma report_found_is_silent what found results :
  emits reads_or_publishes (CostOptimizer.report_found what found results).
Proof. unfold CostOptimizer.report_found. emits_with_hints. Qed.

#[local] Hint Resolve check_idle_instances_reads check_oversized_instances_reads
  check_unused_volumes_reads check_unused_elastic_ips_reads get_cost_analysis_reads
  send_cost_optimization_notification_publishes report_found_is_silent : emits.

(** the project3 cost optimizer only reads and publishes, in whatever
    module namespace it runs *)
Lemma cost_optimizer_reads_or_publishes globals event :
  emits reads_or_publishes (CostOptimizer.handler_in L environ globals event).
Proof. unfold CostOptimizer.handler_in. emits_with_hints. Qed.

End Project3.

Section Ecs.

Variable L : pylib.
Variable environ : string -> option string.

Lemma os_environ_item_is_silent globals key :
  emits reads_or_publishes (EcsCostOptimizer.os_environ_item environ globals key).
Proof. unfold EcsCostOptimizer.os_environ_item. emits_with_hints. Qed.

Lemma get_cost_data_reads start_date end_date :
  emits reads_or_publishes (EcsCostOptimizer.get_cost_data start_date end_date).
Proof. unfold EcsCostOptimizer.get_cost_data. emits_with_hints. Qed.

Lemma get_rightsizing_recommendations_reads :
  emits reads_or_publishes EcsCostOptimizer.get_rightsizing_recommendations.
Proof. unfold EcsCostOptimizer.get_rightsizing_recommendations. emits_with_hints. Qed.

Lemma get_reservation_recommendations_reads :
  emits reads_or_publishes EcsCostOptimizer.get_reservation_recommendations.
Proof. unfold EcsCostOptimizer.get_reservation_recommendations. emits_with_hints. Qed.

Lemma send_recommendations_publishes arn recommendations :
  emits reads_or_publishes (EcsCostOptimizer.send_recommendations L arn recommendations).
Proof. unfold EcsCostOptimizer.send_recommendations. emits_with_hints. Qed.

#[local] Hint Resolve os_environ_item_is_silent get_cost_data_reads
  get_rightsizing_recommendations_reads get_reservation_recommendations_reads
  send_recommendations_publishes : emits.

(** the lmsEcs cost optimizer only reads Cost Explorer and publishes *)
Lemma ecs_cost_optimizer_reads_or_publishes globals event :
  emits reads_or_publishes (EcsCostOptimizer.lambda_handler_in L environ globals event).
Proof. unfold EcsCostOptimizer.lambda_handler_in. emits_with_hints. Qed.

Lemma ecs_cost_optimizer_handler_fails event w h :
  EcsCostOptimizer.lambda_handler L environ event w h
  = (Ok (error_response (NameError "os")), h).
Proof. reflexivity. Qed.

End Ecs.

Section Project6.

Variable L : pylib.
Variable environ : string -> option string.

Lemma get_current_costs_reads :
  emits reads_publishes_or_optimizes (AnalyticsCostOptimizer.get_current_costs L).
Proof. unfold AnalyticsCostOptimizer.get_current_costs. emits_with_hints. Qed.

Lemma analyze_kinesis_utilization_reads :
  emits reads_publishes_or_optimizes (AnalyticsCostOptimizer.analyze_kinesis_utilization environ).
Proof.
  unfold AnalyticsCostOptimizer.analyze_kinesis_utilization, AnalyticsCostOptimizer.failed.
  emits_with_hints.
Qed.

Lemma analyze_redshift_utilization_reads :
  emits reads_publishes_or_optimizes (AnalyticsCostOptimizer.analyze_redshift_utilization environ).
Proof.
  unfold AnalyticsCostOptimizer.analyze_redshift_utilization, AnalyticsCostOptimizer.failed.
  emits_with_hints.
Qed.

Lemma analyze_sagemaker_utilization_reads :
  emits reads_publishes_or_optimizes (AnalyticsCostOptimizer.analyze_sagemaker_utilization environ).
Proof.
  unfold AnalyticsCostOptimizer.analyze_sagemaker_utilization, AnalyticsCostOptimizer.failed.
  emits_with_hints.
Qed.

Lemma analyze_lambda_utilization_reads :
  emits reads_publishes_or_optimizes AnalyticsCostOptimizer.analyze_lambda_utilization.
Proof.
  unfold AnalyticsCostOptimizer.analyze_lambda_utilization, AnalyticsCostOptimizer.failed.
  emits_with_hints.
Qed.

Lemma analyze_s3_utilization_reads :
  emits reads_publishes_or_optimizes (AnalyticsCostOptimizer.analyze_s3_utilization environ).
Proof.
  unfold AnalyticsCostOptimizer.analyze_s3_utilization, AnalyticsCostOptimizer.failed.
  emits_with_hints.
Qed.

#[local] Hint Resolve get_current_costs_reads analyze_kinesis_utilization_reads
  analyze_redshift_utilization_reads analyze_sagemaker_utilization_reads
  analyze_lambda_utilization_reads analyze_s3_utilization_reads : emits.

Lemma analyze_resource_utilization_reads :
  emits reads_publishes_or_optimizes
    (AnalyticsCostOptimizer.analyze_resource_utilization environ).
Proof. unfold AnalyticsCostOptimizer.analyze_resource_utilization. emits_with_hints. Qed.

(** the only calls of [apply_automatic_optimizations] besides the clock are
    the Lambda memory update and the Kinesis shard update *)
Lemma apply_one_optimizes applied rec :
  emits reads_publishes_or_optimizes (AnalyticsCostOptimizer.apply_one L environ applied rec).
Proof. unfold AnalyticsCostOptimizer.apply_one. emits_with_hints. Qed.

#[local] Hint Resolve apply_one_optimizes : emits.

Lemma apply_automatic_optimizations_optimizes recommendations :
  emits reads_publishes_or_optimizes
    (AnalyticsCostOptimizer.apply_automatic_optimizations L environ recommendations).
Proof. unfold AnalyticsCostOptimizer.apply_automatic_optimizations. emits_with_hints. Qed.

Lemma generate_cost_optimization_report_reads costs utilization recs applied savings :
  emits reads_publishes_or_optimizes
    (AnalyticsCostOptimizer.generate_cost_optimization_report L costs utilization recs
       applied savings).
Proof. unfold AnalyticsCostOptimizer.generate_cost_optimization_report. emits_with_hints. Qed.

Lemma publish_cost_optimization_metrics_publishes costs savings :
  emits reads_publishes_or_optimizes
    (AnalyticsCostOptimizer.publish_cost_optimization_metrics costs savings).
Proof. unfold AnalyticsCostOptimizer.publish_cost_optimization_metrics. emits_with_hints. Qed.

#[local] Hint Resolve analyze_resource_utilization_reads
  apply_automatic_optimizations_optimizes generate_cost_optimization_report_reads
  publish_cost_optimization_metrics_publishes : emits.

Lemma analytics_cost_optimizer_calls event :
  emits reads_publishes_or_optimizes (AnalyticsCostOptimizer.lambda_handler L environ event).
Proof. unfold AnalyticsCostOptimizer.lambda_handler. emits_with_hints. Qed.

End Project6.

(** an account whose data-processor function has 1024 MB of memory *)
Definition oversized_function_world : world :=
  {| aws := fun _ client operation _ =>
       if operation =? "get_function"
       then Ok (PDict [("Configuration",
                        PDict [("MemorySize", PNum 1024); ("Timeout", PNum 30)])])
       else if operation =? "get_metric_statistics"
       then Ok (PDict [("Datapoints", PList [])])
       else Ok (PDict []);
     clock := fun _ => 0%Z;
     uuid := fun _ => "" |}.

Definition no_environment : string -> option string := fun _ => None.

Definition scheduled_event : pyval := PDict [("source", PStr "aws.events")].

Definition memory_update : call :=
  Sdk "lambda" "update_function_configuration"
    [("FunctionName", PStr AnalyticsCostOptimizer.data_processor_function);
     ("MemorySize", PNum 256)].

(** C2, as stated, fails: in an account whose data-processor function has
    more than 512 MB, the project6 cost optimizer sets its memory to 256 MB,
    which changes the configuration of a Lambda function. *)
Lemma C2_counterexample_memory_update :
  In memory_update
    (snd (run (AnalyticsCostOptimizer.lambda_handler sample_lib no_environment
                 scheduled_event) oversized_function_world)) /\
  modifies_resource memory_update = true /\
  ~ Forall (fun c => modifies_resource c = false)
      (snd (run (AnalyticsCostOptimizer.lambda_handler sample_lib no_environment
                   scheduled_event) oversized_function_world)).
Proof.
  assert (Hin : In memory_update
            (snd (run (AnalyticsCostOptimizer.lambda_handler sample_lib no_environment
                         scheduled_event) oversized_function_world))).
  { vm_compute. tauto. }
  split; [exact Hin |]. split; [reflexivity |].
  intros Hall. rewrite Forall_forall in Hall. specialize (Hall _ Hin). discriminate Hall.
Qed.

(** C2, amended: the project3 and lmsEcs cost optimizers only read and
    publish (as deployed they call nothing at all, because [os] is unbound);
    the project6 cost optimizer reads, publishes its metrics, and besides
    that only makes the two changes of [apply_automatic_optimizations]: the
    memory size of the data-processor Lambda function and the shard count
    of the Kinesis stream.  None of them changes EC2 instances, Redshift
    nodes, SageMaker instances or EBS volumes. *)
Theorem C2_cost_optimizers_only_read_publish_or_optimize :
  forall (L : pylib) (environ : string -> option string) (event : pyval)
         (w : world) (h : history),
    snd (CostOptimizer.handler L environ event w h) = h /\
    (forall globals, exists t,
        snd (CostOptimizer.handler_in L environ globals event w h) = (h ++ t)%list /\
        Forall (fun c => modifies_resource c = false) t) /\
    snd (EcsCostOptimizer.lambda_handler L environ event w h) = h /\
    (forall globals, exists t,
        snd (EcsCostOptimizer.lambda_handler_in L environ globals event w h) = (h ++ t)%list /\
        Forall (fun c => modifies_resource c = false) t) /\
    (exists t,
        snd (AnalyticsCostOptimizer.lambda_handler L environ event w h) = (h ++ t)%list /\
        Forall (fun c => modifies_resource c = false \/ is_automatic_optimization c = true) t).
Proof.
  intros L environ event w h. split; [| split; [| split; [| split]]].
  - rewrite cost_optimizer_handler_fails. reflexivity.
  - intros globals. apply (cost_optimizer_reads_or_publishes L environ globals event w h).
  - rewrite ecs_cost_optimizer_handler_fails. reflexivity.
  - intros globals. apply (ecs_cost_optimizer_reads_or_publishes L environ globals event w h).
  - apply (analytics_cost_optimizer_calls L environ event w h).
Qed.

(** ** The dispatch of the two remediation handlers, [os] bound or not *)

Lemma emits_bind_lift {A B} (P : call -> Prop) (r : result A) (f : A -> M B) :
  match r with
  | Ok a => emits P (f a)
  | Raise _ => True
  end ->
  emits P (bind (lift r) f).
Proof.
  intros H w h. unfold bind, lift. destruct r as [a | e].
  - apply H.
  - exists []. simpl. rewrite app_nil_r. auto.
Qed.

Definition is_ec2_or_ssm (c : call) : bool :=
  match c with
  | Sdk client _ _ => (client =? "ec2") || (client =? "ssm")
  | Utcnow | Uuid4 => false
  end.

Definition matches_no_pattern (name : string) : bool :=
  negb (contains "high-cpu" (lower name)) &&
  negb (contains "high-memory" (lower name)) &&
  negb (contains "disk-space" (lower name)) &&
  negb (contains "instance-status" (lower name)).

(** An alarm whose name matches none of the four patterns causes no EC2 and
    no SSM call, whatever the module namespace. *)
Lemma unmatched_alarm_calls_no_ec2_or_ssm L environ globals event name state reason :
  alarm_fields event = Ok (PStr name, state, reason) ->
  matches_no_pattern name = true ->
  emits (fun c => is_ec2_or_ssm c = false)
    (AutoRemediation.handler_in L environ globals event).
Proof.
  unfold alarm_fields, matches_no_pattern. intros Hfields Hnone.
  repeat (apply andb_true_iff in Hnone; destruct Hnone as [Hnone ?]).
  repeat match goal with
         | H : negb _ = true |- _ => apply negb_true_iff in H
         end.
  unfold AutoRemediation.handler_in.
  apply emits_try_except; [| intros; apply emits_ret].
  destruct (getitem event "detail") as [detail |]; [| discriminate].
  apply emits_bind_lift.
  destruct (getitem detail "alarmName") as [alarm_name |]; [| discriminate].
  apply emits_bind_lift.
  destruct (getitem detail "state") as [st |]; [| discriminate].
  apply emits_bind_lift.
  destruct (getitem st "value") as [alarm_state |]; [| discriminate].
  apply emits_bind_lift.
  destruct (getitem st "reason") as [alarm_reason |]; [| discriminate].
  apply emits_bind_lift.
  injection Hfields as -> -> ->.
  apply emits_bind; [apply emits_os_environ_get | intros sns_topic_arn].
  apply emits_bind_lift. cbn [lower_of].
  repeat match goal with
         | H : contains _ (lower name) = false |- _ => rewrite H; clear H
         end.
  unfold AutoRemediation.handle_generic_alarm, AutoRemediation.send_notification.
  emits_auto.
Qed.

(** the two fields the compliance monitor reads from the event *)
Definition compliance_fields (event : pyval) : result (pyval * pyval) :=
  match get event "detail" (PDict []) with
  | Raise e => Raise e
  | Ok detail =>
  match get detail "configRuleName" PNone with
  | Raise e => Raise e
  | Ok config_rule_name =>
  match get detail "newEvaluationResult" (PDict []) with
  | Raise e => Raise e
  | Ok evaluation =>
  match get evaluation "complianceType" PNone with
  | Raise e => Raise e
  | Ok compliance_type => Ok (config_rule_name, compliance_type)
  end end end end.

(** With [os] bound, an evaluation that is not NON_COMPLIANT is reported as
    passed, and nothing but the notification is attempted. *)
Lemma compliant_evaluation_passes_when_os_is_bound L environ event rule compliance w h :
  compliance_fields event = Ok (rule, compliance) ->
  str_is compliance "NON_COMPLIANT" = false ->
  exists t,
    ComplianceMonitor.handler_in L environ (with_os ComplianceMonitor.module_globals)
      event w h
    = (Ok {| statusCode := 200;
             body := [("message", PStr "Compliance monitoring completed");
                      ("rule", rule);
                      ("compliance", compliance);
                      ("action",
                       PStr ("Compliance check passed for rule: " ++ str_of L rule))] |},
       (h ++ t)%list) /\
    Forall clock_or_publish t.
Proof.
  unfold compliance_fields. intros Hfields Hok.
  unfold ComplianceMonitor.handler_in, with_os, try_except, bind, lift, os_environ_get,
    resolve_global.
  cbn [existsb String.eqb Ascii.eqb Bool.eqb orb ret fst snd].
  destruct (get event "detail" (PDict [])) as [detail |]; [| discriminate].
  destruct (get detail "configRuleName" PNone) as [config_rule_name |]; [| discriminate].
  destruct (get detail "newEvaluationResult" (PDict [])) as [evaluation |]; [| discriminate].
  destruct (get evaluation "complianceType" PNone) as [compliance_type |]; [| discriminate].
  injection Hfields as -> ->. rewrite Hok. unfold ret. cbn [fst snd].
  assert (Hquiet : exists t : list call,
             (Ok {| statusCode := 200;
                    body := [("message", PStr "Compliance monitoring completed");
                             ("rule", rule); ("compliance", compliance);
                             ("action",
                              PStr ("Compliance check passed for rule: " ++ str_of L rule))] |},
              h)
             = (Ok {| statusCode := 200;
                      body := [("message", PStr "Compliance monitoring completed");
                               ("rule", rule); ("compliance", compliance);
                               ("action",
                                PStr ("Compliance check passed for rule: " ++
                                      str_of L rule))] |},
                (h ++ t)%list) /\ Forall clock_or_publish t).
  { exists []. rewrite app_nil_r. split; [reflexivity | constructor]. }
  destruct (environ "COMPLIANCE_SNS_TOPIC_ARN") as [arn |];
    cbv beta iota delta [bind ret truthy_opt opt_val];
    [destruct (negb (String.eqb arn "")) |]; try exact Hquiet.
  unfold ComplianceMonitor.send_compliance_notification, try_except, bind, utcnow, sdk, ret.
  cbn beta iota delta [fst snd].
  match goal with
  | |- context [aws w ?h1 "sns" "publish" ?args] => destruct (aws w h1 "sns" "publish" args)
  end;
    eexists; (split; [rewrite <- app_assoc; reflexivity |]);
    (constructor; [left; reflexivity | constructor; [right; reflexivity | constructor]]).
Qed.

(** * Concrete runs *)

(** ** Contact form *)

Definition callback_form : list (string * pyval) :=
  [("name", PStr "Ada Lovelace");
   ("email", PStr "ada@example.org");
   ("subject", PStr "Engines");
   ("message", PStr "Please call me back.");
   ("phone", PStr "(555) 010-9999")].

Definition callback_event : pyval := PDict [("body", PDict callback_form)].

(** DynamoDB accepts the item, SNS refuses the notification *)
Definition sns_down_world : world :=
  {| aws := fun _ client _ _ =>
       if client =? "sns" then Raise (ClientError "AuthorizationError")
       else Ok (PDict []);
     clock := fun _ => 0%Z;
     uuid := fun _ => "00000000-0000-4000-8000-000000000000" |}.

Lemma agreeable_world_stores : put_item_succeeds agreeable_world.
Proof. intros h item. eexists. reflexivity. Defined.

Lemma sns_down_world_stores : put_item_succeeds sns_down_world.
Proof. intros h item. eexists. reflexivity. Defined.

Lemma C3_witness_callback_form :
  ContactHandler.parse_body sample_lib callback_event = Ok (PDict callback_form) /\
  text_form callback_form = true /\
  rejected callback_form = false /\
  exists item text now,
    ContactHandler.lambda_handler sample_lib callback_event agreeable_world []
    = (Ok (ContactHandler.create_response 200
             [("message", PStr "Contact form submitted successfully");
              ("submission_id", PStr (uuid agreeable_world []));
              ("timestamp", PStr now)]),
       ([] ++ [Uuid4; Utcnow; Utcnow;
               Sdk "dynamodb" "put_item" (ContactHandler.put_item_args item);
               Utcnow;
               Sdk "sns" "publish"
                 (ContactHandler.publish_args sample_lib
                    (PStr (field_text callback_form "subject")) text);
               Utcnow])%list) /\
    lookup "submission_id" item = Some (PStr (uuid agreeable_world [])) /\
    lookup "status" item = Some (PStr "new").
Proof.
  split; [reflexivity |]. split; [reflexivity |]. split; [reflexivity |].
  exact (proj2 (C3_validate_then_store_then_publish sample_lib callback_event callback_form
                  agreeable_world [] eq_refl eq_refl)
           eq_refl agreeable_world_stores).
Defined.

Lemma C10_witness_sns_down :
  put_item_succeeds sns_down_world /\
  exists resp item t,
    ContactHandler.lambda_handler sample_lib callback_event sns_down_world []
    = (Ok resp,
       ([] ++ [Uuid4; Utcnow; Utcnow;
               Sdk "dynamodb" "put_item" (ContactHandler.put_item_args item)] ++ t)%list) /\
    ContactHandler.statusCode resp = 200%Z /\
    lookup "submission_id" (ContactHandler.body resp) = Some (PStr (uuid sns_down_world [])) /\
    lookup "submission_id" item = Some (PStr (uuid sns_down_world [])) /\
    Forall (fun c => is_dynamodb c = false) t.
Proof.
  split; [exact sns_down_world_stores |].
  apply (C10_notification_failure_keeps_success sample_lib callback_event
           (PDict callback_form)
           {| ContactHandler.valid := true; ContactHandler.errors := [] |}
           sns_down_world []).
  - reflexivity.
  - vm_compute. reflexivity.
  - reflexivity.
  - exact sns_down_world_stores.
Defined.

(** the notification was attempted and refused, and the answer is still 200 *)
Example sns_down_run :
  run (ContactHandler.lambda_handler sample_lib callback_event) sns_down_world
  = (Ok (ContactHandler.create_response 200
           [("message", PStr "Contact form submitted successfully");
            ("submission_id", PStr "00000000-0000-4000-8000-000000000000");
            ("timestamp", PStr "2024-01-15T10:30:00")]),
     snd (run (ContactHandler.lambda_handler sample_lib callback_event) sns_down_world)) /\
  List.length (filter is_publish
                 (snd (run (ContactHandler.lambda_handler sample_lib callback_event)
                         sns_down_world))) = 1%nat /\
  List.length (filter is_dynamodb
                 (snd (run (ContactHandler.lambda_handler sample_lib callback_event)
                         sns_down_world))) = 1%nat.
Proof. split; [reflexivity |]. split; reflexivity. Qed.

(** ** Data processor *)

Definition purchase_record : pyval :=
  PDict [("kinesis", PDict [("data", PStr "c2FtcGxl"); ("sequenceNumber", PStr "4959")])].

(** a record whose data is not base64 *)
Definition garbled_record : pyval :=
  PDict [("kinesis", PDict [("data", PStr "%%%"); ("sequenceNumber", PStr "4960")])].

Definition kinesis_event : pyval :=
  PDict [("Records", PList [garbled_record; purchase_record])].

(** Redshift returns a statement id, SageMaker a prediction *)
Definition pipeline_world : world :=
  {| aws := fun _ _ operation _ =>
       if operation =? "execute_statement" then Ok (PDict [("Id", PStr "statement-1")])
       else if operation =? "invoke_endpoint" then Ok (PDict [("Body", PStr sample_payload)])
       else Ok (PDict []);
     clock := fun _ => 0%Z;
     uuid := fun _ => "" |}.

Definition purchase_fields : list (string * pyval) :=
  [("timestamp", PStr "2024-01-15T10:30:00Z");
   ("user_id", PStr "user-1");
   ("event_type", PStr "purchase");
   ("value", PNum 120)].

Lemma purchase_is_well_formed : well_formed_record sample_lib purchase_fields.
Proof.
  split; [| split].
  - exists "2024-01-15T10:30:00Z". split; [reflexivity | vm_compute; discriminate].
  - discriminate.
  - exists "purchase". split; [reflexivity |]. right. right. left. reflexivity.
Defined.

Lemma purchase_is_numeric : numeric_fields sample_lib purchase_fields.
Proof.
  split; [exists 120; reflexivity |].
  split; [exists 120 | exists 0]; vm_compute; reflexivity.
Defined.

Lemma C4_witness_purchase_record :
  exists result h1,
    DataProcessor.process_record sample_lib no_environment (PDict purchase_fields)
      pipeline_world [] = (Ok result, h1).
Proof.
  apply (proj1 (proj1 (proj2 (proj2
           (C4_decode_validate_enrich_then_store sample_lib no_environment purchase_record
              pipeline_world [])))
           purchase_fields eq_refl purchase_is_well_formed)).
  exact purchase_is_numeric.
Defined.

(** the purchase is enriched by one ML call and then stored twice; the
    garbled record causes no call *)
Example purchase_record_run :
  map (fun c => match c with
                | Sdk client operation _ => client ++ "." ++ operation
                | Utcnow => "utcnow"
                | Uuid4 => "uuid4"
                end)
    (snd (DataProcessor.process_one sample_lib no_environment purchase_record
            pipeline_world []))
  = ["utcnow"; "sagemaker-runtime.invoke_endpoint"; "redshift-data.execute_statement";
     "s3.put_object"] /\
  snd (DataProcessor.process_one sample_lib no_environment garbled_record pipeline_world [])
  = [].
Proof. split; reflexivity. Qed.

Lemma C7_witness_mixed_batch :
  getitem kinesis_event "Records" = Ok (PList [garbled_record; purchase_record]) /\
  exists processed failed h',
    DataProcessor.lambda_handler sample_lib no_environment kinesis_event pipeline_world []
    = (Ok {| statusCode := 200;
             body := [("processed", of_nat (List.length processed));
                      ("failed", of_nat (List.length failed));
                      ("processed_records", PList processed);
                      ("failed_records", PList failed)] |}, h') /\
    processed = select true
                  (outcomes sample_lib no_environment pipeline_world
                     [garbled_record; purchase_record] [])
                  [PStr "4960"; PStr "4959"] /\
    failed = select false
               (outcomes sample_lib no_environment pipeline_world
                  [garbled_record; purchase_record] [])
               [PStr "4960"; PStr "4959"] /\
    (List.length processed + List.length failed
     = List.length [garbled_record; purchase_record])%nat /\
    Permutation (processed ++ failed) [PStr "4960"; PStr "4959"] /\
    (NoDup [PStr "4960"; PStr "4959"] ->
     forall seq, In seq processed -> ~ In seq failed) /\
    (forall record seq,
        In (record, seq)
          (combine [garbled_record; purchase_record] [PStr "4960"; PStr "4959"]) ->
        (forall h0, is_ok (fst (DataProcessor.process_one sample_lib no_environment record
                                  pipeline_world h0)) = false) ->
        In seq failed) /\
    (forall record seq e,
        In (record, seq)
          (combine [garbled_record; purchase_record] [PStr "4960"; PStr "4959"]) ->
        DataProcessor.decode sample_lib record = Raise e ->
        In seq failed).
Proof.
  split; [reflexivity |].
  apply (C7_every_record_is_processed_or_failed sample_lib no_environment kinesis_event
           [garbled_record; purchase_record] [PStr "4960"; PStr "4959"] pipeline_world []).
  - reflexivity.
  - repeat constructor.
Defined.

Example mixed_batch_run :
  fst (run (DataProcessor.lambda_handler sample_lib no_environment kinesis_event)
         pipeline_world)
  = Ok {| statusCode := 200;
          body := [("processed", PNum 1); ("failed", PNum 1);
                   ("processed_records", PList [PStr "4959"]);
                   ("failed_records", PList [PStr "4960"])] |}.
Proof. reflexivity. Qed.

(** ** Idle instances *)

(** one running instance whose CPU averaged 2 and 4 percent *)
Definition quiet_account : world :=
  {| aws := fun _ _ operation _ =>
       if operation =? "describe_instances"
       then Ok (PDict [("Reservations",
                        PList [PDict [("Instances",
                                       PList [PDict [("InstanceId", PStr "i-0aa1");
                                                     ("InstanceType", PStr "t3.micro")]])]])])
       else if operation =? "get_metric_statistics"
       then Ok (PDict [("Datapoints",
                        PList [PDict [("Average", PNum 2)]; PDict [("Average", PNum 4)]])])
       else Ok (PDict []);
     clock := fun _ => 0%Z;
     uuid := fun _ => "" |}.

Lemma C8_witness_quiet_instance :
  CostOptimizer.is_instance_idle (PStr "i-0aa1") quiet_account []
  = (Ok true,
     [Utcnow;
      Sdk "cloudwatch" "get_metric_statistics" (cpu_query (PStr "i-0aa1") 0)]) /\
  fst (CostOptimizer.check_idle_instances quiet_account []) = Ok [PStr "i-0aa1"].
Proof.
  split.
  - exact (proj1 (C8_idle_iff_mean_cpu_below_threshold (PStr "i-0aa1") quiet_account [])).
  - vm_compute. reflexivity.
Defined.

(** ** Performance tester *)

Definition mixed_results : list (string * pyval) :=
  [("test_timestamp", PStr "2024-01-15T10:30:00");
   ("kinesis_performance", PDict [("status", PStr "PASS")]);
   ("lambda_performance", PDict [("status", PStr "FAIL")]);
   ("sagemaker_performance", PDict [("error", PStr "timeout"); ("status", PStr "ERROR")])].

Lemma C9_witness_mixed_results :
  recommendable mixed_results = true /\
  round64 (spec_overall_score mixed_results)
  = Finite (PerformanceTester.overall_score
              (PerformanceTester.analyze_performance_results (PDict mixed_results))).
Proof.
  split; [reflexivity |].
  apply (proj1 (C9_score_grade_and_load_test mixed_results (fun _ => Ok 120%Q) 900%Q
                  (fun k q H => match H in (_ = r) return
                                  (match r with
                                   | Ok q' => is_binary64 q' = true
                                   | Raise _ => True
                                   end) with
                                | eq_refl => eq_refl
                                end)
                  eq_refl)).
  reflexivity.
Defined.

Example mixed_results_run :
  PerformanceTester.overall_score
    (PerformanceTester.analyze_performance_results (PDict mixed_results)) = 50%Q /\
  PerformanceTester.grade
    (PerformanceTester.analyze_performance_results (PDict mixed_results)) = "F" /\
  PerformanceTester.status_of_load
    (PerformanceTester.run_load_tests (fun _ => Ok 120%Q) 900%Q) = "PASS" /\
  PerformanceTester.status_of_load
    (PerformanceTester.run_load_tests
       (fun k => if (k =? 7)%nat then Raise (ClientError "Throttled") else Ok 120%Q)
       900%Q) = "ERROR".
Proof. repeat split; vm_compute; reflexivity. Qed.

(** * Further properties of the handlers *)

(** ** Strings *)

Lemma string_app_assoc (a b c : string) : (a ++ b) ++ c = a ++ (b ++ c).
Proof. induction a as [| x a IH]; simpl; [reflexivity | rewrite IH; reflexivity]. Qed.

Lemma string_app_nil_r (a : string) : a ++ "" = a.
Proof. induction a as [| x a IH]; simpl; [reflexivity | rewrite IH; reflexivity]. Qed.

Lemma string_length_app (a b : string) :
  String.length (a ++ b) = (String.length a + String.length b)%nat.
Proof. induction a as [| x a IH]; simpl; [reflexivity | rewrite IH; reflexivity]. Qed.

(** ** Auto-remediation: the instance an alarm names *)















(** ** Auto-remediation: what the handler may call *)






(** ** Notifications are best effort *)














(** ** Auto-remediation: the high-CPU branch *)















(** ** Project3 cost optimizer: oversized instances *)











(** one instance whose CPU averaged 10 and 14 percent, without the agent
    that reports memory *)
Definition no_memory_metrics_account : world :=
  {| aws := fun _ _ _ kwargs =>
       if str_is (match lookup "Namespace" kwargs with Some v => v | None => PNone end)
            "AWS/EC2"
       then Ok (PDict [("Datapoints",
                        PList [PDict [("Average", PNum 10)]; PDict [("Average", PNum 14)]])])
       else Raise (ClientError "InvalidParameterValue");
     clock := fun _ => 0%Z;
     uuid := fun _ => "" |}.


Example oversized_without_memory_metrics :
  fst (CostOptimizer.is_instance_oversized (PStr "i-0aa1") (PStr "m5.large")
         no_memory_metrics_account []) = Ok true.
Proof. vm_compute. reflexivity. Qed.

(** ** Project3 cost optimizer: unused volumes *)





(** ** Project3 cost optimizer: unused Elastic IPs *)





(** ** Project3 cost optimizer: the cost analysis *)

Section CostAnalysis.

Variable L : pylib.















End CostAnalysis.


(** ** Project3 cost optimizer: an outage *)







(** ** Security response: what a GuardDuty finding may cause *)







(** ** Security response: Security Hub findings that come from GuardDuty *)

















(** ** Security response: isolating an instance *)












(** ** Security response: reconnaissance findings *)



(** ** Compliance monitor: the ingress rules that are revoked *)


Definition is_open_range (ip_range : pyval) : result bool :=
  match get ip_range "CidrIp" PNone with
  | Ok cidr => Ok (str_is cidr ComplianceMonitor.open_cidr)
  | Raise e => Raise e
  end.

(** one revocation of [rule] for each of its ranges that is open to the
    world, up to a range that is not a dictionary; the flag tells whether
    all the ranges were visited *)
Fixpoint revocations_of_rule (rule : pyval) (ranges : list pyval) : list pyval * bool :=
  match ranges with
  | [] => ([], true)
  | ip_range :: rest =>
      match is_open_range ip_range with
      | Raise _ => ([], false)
      | Ok open =>
          let (more, complete) := revocations_of_rule rule rest in
          ((if open then [rule] else []) ++ more, complete)%list
      end
  end.

Fixpoint revocations (rules : list pyval) : list pyval * bool :=
  match rules with
  | [] => ([], true)
  | rule :: rest =>
      match get rule "IpRanges" (PList []) with
      | Raise _ => ([], false)
      | Ok ip_ranges =>
          match iter ip_ranges with
          | Raise _ => ([], false)
          | Ok ranges =>
              let (first, complete) := revocations_of_rule rule ranges in
              if complete
              then let (more, complete') := revocations rest in
                   ((first ++ more)%list, complete')
              else (first, false)
          end
      end
  end.



Section SecurityGroupViolation.

Variable L : pylib.
Variable resource_id : pyval.










End SecurityGroupViolation.



(** the open rule is revoked, the office rule is not *)
Example open_group_revocations :
  fst (revocations [open_rule; office_rule]) = [open_rule].
Proof. reflexivity. Qed.

(** ** Compliance monitor: what the handler may change *)





(** ** Compliance monitor: bucket encryption *)


Definition is_put_encryption (c : call) : bool :=
  match c with
  | Sdk client operation _ => (client =? "s3") && (operation =? "put_bucket_encryption")
  | Utcnow | Uuid4 => false
  end.



(** ** Contact form: a submission that cannot be stored *)







(** ** Contact form: requests without a usable body *)



(** ** Data processor: a record without a sequence number *)




(** a valid record whose [kinesis] entry has no sequence number *)
Definition unnumbered_record : pyval :=
  PDict [("kinesis", PDict [("data", PStr "c2FtcGxl")])].


(** the unnumbered record was stored before the batch was aborted *)
Example unnumbered_record_run :
  fst (run (DataProcessor.lambda_handler sample_lib no_environment
              (PDict [("Records", PList [unnumbered_record; purchase_record])]))
         pipeline_world) = Raise (KeyError "sequenceNumber") /\
  List.length (filter is_store
                 (snd (run (DataProcessor.lambda_handler sample_lib no_environment
                              (PDict [("Records",
                                       PList [unnumbered_record; purchase_record])]))
                         pipeline_world))) = 2%nat.
Proof. split; reflexivity. Qed.

(** ** Data processor: the prediction of a record *)



(** ** Analytics cost optimizer: the utilization analysis *)



(** ** Analytics cost optimizer: generated recommendations and their application *)


Definition field (rec : pyval) (key : string) : pyval :=
  match getitem rec key with
  | Ok v => v
  | Raise _ => PNone
  end.


















(** ** Performance tester: the report and the score *)










(** ** The contact handler with the seeded defects *)





Lemma notification_returns (L : pylib) (data : pyval) (submission_id : string)
  (w : world) (h : history) :
  exists h', ContactHandler.send_notification_email L data submission_id w h = (Ok tt, h').
Proof.
  unfold ContactHandler.send_notification_email, try_except.
  match goal with
  | |- context [match ?m w h with _ => _ end] => destruct (m w h) as [[[] | e] h1]
  end; eexists; reflexivity.
Qed.













(** a form whose email is not an address and whose message is too short *)
Definition careless_form : list (string * pyval) :=
  [("name", PStr "Ada Lovelace");
   ("email", PStr "not-an-address");
   ("subject", PStr "Engines");
   ("message", PStr "hi")].

Definition careless_event : pyval := PDict [("body", PDict careless_form)].


Example careless_form_is_rejected_by_the_contact_handler :
  ContactHandler.lambda_handler sample_lib careless_event agreeable_world []
  = (Ok (ContactHandler.create_response 400
           [("error", PStr "Validation failed");
            ("details", PList [PStr "Invalid email format";
                               PStr "Message must be at least 10 characters long"])]),
     []).
Proof. vm_compute. reflexivity. Qed.
